(** * krakenbot: a shallow embedding of the trading core

    The development follows the JavaScript sources of the repository,
    one module per source file:
    - [Data]             src/unnamed/part_007 (libs/Data.js), the REST
                         client's retry loops;
    - [Bot]              src/gpt-bot/Bot.js, the order gateway;
    - [ExecutionEngine]  src/gpt-bot/libs/ExecutionEngine.js;
    - [EventEngine]      src/gpt-bot/libs/EventEngine.js;
    - [FeatureBuilder]   src/gpt-bot/libs/GPT5.js, the confluence score;
    - [LLMDecider]       src/gpt-bot/libs/LLMDecider.js;
    - [Level2Logger]     src/unnamed/part_003 (Level2Logger.js).
    The line numbers in the comments are those of these files.  The
    definitions come first, the properties after them.

    Numbers.  A JavaScript number is an IEEE double.  Here a finite
    number is an exact rational ([Q]); the three non-finite values are
    kept as constructors of [Js.num], because the code tests
    [Number.isFinite] at every boundary.  Rounding error, overflow and
    underflow of doubles are therefore outside the model.  Equality of
    finite numbers is [Qeq], written [==].

    Time.  [Date.now()] is an explicit integer argument (milliseconds).

    Effects.  REST calls, emitted events and timer delays are recorded
    in an explicit world that the functions thread; the exchange is an
    oracle.  Log lines are not modelled.

    Strings are byte strings; case conversion is the ASCII one. *)

From Stdlib Require Import ZArith QArith Qround Qminmax Qabs Lqa Lia.
From Stdlib Require Import String Ascii List Bool DecimalString DecimalN NArith
  Sorted.
From stdpp Require Import gmap strings list fin_maps.
Import ListNotations.

Open Scope Z_scope.

(* ===================================================================== *)
(** * JavaScript numbers *)
(* ===================================================================== *)

Module Js.

Inductive num : Type :=
| Fin (q : Q)
| NaN
| PosInf
| NegInf.

(** [Number.isFinite(x)] *)
Definition isFinite (x : num) : bool :=
  match x with Fin _ => true | _ => false end.

(** Truthiness of a number: [0] and [NaN] are falsy. *)
Definition truthy (x : num) : bool :=
  match x with
  | Fin q => negb (Qeq_bool q 0)
  | NaN => false
  | PosInf | NegInf => true
  end.

(** [Array.prototype.slice(-n)]: the last [n] elements. *)
Definition slice_last {A : Type} (n : nat) (l : list A) : list A :=
  skipn (length l - n) l.

(** [arr.filter(Boolean).length] on an array of booleans. *)
Definition count_true (l : list bool) : nat :=
  length (List.filter (fun b : bool => b) l).

(** ASCII [toUpperCase] / [toLowerCase]. *)
Definition upper_ascii (c : ascii) : ascii :=
  let n := nat_of_ascii c in
  if ((97 <=? n)%nat && (n <=? 122)%nat)%bool then ascii_of_nat (n - 32) else c.

Definition lower_ascii (c : ascii) : ascii :=
  let n := nat_of_ascii c in
  if ((65 <=? n)%nat && (n <=? 90)%nat)%bool then ascii_of_nat (n + 32) else c.

Fixpoint toUpperCase (s : string) : string :=
  match s with
  | EmptyString => EmptyString
  | String c r => String (upper_ascii c) (toUpperCase r)
  end.

Fixpoint toLowerCase (s : string) : string :=
  match s with
  | EmptyString => EmptyString
  | String c r => String (lower_ascii c) (toLowerCase r)
  end.

(** Subtraction and [>=] on numbers, with the IEEE treatment of the
    non-finite values. *)
Definition sub (x y : num) : num :=
  match x, y with
  | NaN, _ | _, NaN => NaN
  | Fin a, Fin b => Fin (a - b)
  | PosInf, PosInf => NaN
  | NegInf, NegInf => NaN
  | PosInf, _ => PosInf
  | NegInf, _ => NegInf
  | Fin _, PosInf => NegInf
  | Fin _, NegInf => PosInf
  end.

Definition ge (x y : num) : bool :=
  match x, y with
  | NaN, _ | _, NaN => false
  | Fin a, Fin b => Qle_bool b a
  | PosInf, _ => true
  | _, NegInf => true
  | _, _ => false
  end.

(** [a || b] on numbers. *)
Definition or_num (a b : num) : num := if truthy a then a else b.

(** Decimal text of an integer, as [String(n)] prints it. *)
Definition showZ (z : Z) : string := NilZero.string_of_int (Z.to_int z).
Definition showN (n : N) : string := NilZero.string_of_uint (N.to_uint n).

(** The [w] low decimal digits of [n], most significant first. *)
Fixpoint fixedDigits (w : nat) (n : N) : string :=
  match w with
  | O => EmptyString
  | S w' =>
      fixedDigits w' (n / 10) +:+
      String (ascii_of_N (48 + n mod 10)) EmptyString
  end.

(** [Math.round(x)]: the nearest integer, ties towards +infinity. *)
Definition round (x : Q) : Z := Qfloor (x + (1 # 2)).

(** The integer [n] with [n / 10^d] nearest to [x >= 0], the larger one
    on a tie ([Number.prototype.toFixed], step 10.a). *)
Definition scaled (d : nat) (x : Q) : N :=
  Z.to_N (Qfloor (x * inject_Z (10 ^ Z.of_nat d) + (1 # 2))).

(** Text of [n / 10^d] with exactly [d] fractional digits. *)
Definition fixedText (d : nat) (n : N) : string :=
  showN (n / 10 ^ N.of_nat d) +:+
  match d with
  | O => EmptyString
  | S _ => String "."%char (fixedDigits d n)
  end.

(** [x.toFixed(d)] for finite [x]. *)
Definition toFixed (d : nat) (x : Q) : string :=
  if negb (Qle_bool 0 x)
  then String "-"%char (fixedText d (scaled d (- x)))
  else fixedText d (scaled d x).

(** The text of one double quote. *)
Definition dquote : string := String (ascii_of_nat 34) EmptyString.

(** [Set.prototype.add] on an insertion-ordered set of strings. *)
Definition set_add (x : string) (l : list string) : list string :=
  if existsb (String.eqb x) l then l else (l ++ [x])%list.

(** [Number.isFinite(x) && x > c] and [Number.isFinite(x) && x < c]. *)
Definition finite_gt (x : num) (c : Q) : bool :=
  match x with Fin q => negb (Qle_bool q c) | _ => false end.

Definition finite_lt (x : num) (c : Q) : bool :=
  match x with Fin q => negb (Qle_bool c q) | _ => false end.

(** [hay.includes(needle)] *)
Fixpoint includes (needle hay : string) : bool :=
  if String.prefix needle hay then true
  else match hay with
       | EmptyString => false
       | String _ rest => includes needle rest
       end.

(** [x > y] on numbers. *)
Definition gt (x y : num) : bool :=
  match x, y with
  | NaN, _ | _, NaN => false
  | Fin a, Fin b => negb (Qle_bool a b)
  | PosInf, PosInf => false
  | PosInf, _ => true
  | NegInf, _ => false
  | Fin _, NegInf => true
  | Fin _, PosInf => false
  end.

End Js.

(* ===================================================================== *)
(** * libs/Data.js : the REST client's retry loops *)
(* ===================================================================== *)

Module Data.

(** How one HTTP exchange ([executeRequest]) ends: the promise resolves
    with [response.result], or rejects with an error whose message is
    the joined error array, the parse error or the socket error. *)
Inductive outcome (R : Type) : Type :=
| Resolved (result : R)
| Rejected (message : string).
Arguments Resolved {R} result.
Arguments Rejected {R} message.

(** What the client has done so far: HTTP exchanges performed, calls of
    [makeRequest] entered, and the delays passed to [setTimeout]. *)
Record world : Type := {
  sent : nat;
  calls : nat;
  slept : list Z
}.

Definition sleep (ms : Z) (w : world) : world :=
  {| sent := sent w; calls := calls w; slept := (slept w ++ [ms])%list |}.

Section Client.

Variable R : Type.
(** The value of a function that ends without [return]. *)
Variable undefined : R.
(** The exchange: the outcome of the i-th HTTP request of the run. *)
Variable net : nat -> outcome R.

Definition maxRetries : Z := 3.
Definition backoffMs : Z := 250.

(** The [for] loop of [makeRequest] (lines 99-110), from [attempt]. *)
Fixpoint requestLoop (fuel : nat) (attempt : Z) (w : world)
  : outcome R * world :=
  match fuel with
  | O => (Resolved undefined, w)
  | S fuel' =>
      if attempt <=? maxRetries then
        let w1 := {| sent := S (sent w); calls := calls w;
                     slept := slept w |} in
        match net (sent w) with
        | Resolved r => (Resolved r, w1)
        | Rejected m =>
            let isLastAttempt := (attempt =? maxRetries) in
            if isLastAttempt then (Rejected m, w1)
            else
              let waitTime := backoffMs * attempt in
              requestLoop fuel' (attempt + 1) (sleep waitTime w1)
        end
      else (Resolved undefined, w)
  end.

(** [makeRequest(path, params, isPublic)] (lines 26-111).  The path and
    the parameters select the exchange, which [net] stands for. *)
Definition makeRequest (w : world) : outcome R * world :=
  requestLoop (Z.to_nat maxRetries) 1
    {| sent := sent w; calls := S (calls w); slept := slept w |}.

Definition maxAttempts : Z := 5.
Definition baseDelay : Z := 250.

(** The test of line 311 on an error message: retry only these. *)
Definition retryable (message : string) : bool :=
  let isNonceError := Js.includes "Invalid nonce" message in
  let isTimeout := Js.includes "timeout" message in
  (isNonceError || isTimeout)%bool.

(** The [for] loop of [getOpenOrders] (lines 303-318), from [attempt]. *)
Fixpoint openOrdersLoop (fuel : nat) (attempt : Z) (w : world)
  : outcome R * world :=
  match fuel with
  | O => (Rejected "Failed to fetch open orders: exceeded retry attempts", w)
  | S fuel' =>
      if attempt <=? maxAttempts then
        match makeRequest w with
        | (Resolved r, w1) => (Resolved r, w1)
        | (Rejected message, w1) =>
            let isNonceError := Js.includes "Invalid nonce" message in
            let isTimeout := Js.includes "timeout" message in
            if ((attempt =? maxAttempts) ||
                (negb isNonceError && negb isTimeout))%bool
            then (Rejected ("Failed to fetch open orders: " +:+ message), w1)
            else
              let delay := baseDelay * attempt in
              openOrdersLoop fuel' (attempt + 1) (sleep delay w1)
        end
      else
        (Rejected "Failed to fetch open orders: exceeded retry attempts", w)
  end.

(** [getOpenOrders(params)] (lines 299-321) *)
Definition getOpenOrders (w : world) : outcome R * world :=
  openOrdersLoop (Z.to_nat maxAttempts) 1 w.

(** Every other endpoint makes one call of [makeRequest] and rewraps
    the error, e.g. [getBalances] (lines 263-269). *)
Definition wrapped (prefix : string) (w : world) : outcome R * world :=
  match makeRequest w with
  | (Resolved r, w1) => (Resolved r, w1)
  | (Rejected m, w1) => (Rejected (prefix +:+ m), w1)
  end.

(** ** Reading a run of [getOpenOrders] *)

(** The world in which call number [i + 1] of [makeRequest] starts,
    when the [i] calls before it were retried: each was followed by a
    delay of [baseDelay] times its attempt number. *)
Fixpoint worldBeforeCall (i : nat) (w : world) : world :=
  match i with
  | O => w
  | S j =>
      sleep (baseDelay * Z.of_nat (S j))
            (snd (makeRequest (worldBeforeCall j w)))
  end.

(** What a run of [getOpenOrders] that used [n] calls looks like: the
    [n - 1] calls before the last failed with a retryable message; the
    run ends in the world the last call leaves, with its result, or
    with its error wrapped, which happens on the fifth call or on an
    error that is not retryable. *)
Definition openOrdersRun (w : world) (n : nat)
    (res : outcome R * world) : Prop :=
  (forall j, (j < pred n)%nat ->
     exists m, fst (makeRequest (worldBeforeCall j w)) = Rejected m /\
               retryable m = true) /\
  snd res = snd (makeRequest (worldBeforeCall (pred n) w)) /\
  match fst (makeRequest (worldBeforeCall (pred n) w)) with
  | Resolved r => fst res = Resolved r
  | Rejected m =>
      fst res = Rejected ("Failed to fetch open orders: " +:+ m) /\
      (n = 5%nat \/ retryable m = false)
  end.

(** The delays of a call that made [k] HTTP requests: 250, 500, ... *)
Definition backoffs (k : nat) : list Z :=
  map (fun a => backoffMs * Z.of_nat a) (seq 1 (k - 1)).

End Client.

(** An exchange that answers "EAPI:Invalid nonce" three times and then
    succeeds. *)
Definition nonceThenOk (i : nat) : outcome string :=
  if (i <? 3)%nat then Rejected "EAPI:Invalid nonce" else Resolved "{}".

(** An exchange that always answers with a permission error. *)
Definition alwaysDenied (i : nat) : outcome string :=
  Rejected "EGeneral:Permission denied".

Definition startWorld : world := {| sent := 0; calls := 0; slept := [] |}.

End Data.

(* ===================================================================== *)
(** * gpt-bot/Bot.js : the order gateway *)
(* ===================================================================== *)

Module Bot.

(** A call that returns [a] or throws an [Error] with a message. *)
Inductive result (A : Type) : Type :=
| Ok (a : A)
| Throw (message : string).
Arguments Ok {A} a.
Arguments Throw {A} message.

(** The two options of [DEFAULT_OPTIONS] that the order path reads. *)
Record options : Type := {
  enforcePrecision : bool;
  dryRun : bool
}.

(** An entry of the AssetPairs answer.  [pair_decimals] and
    [lot_decimals] are [Some d] when the field is an integer;
    [ordermin] is [Number(info.ordermin)]. *)
Record pairInfo : Type := {
  altname : option string;
  wsname : option string;
  base : option string;
  quote : option string;
  pair_decimals : option Z;
  lot_decimals : option Z;
  ordermin : Js.num
}.

(** A value in an order payload: a number or a text. *)
Inductive field : Type :=
| FNum (q : Q)
| FText (s : string).

(** The REST operations of the data client that the gateway uses. *)
Inductive restCall : Type :=
| AssetPairs
| Ticker
| Balance
| AddOrder (payload : gmap string field).

(** What [_submitOrder] returns: the dry-run object
    [{dryRun: true, payload}] or the answer of the exchange. *)
Inductive response : Type :=
| DryRun (payload : gmap string field)
| Live (raw : string).

(** An ['order:submitted'] event: the payload with [dryRun: true], or
    with the response. *)
Inductive orderEvent : Type :=
| SubmittedDry (payload : gmap string field)
| SubmittedLive (payload : gmap string field) (raw : string).

(** The exchange behind the data client. *)
Record exchange : Type := {
  getTradablePairs : Data.outcome (list (string * pairInfo));
  getTicker : Data.outcome (option Q);
  getBalances : Data.outcome (Js.num * Js.num);
  addOrder : gmap string field -> Data.outcome string
}.

(** The bot object, as far as orders go. *)
Record bot : Type := {
  opts : options;
  restPair : string;
  wsPair : string;
  pairInfoCache : option pairInfo
}.

(** The REST calls made and the events emitted so far. *)
Record world : Type := {
  rest : list restCall;
  emitted : list orderEvent
}.

Definition called (c : restCall) (w : world) : world :=
  {| rest := (rest w ++ [c])%list; emitted := emitted w |}.

Definition emit (e : orderEvent) (w : world) : world :=
  {| rest := rest w; emitted := (emitted w ++ [e])%list |}.

Definition setPairInfo (i : pairInfo) (b : bot) : bot :=
  {| opts := opts b; restPair := restPair b; wsPair := wsPair b;
     pairInfoCache := Some i |}.

(** [get pricePrecision], [get volumePrecision], [get minimumVolume]
    (lines 291-303) *)
Definition pricePrecision (b : bot) : Z :=
  match pairInfoCache b with
  | Some {| pair_decimals := Some d |} => d
  | _ => 8
  end.

Definition volumePrecision (b : bot) : Z :=
  match pairInfoCache b with
  | Some {| lot_decimals := Some d |} => d
  | _ => 8
  end.

Definition minimumVolume (b : bot) : Q :=
  match pairInfoCache b with
  | Some {| ordermin := Js.Fin q |} => q
  | _ => 0%Q
  end.

(** ** formatWithPrecision *)

(** The suffix matches [\.?0+$]: an optional dot, then one or more
    zeros up to the end. *)
Fixpoint allZeros (s : string) : bool :=
  match s with
  | EmptyString => true
  | String c r => (Ascii.eqb c "0" && allZeros r)%bool
  end.

Definition matchesTail (s : string) : bool :=
  match s with
  | String "." (String c r) => (Ascii.eqb c "0" && allZeros r)%bool
  | String "0" r => allZeros r
  | _ => false
  end.

(** [s.replace(/\.?0+$/, '')]: the leftmost position from which the
    rest of the text matches is cut off. *)
Fixpoint replaceTail (s : string) : string :=
  if matchesTail s then EmptyString
  else match s with
       | EmptyString => EmptyString
       | String c r => String c (replaceTail r)
       end.

Section WithNumberText.

(** [Number::toString] on finite numbers is taken as given. *)
Variable numberText : Q -> string.

(** [formatWithPrecision(value, precision)] (lines 77-88) on a finite
    [value]; the callers below pass an integer [precision] (the
    [RangeError] of [toFixed] beyond 100 digits is not modelled). *)
Definition formatWithPrecision (value : Q) (precision : Z) : string :=
  if precision <? 0 then numberText value
  else
    let d := Z.to_nat precision in
    let factor := inject_Z (10 ^ precision) in
    let rounded := (inject_Z (Js.round (value * factor)) / factor)%Q in
    replaceTail (Js.toFixed d rounded).

(** [applyPricePrecision], [applyVolumePrecision] (lines 496-508) *)
Definition applyPricePrecision (b : bot) (value : Q) : field :=
  if negb (enforcePrecision (opts b)) then FNum value
  else FText (formatWithPrecision value (pricePrecision b)).

Definition applyVolumePrecision (b : bot) (value : Q) : field :=
  if negb (enforcePrecision (opts b)) then FNum value
  else FText (formatWithPrecision value (volumePrecision b)).

(** [_normaliseVolume(volume)] (lines 628-644); the argument is
    [Number(volume)]. *)
Definition normaliseVolume (b : bot) (volume : Js.num) : result field :=
  match volume with
  | Js.Fin numeric =>
      if Qle_bool numeric 0
      then Throw "A positive volume is required for orders"
      else if negb (enforcePrecision (opts b)) then Ok (FNum numeric)
      else
        let min := minimumVolume b in
        if (negb (Qle_bool min 0) && negb (Qle_bool min numeric))%bool
        then Throw ("Volume " +:+ numberText numeric +:+
                    " is below minimum order size " +:+ numberText min)
        else Ok (applyVolumePrecision b numeric)
  | _ => Throw "A positive volume is required for orders"
  end.

(** [_normalisePrice(price)] (lines 646-653) *)
Definition normalisePrice (b : bot) (price : Js.num) : result field :=
  match price with
  | Js.Fin numeric =>
      if Qle_bool numeric 0
      then Throw "A positive price is required for limit orders"
      else Ok (applyPricePrecision b numeric)
  | _ => Throw "A positive price is required for limit orders"
  end.

(** ** Pair metadata *)

Definition upper (o : option string) : option string :=
  Js.toUpperCase <$> o.

Definition orEmpty (o : option string) : string :=
  match o with Some s => s | None => EmptyString end.

Definition optEq (o : option string) (s : string) : bool :=
  match o with Some x => String.eqb x s | None => false end.

(** [s.replace('/', '')]: the first slash only. *)
Fixpoint dropFirstSlash (s : string) : string :=
  match s with
  | EmptyString => EmptyString
  | String c r => if Ascii.eqb c "/" then r else String c (dropFirstSlash r)
  end.

Definition combined (info : pairInfo) : string :=
  Js.toUpperCase (orEmpty (base info) +:+ orEmpty (quote info)).

(** [_matchesStoredPairInfo(info)] (lines 575-583) *)
Definition matchesStoredPairInfo (b : bot) (info : pairInfo) : bool :=
  (optEq (upper (altname info)) (restPair b) ||
   optEq (upper (wsname info)) (wsPair b) ||
   String.eqb (combined info) (restPair b))%bool.

(** The predicate of [entries.find] in [ensurePairMetadata]
    (lines 407-416). *)
Definition matchesTarget (b : bot) (info : pairInfo) : bool :=
  let wsFlat :=
    match wsname info with
    | Some w => if String.eqb w EmptyString then None
                else Some (Js.toUpperCase (dropFirstSlash w))
    | None => None
    end in
  (optEq (upper (altname info)) (restPair b) ||
   optEq (upper (wsname info)) (wsPair b) ||
   optEq wsFlat (restPair b) ||
   String.eqb (combined info) (restPair b))%bool.

(** [ensurePairMetadata(force)] (lines 398-424) *)
Definition ensurePairMetadata (ex : exchange) (force : bool)
    (b : bot) (w : world) : result pairInfo * bot * world :=
  let cached :=
    match pairInfoCache b with
    | Some info => if (negb force && matchesStoredPairInfo b info)%bool
                   then Some info else None
    | None => None
    end in
  match cached with
  | Some info => (Ok info, b, w)
  | None =>
      let w1 := called AssetPairs w in
      match getTradablePairs ex with
      | Data.Rejected m => (Throw m, b, w1)
      | Data.Resolved pairs =>
          match List.find (fun e => matchesTarget b (snd e)) pairs with
          | None =>
              (Throw ("Trading pair " +:+ wsPair b +:+ " not found on Kraken"),
               b, w1)
          | Some (_, info) => (Ok info, setPairInfo info b, w1)
          end
      end
  end.

(** The pair metadata is loaded and is that of the bot's pair, as
    after [start()]: [ensurePairMetadata] then returns it without a
    REST call. *)
Definition metadataLoaded (b : bot) : Prop :=
  exists info, pairInfoCache b = Some info /\
               matchesStoredPairInfo b info = true.

(** ** _submitOrder *)

(** [this._pairInfo?.altname || this.restPair] *)
Definition payloadPair (b : bot) : string :=
  match pairInfoCache b with
  | Some {| altname := Some a |} => if String.eqb a EmptyString then restPair b else a
  | _ => restPair b
  end.

(** The payload of lines 602-615: the three base fields overridden by
    [params], then [volume] and [price] when they are given. *)
Definition buildPayload (b : bot) (type ordertype : string)
    (price volume : option Js.num) (params : gmap string field)
  : result (gmap string field) :=
  let payload0 : gmap string field :=
    params ∪ {[ "pair" := FText (payloadPair b);
                "type" := FText type;
                "ordertype" := FText ordertype ]} in
  let withVolume :=
    match volume with
    | None => Ok payload0
    | Some v =>
        match normaliseVolume b v with
        | Ok f => Ok (<["volume" := f]> payload0)
        | Throw m => Throw m
        end
    end in
  match withVolume with
  | Throw m => Throw m
  | Ok payload1 =>
      match price with
      | None => Ok payload1
      | Some p =>
          match normalisePrice b p with
          | Ok f => Ok (<["price" := f]> payload1)
          | Throw m => Throw m
          end
      end
  end.

(** [_submitOrder({ type, ordertype, price, volume, params })]
    (lines 595-626).  The listeners of the ['order:submitted'] event
    are outside the model. *)
Definition submitOrder (ex : exchange) (type ordertype : string)
    (price volume : option Js.num) (params : gmap string field)
    (b : bot) (w : world) : result response * bot * world :=
  if (String.eqb type EmptyString || String.eqb ordertype EmptyString)%bool then
    (Throw "Order type and order side are required", b, w)
  else
    match ensurePairMetadata ex false b w with
    | (Throw m, b1, w1) => (Throw m, b1, w1)
    | (Ok _, b1, w1) =>
        match buildPayload b1 type ordertype price volume params with
        | Throw m => (Throw m, b1, w1)
        | Ok payload =>
            if dryRun (opts b1) then
              (Ok (DryRun payload), b1, emit (SubmittedDry payload) w1)
            else
              let w2 := called (AddOrder payload) w1 in
              match addOrder ex payload with
              | Data.Rejected m => (Throw m, b1, w2)
              | Data.Resolved raw =>
                  (Ok (Live raw), b1, emit (SubmittedLive payload raw) w2)
              end
        end
    end.

(** [marketBuy], [marketSell], [limitBuy], [limitSell] (lines 510-546) *)
Definition marketBuy (ex : exchange) (volume : option Js.num)
    (params : gmap string field) :=
  submitOrder ex "buy" "market" None volume params.

Definition marketSell (ex : exchange) (volume : option Js.num)
    (params : gmap string field) :=
  submitOrder ex "sell" "market" None volume params.

Definition limitBuy (ex : exchange) (price volume : option Js.num)
    (params : gmap string field) :=
  submitOrder ex "buy" "limit" price volume params.

Definition limitSell (ex : exchange) (price volume : option Js.num)
    (params : gmap string field) :=
  submitOrder ex "sell" "limit" price volume params.

(** An order as a caller places it through one of the four methods. *)
Inductive order : Type :=
| MarketBuy (volume : option Js.num) (params : gmap string field)
| MarketSell (volume : option Js.num) (params : gmap string field)
| LimitBuy (price volume : option Js.num) (params : gmap string field)
| LimitSell (price volume : option Js.num) (params : gmap string field).

Definition place (ex : exchange) (o : order) (b : bot) (w : world)
  : result response * bot * world :=
  match o with
  | MarketBuy v ps => marketBuy ex v ps b w
  | MarketSell v ps => marketSell ex v ps b w
  | LimitBuy p v ps => limitBuy ex p v ps b w
  | LimitSell p v ps => limitSell ex p v ps b w
  end.

(** The fields [_submitOrder] is called with for an order. *)
Definition orderType (o : order) : string :=
  match o with
  | MarketBuy _ _ | LimitBuy _ _ _ => "buy"
  | MarketSell _ _ | LimitSell _ _ _ => "sell"
  end.

Definition orderKind (o : order) : string :=
  match o with
  | MarketBuy _ _ | MarketSell _ _ => "market"
  | LimitBuy _ _ _ | LimitSell _ _ _ => "limit"
  end.

Definition orderPrice (o : order) : option Js.num :=
  match o with
  | MarketBuy _ _ | MarketSell _ _ => None
  | LimitBuy p _ _ | LimitSell p _ _ => p
  end.

Definition orderVolume (o : order) : option Js.num :=
  match o with
  | MarketBuy v _ | MarketSell v _ | LimitBuy _ v _ | LimitSell _ v _ => v
  end.

Definition orderParams (o : order) : gmap string field :=
  match o with
  | MarketBuy _ ps | MarketSell _ ps | LimitBuy _ _ ps | LimitSell _ _ ps => ps
  end.

End WithNumberText.

(** [fetchTicker()] (lines 426-436): the last trade price of the
    extracted ticker, which is a finite number. *)
Definition fetchTicker (ex : exchange) (b : bot) (w : world)
  : result Q * bot * world :=
  match ensurePairMetadata ex false b w with
  | (Throw m, b1, w1) => (Throw m, b1, w1)
  | (Ok _, b1, w1) =>
      let w2 := called Ticker w1 in
      match getTicker ex with
      | Data.Rejected m => (Throw m, b1, w2)
      | Data.Resolved None =>
          (Throw ("Ticker data for " +:+ wsPair b1 +:+ " not available"),
           b1, w2)
      | Data.Resolved (Some lastTrade) => (Ok lastTrade, b1, w2)
      end
  end.

(** [fetchBalances()] (lines 442-444) *)
Definition fetchBalances (ex : exchange) (w : world)
  : Data.outcome (Js.num * Js.num) * world :=
  (getBalances ex, called Balance w).

(** ** The number a payload text denotes *)


Definition digitOf (c : ascii) : option Z :=
  let n := Z.of_nat (nat_of_ascii c) in
  if ((48 <=? n) && (n <=? 57))%bool then Some (n - 48) else None.



(** The value of the digits after a decimal point. *)
Fixpoint fracValue (s : string) : option Q :=
  match s with
  | EmptyString => Some 0%Q
  | String c r =>
      match digitOf c, fracValue r with
      | Some d, Some v => Some ((inject_Z d + v) / 10)%Q
      | _, _ => None
      end
  end.

(** The text before the first dot, and the text after it if any. *)
Fixpoint splitDot (s : string) : string * option string :=
  match s with
  | EmptyString => (EmptyString, None)
  | String c r =>
      if Ascii.eqb c "." then (EmptyString, Some r)
      else let '(a, b) := splitDot r in (String c a, b)
  end.

Definition intValue (s : string) : option N :=
  N.of_uint <$> NilZero.uint_of_string s.

(** The number that a decimal text such as ["107.14285714"] denotes. *)
Definition textValue (s : string) : option Q :=
  let '(ip, fp) := splitDot s in
  match intValue ip, fp with
  | Some n, None => Some (inject_Z (Z.of_N n))
  | Some n, Some f =>
      match fracValue f with
      | Some v => Some (inject_Z (Z.of_N n) + v)%Q
      | None => None
      end
  | None, _ => None
  end.


(** ** Reading the world *)

Definition isAddOrder (c : restCall) : bool :=
  match c with AddOrder _ => true | _ => false end.

(** The AddOrder calls recorded in a world. *)
Definition addOrders (w : world) : list restCall :=
  List.filter isAddOrder (rest w).

Definition resultOf {A : Type} (r : result A * bot * world) : result A :=
  fst (fst r).
Definition botOf {A : Type} (r : result A * bot * world) : bot :=
  snd (fst r).
Definition worldOf {A : Type} (r : result A * bot * world) : world :=
  snd r.

(** ** A dry-run bot for DOGE/USD *)

(** Stands in for [Number::toString] in the examples: the text of the
    integer part. *)
Definition wholeText (q : Q) : string := Js.showZ (Qfloor q).

Definition dogeInfo : pairInfo :=
  {| altname := Some "XDGUSD"; wsname := Some "XDG/USD";
     base := Some "XXDG"; quote := Some "ZUSD";
     pair_decimals := Some 7; lot_decimals := Some 8;
     ordermin := Js.Fin 50 |}.

Definition dogeBot (o : options) : bot :=
  {| opts := o; restPair := "XDGUSD"; wsPair := "XDG/USD";
     pairInfoCache := Some dogeInfo |}.

Definition dryOptions : options :=
  {| enforcePrecision := true; dryRun := true |}.

(** An exchange that accepts every order. *)
Definition acceptingExchange : exchange :=
  {| getTradablePairs := Data.Resolved [("XDGUSD", dogeInfo)];
     getTicker := Data.Resolved (Some (1 # 10));
     getBalances := Data.Resolved (Js.Fin 1000, Js.Fin 0);
     addOrder := fun _ => Data.Resolved "{}" |}.

Definition emptyWorld : world := {| rest := []; emitted := [] |}.

(** A live bot that enforces precision. *)
Definition liveOptions : options :=
  {| enforcePrecision := true; dryRun := false |}.

End Bot.

(* ---------------------------------------------------------------------- *)
(** * Bot.js: the price-change threshold *)
(* ---------------------------------------------------------------------- *)

Module PriceFeed.


(** An entry of [_priceChangeHistory]: [{ timestamp, price }]. *)
Record pricePoint : Type := {
  ptimestamp : Js.num;
  pprice : Js.num
}.

(** A price update as the threshold check reads it: the four price
    candidates after [Number(...)], and the extracted timestamp
    ([_extractTimestamp], lines 798-803: the first truthy timestamp
    field, or the clock). *)
Record priceData : Type := {
  candidates : list Js.num;
  timestamp : Js.num
}.

(** [_extractPrice(priceData)] (lines 782-796): the first candidate
    that is a finite number. *)
Fixpoint extractPrice (cs : list Js.num) : option Q :=
  match cs with
  | [] => None
  | Js.Fin q :: _ => Some q
  | _ :: rest => extractPrice rest
  end.

(** [windowMs] (lines 755-756); [period] is
    [Number(options.priceMonitoringPeriod)]. *)
Definition windowMs (period : Js.num) : Q :=
  match period with
  | Js.Fin p => if negb (Qle_bool p 0) then (p * 1000)%Q else 5000%Q
  | _ => 5000%Q
  end.

(** The test of the [while] loop (line 758) on the oldest entry. *)
Definition expired (timestamp : Js.num) (window : Q) (x : pricePoint) : bool :=
  Js.gt (Js.sub timestamp (ptimestamp x)) (Js.Fin window).

(** The [while] loop of lines 758-760: entries are shifted off the
    front while the oldest one is out of the window. *)
Fixpoint shiftExpired (timestamp : Js.num) (window : Q)
    (history : list pricePoint) : list pricePoint :=
  match history with
  | [] => []
  | x :: rest =>
      if expired timestamp window x then shiftExpired timestamp window rest
      else history
  end.

(** The body of the [for] loop (lines 764-771) on one entry: the
    entry's price is usable and the change against it reaches the
    threshold. *)
Definition moved (threshold price : Q) (x : pricePoint) : bool :=
  match pprice x with
  | Js.Fin sp =>
      if Qle_bool sp 0 then false
      else Qle_bool threshold (Qabs ((price - sp) / sp) * 100)
  | _ => false
  end.

(** [history.splice(0, history.length - 500)] when the length exceeds
    500. *)
Definition capHistory (history : list pricePoint) : list pricePoint :=
  if (500 <? length history)%nat
  then skipn (length history - 500) history
  else history.

(** [_evaluatePriceChangeThreshold(priceData)] (lines 742-780) on the
    history array; [threshold] is [Number(options.priceChangeThreshold)]
    and [period] is [Number(options.priceMonitoringPeriod)]. *)
Definition evaluatePriceChangeThreshold (threshold period : Js.num)
    (pd : priceData) (history : list pricePoint)
  : bool * list pricePoint :=
  match threshold with
  | Js.Fin th =>
      if Qle_bool th 0 then (false, history)
      else
        match extractPrice (candidates pd) with
        | None => (false, history)
        | Some price =>
            if Qle_bool price 0 then (false, history)
            else
              let kept := shiftExpired (timestamp pd) (windowMs period) history in
              let triggered := existsb (moved th price) kept in
              (triggered,
               capHistory (kept ++ [{| ptimestamp := timestamp pd;
                                       pprice := Js.Fin price |}]))
        end
  | _ => (false, history)
  end.

(** The price updates of a feed, in order, from the empty history of
    the constructor: the flags returned and the final history. *)
Fixpoint feed (threshold period : Js.num) (updates : list priceData)
    (history : list pricePoint) : list bool * list pricePoint :=
  match updates with
  | [] => ([], history)
  | pd :: rest =>
      let '(flag, h1) := evaluatePriceChangeThreshold threshold period pd history in
      let '(flags, h2) := feed threshold period rest h1 in
      (flag :: flags, h2)
  end.

(** The entries carry finite timestamps that do not decrease, as the
    clock of a feed gives them. *)
Definition chronological (history : list pricePoint) : Prop :=
  StronglySorted
    (fun x y => exists a b, ptimestamp x = Js.Fin a /\ ptimestamp y = Js.Fin b /\
                            (a <= b)%Q) history.

(** A price update of [price] at the time [t]. *)
Definition tick (t price : Q) : priceData :=
  {| candidates := [Js.Fin price]; timestamp := Js.Fin t |}.

End PriceFeed.

(* ===================================================================== *)
(** * gpt-bot/libs/ExecutionEngine.js : the position and risk ledger *)
(* ===================================================================== *)

Module ExecutionEngine.

Inductive side : Type := FLAT | LONG.

(** [this.position] *)
Record position : Type := {
  pside : side;
  size : Q;
  averagePrice : Q;
  openedAt : option Z;
  unrealizedR : Q;
  barsOpen5m : Z
}.

(** [this.riskConfig] *)
Record riskConfig : Type := {
  maxTradeRiskPct : Q;
  maxTotalRiskPct : Q;
  defaultSizePct : Q;
  minNotional : Q;
  pauseAfterLosses : Q;
  pauseMinutes : Q
}.

(** The constructor's defaults ([risk.x ?? default]). *)
Definition defaultRisk : riskConfig := {|
  maxTradeRiskPct := 3 # 4;
  maxTotalRiskPct := 3 # 2;
  defaultSizePct := 25;
  minNotional := 20;
  pauseAfterLosses := 2;
  pauseMinutes := 30
|}.

(** The parsed balances of [#loadBalances]: [{ quote, base }]. *)
Record balances : Type := {
  bquote : Q;
  bbase : Q
}.

(** The ledger fields of the engine object. *)
Record engine : Type := {
  cfg : riskConfig;
  pos : position;
  realizedPnlQuote : Q;
  dailyStartingBalance : option Q;
  dailyPnlPct : Q;
  lossCountWindow : list bool;
  pauseUntil : Q;
  lastBalanceTs : Z;
  lastBalances : option balances
}.

(** State set up by the constructor (lines 25-42). *)
Definition flatPosition : position := {|
  pside := FLAT;
  size := 0;
  averagePrice := 0;
  openedAt := None;
  unrealizedR := 0;
  barsOpen5m := 0
|}.

Definition construct (risk : riskConfig) : engine := {|
  cfg := risk;
  pos := flatPosition;
  realizedPnlQuote := 0;
  dailyStartingBalance := None;
  dailyPnlPct := 0;
  lossCountWindow := [];
  pauseUntil := 0;
  lastBalanceTs := 0;
  lastBalances := None
|}.

(** [isPaused()] : [Date.now() < this.pauseUntil] *)
Definition isPaused (now : Z) (e : engine) : bool :=
  negb (Qle_bool (pauseUntil e) (inject_Z now)).

(** [!this.position.openedAt] : [null] and [0] are falsy. *)
Definition openedAt_unset (o : option Z) : bool :=
  match o with
  | None => true
  | Some t => (t =? 0)
  end.

(** [!this.dailyStartingBalance] *)
Definition startingBalance_unset (o : option Q) : bool :=
  match o with
  | None => true
  | Some b => Qeq_bool b 0
  end.

(** [#recalculateDailyPnL] (lines 437-445) *)
Definition recalculateDailyPnL (e : engine) : engine :=
  match dailyStartingBalance e with
  | None => e
  | Some start =>
      if Qeq_bool start 0 then e
      else
        let current := (start + realizedPnlQuote e)%Q in
        if negb (Qle_bool start 0) then
          {| cfg := cfg e; pos := pos e;
             realizedPnlQuote := realizedPnlQuote e;
             dailyStartingBalance := dailyStartingBalance e;
             dailyPnlPct := ((current - start) / start * 100)%Q;
             lossCountWindow := lossCountWindow e;
             pauseUntil := pauseUntil e;
             lastBalanceTs := lastBalanceTs e;
       lastBalances := lastBalances e |}
        else e
  end.

(** The test of [#maybeApplyPause]: [losses >= pauseAfterLosses]. *)
Definition lossesReached (e : engine) : bool :=
  Qle_bool (pauseAfterLosses (cfg e))
           (inject_Z (Z.of_nat (Js.count_true (lossCountWindow e)))).

(** [#maybeApplyPause] (lines 394-401) *)
Definition maybeApplyPause (now : Z) (e : engine) : engine :=
  if lossesReached e then
    {| cfg := cfg e; pos := pos e;
       realizedPnlQuote := realizedPnlQuote e;
       dailyStartingBalance := dailyStartingBalance e;
       dailyPnlPct := dailyPnlPct e;
       lossCountWindow := [];
       pauseUntil := (inject_Z now + pauseMinutes (cfg e) * 60000)%Q;
       lastBalanceTs := lastBalanceTs e;
       lastBalances := lastBalances e |}
  else e.

Inductive fillSide : Type := Buy | Sell.

(** The buy branch of [#applyFill] (lines 363-374). *)
Definition applyBuy (now : Z) (quantity price : Q) (assumeFill : bool)
    (e : engine) : engine :=
  let p := pos e in
  let value := (quantity * price)%Q in
  let newSize := (size p + quantity)%Q in
  let newAverage := ((averagePrice p * size p + value) / newSize)%Q in
  {| cfg := cfg e;
     pos := {| pside := LONG;
               size := newSize;
               averagePrice := newAverage;
               openedAt := if openedAt_unset (openedAt p) then Some now
                           else openedAt p;
               unrealizedR := unrealizedR p;
               barsOpen5m := barsOpen5m p |};
     realizedPnlQuote := realizedPnlQuote e;
     dailyStartingBalance := dailyStartingBalance e;
     dailyPnlPct := dailyPnlPct e;
     lossCountWindow := lossCountWindow e;
     pauseUntil := pauseUntil e;
     lastBalanceTs := if assumeFill then lastBalanceTs e else 0;
       lastBalances := lastBalances e |}.

(** [realized] of the sell branch (line 377). *)
Definition realizedOf (quantity price : Q) (p : position) : Q :=
  ((price - averagePrice p) * Qmin quantity (size p))%Q.

(** The sell branch of [#applyFill] up to the call of
    [#maybeApplyPause] (lines 375-388). *)
Definition recordSell (quantity price : Q) (e : engine) : engine :=
  let p := pos e in
  let remaining := Qmax 0 (size p - quantity) in
  let realized := realizedOf quantity price p in
  let p' :=
    if Qeq_bool remaining 0 then
      {| pside := FLAT; size := remaining; averagePrice := 0;
         openedAt := None; unrealizedR := 0; barsOpen5m := 0 |}
    else
      {| pside := pside p; size := remaining;
         averagePrice := averagePrice p; openedAt := openedAt p;
         unrealizedR := unrealizedR p; barsOpen5m := barsOpen5m p |} in
  let pushed := (lossCountWindow e ++ [negb (Qle_bool 0 realized)])%list in
  {| cfg := cfg e;
     pos := p';
     realizedPnlQuote := (realizedPnlQuote e + realized)%Q;
     dailyStartingBalance := dailyStartingBalance e;
     dailyPnlPct := dailyPnlPct e;
     lossCountWindow := Js.slice_last 5 pushed;
     pauseUntil := pauseUntil e;
     lastBalanceTs := lastBalanceTs e;
       lastBalances := lastBalances e |}.

(** The sell branch of [#applyFill] (lines 375-390). *)
Definition applySell (now : Z) (quantity price : Q) (e : engine) : engine :=
  maybeApplyPause now (recordSell quantity price e).

(** [#applyFill(side, quantity, price, options)] (lines 357-392). *)
Definition applyFill (now : Z) (sd : fillSide) (quantity price : Js.num)
    (assumeFill : bool) (e : engine) : engine :=
  match quantity, price with
  | Js.Fin q, Js.Fin p =>
      if (Qle_bool q 0 || Qle_bool p 0)%bool then e
      else
        recalculateDailyPnL
          match sd with
          | Buy => applyBuy now q p assumeFill e
          | Sell => applySell now q p e
          end
  | _, _ => e
  end.

(** A fill notification as [handleFill] sees it: [fside] is
    [fill.side] when it is a string, [fquantity] and [fprice] are the
    two [Number(... ?? ...)] coercions of lines 128-129. *)
Record fill : Type := {
  fside : option string;
  fquantity : Js.num;
  fprice : Js.num
}.

(** [handleFill(fill)] (lines 123-138); [None] is a missing fill. *)
Definition handleFill (now : Z) (f : option fill) (e : engine) : engine :=
  match f with
  | None => e
  | Some f =>
      match fquantity f, fprice f with
      | Js.Fin q, Js.Fin p =>
          if (Qle_bool q 0 || Qle_bool p 0)%bool then e
          else
            match Js.toLowerCase <$> fside f with
            | Some s =>
                if String.eqb s "buy" then
                  applyFill now Buy (fquantity f) (fprice f) false e
                else if String.eqb s "sell" then
                  applyFill now Sell (fquantity f) (fprice f) false e
                else e
            | None => e
            end
      | _, _ => e
      end
  end.

(** One application of a fill to the ledger: a notification from the
    exchange ([handleFill]) or a local fill applied by the order paths
    ([#applyFill] called with [assumeFill]).  Each carries the clock. *)
Inductive ledgerOp : Type :=
| OpHandleFill (now : Z) (f : option fill)
| OpApplyFill (now : Z) (sd : fillSide) (quantity price : Js.num)
    (assumeFill : bool).

Definition applyOp (e : engine) (op : ledgerOp) : engine :=
  match op with
  | OpHandleFill now f => handleFill now f e
  | OpApplyFill now sd q p a => applyFill now sd q p a e
  end.

Definition applyOps (ops : list ledgerOp) (e : engine) : engine :=
  fold_left applyOp ops e.

(** ** Executing a decision *)

(** [decision.entry] as the engine reads it: [entryType] is
    [entry.type] when it is a string, [offset_bps] is
    [Number(entry.offset_bps)]. *)
Record entrySpec : Type := {
  entryType : option string;
  offset_bps : Js.num
}.

(** A decision as [execute] reads it: [size_pct] and [minutes] are the
    [Number(...)] coercions of the fields. *)
Record decision : Type := {
  action : string;
  size_pct : Js.num;
  entry : option entrySpec;
  minutes : Js.num
}.

(** The result object of [execute]; [Thrown] is an exception that
    leaves [execute] (the gateway's validation errors are not caught). *)
Inductive execution : Type :=
| Ignored (reason : string)
| Noop
| Paused (until : Q)
| Failed (reason : string)
| DryRunDone (act : string) (details : gmap string Bot.field)
| Submitted (act : string) (response : Bot.response)
| Instruction (act : string)
| Thrown (message : string).

Definition outcome : Type :=
  (execution * engine * Bot.bot * Bot.world)%type.

Definition executionOf (o : outcome) : execution := fst (fst (fst o)).
Definition engineOf (o : outcome) : engine := snd (fst (fst o)).
Definition botOf (o : outcome) : Bot.bot := snd (fst o).
Definition worldOf (o : outcome) : Bot.world := snd o.

Section WithGateway.

Variable numberText : Q -> string.
Variable ex : Bot.exchange.

(** [#ensureTicker(features)] (lines 310-324); [close] is
    [features?.timeframes?.['5m']?.close]. *)
Definition ensureTicker (close : Js.num) (b : Bot.bot) (w : Bot.world)
  : option Js.num * Bot.bot * Bot.world :=
  if Js.truthy close then (Some close, b, w)
  else
    match Bot.fetchTicker ex b w with
    | (Bot.Ok lastTrade, b1, w1) => (Some (Js.Fin lastTrade), b1, w1)
    | (Bot.Throw _, b1, w1) => (None, b1, w1)
    end.

Definition isLimit (entry : option entrySpec) : bool :=
  match entry with
  | Some {| entryType := Some t |} => String.eqb t "limit"
  | _ => false
  end.

(** [#deriveEntryPrice(lastPrice, entry)] (lines 281-297): [null], the
    last price, or what [applyPricePrecision] returns. *)
Definition deriveEntryPrice (b : Bot.bot) (lastPrice : Js.num)
    (entry : option entrySpec) : option Bot.field :=
  match lastPrice with
  | Js.Fin last =>
      if Qle_bool last 0 then None
      else if negb (isLimit entry) then Some (Bot.FNum last)
      else
        match entry with
        | Some {| offset_bps := Js.Fin offset |} =>
            let adjusted := (last * (1 + offset / 10000))%Q in
            if Qle_bool adjusted 0 then Some (Bot.FNum last)
            else Some (Bot.applyPricePrecision numberText b adjusted)
        | _ => Some (Bot.FNum last)
        end
  | _ => None
  end.

Definition finiteOrZero (x : Js.num) : Q :=
  match x with Js.Fin q => q | _ => 0%Q end.

(** [#loadBalances(force)] (lines 326-355).  The exchange answers with
    the numbers found under the quote and the base key (0 when there is
    no such key).  The logging of [#maybeLogBalanceChange] is not
    modelled. *)
Definition loadBalances (force : bool) (now : Z) (e : engine)
    (w : Bot.world) : balances * engine * Bot.world :=
  let cached :=
    match lastBalances e with
    | Some bal => if (negb force && (now - lastBalanceTs e <? 30000))%bool
                  then Some bal else None
    | None => None
    end in
  match cached with
  | Some bal => (bal, e, w)
  | None =>
      match Bot.fetchBalances ex w with
      | (Data.Resolved (quote, base), w1) =>
          let parsed := {| bquote := finiteOrZero quote;
                           bbase := finiteOrZero base |} in
          (parsed,
           {| cfg := cfg e; pos := pos e;
              realizedPnlQuote := realizedPnlQuote e;
              dailyStartingBalance :=
                if startingBalance_unset (dailyStartingBalance e)
                then Some (bquote parsed) else dailyStartingBalance e;
              dailyPnlPct := dailyPnlPct e;
              lossCountWindow := lossCountWindow e;
              pauseUntil := pauseUntil e;
              lastBalanceTs := now;
              lastBalances := Some parsed |},
           w1)
      | (Data.Rejected _, w1) =>
          (match lastBalances e with
           | Some bal => bal
           | None => {| bquote := 0; bbase := 0 |}
           end, e, w1)
      end
  end.

(** The notional of lines 305-307 for a positive quote balance. *)
Definition notionalFor (c : riskConfig) (quoteBalance sizePct : Q) : Q :=
  let tradeCap := (quoteBalance * (maxTradeRiskPct c / 100))%Q in
  let desired := (quoteBalance * (sizePct / 100))%Q in
  Qmin tradeCap desired.

(** [#computeNotional(sizePct)] (lines 299-308) *)
Definition computeNotional (now : Z) (sizePct : Q) (e : engine)
    (w : Bot.world) : option Q * engine * Bot.world :=
  let '(bal, e1, w1) := loadBalances false now e w in
  let quoteBalance := bquote bal in
  if Qle_bool quoteBalance 0 then (None, e1, w1)
  else (Some (notionalFor (cfg e1) quoteBalance sizePct), e1, w1).

(** [sizePct] of [#openLong] (lines 167-169). *)
Definition sizePctOf (e : engine) (d : decision) : Q :=
  match size_pct d with
  | Js.Fin s => s
  | _ => defaultSizePct (cfg e)
  end.

(** [#openLong(decision, context, options)] (lines 161-217) *)
Definition openLong (now : Z) (d : decision) (close : Js.num)
    (additive : bool) (e : engine) (b : Bot.bot) (w : Bot.world) : outcome :=
  match ensureTicker close b w with
  | (None, b1, w1) => (Failed "Ticker unavailable", e, b1, w1)
  | (Some lastTrade, b1, w1) =>
      let sizePct := sizePctOf e d in
      if Qle_bool sizePct 0 then (Ignored "size_pct <= 0", e, b1, w1)
      else
        match deriveEntryPrice b1 lastTrade (entry d) with
        | Some (Bot.FNum entryPrice) =>
            if Qle_bool entryPrice 0
            then (Failed "Invalid entry price", e, b1, w1)
            else
              match computeNotional now sizePct e w1 with
              | (None, e1, w2) => (Failed "Notional below minimum", e1, b1, w2)
              | (Some notional, e1, w2) =>
                  if negb (Qle_bool (minNotional (cfg e1)) notional)
                  then (Failed "Notional below minimum", e1, b1, w2)
                  else
                    let quantity := (notional / entryPrice)%Q in
                    if Qle_bool quantity 0
                    then (Failed "Invalid quantity", e1, b1, w2)
                    else
                      let submitted :=
                        if isLimit (entry d) then
                          Bot.limitBuy numberText ex
                            (Some (Js.Fin entryPrice))
                            (Some (Js.Fin quantity))
                            {[ "timeinforce" := Bot.FText "GTC" ]} b1 w2
                        else
                          Bot.marketBuy numberText ex
                            (Some (Js.Fin quantity)) ∅ b1 w2 in
                      match submitted with
                      | (Bot.Throw m, b2, w3) => (Thrown m, e1, b2, w3)
                      | (Bot.Ok (Bot.DryRun payload), b2, w3) =>
                          (DryRunDone "OPEN_LONG" payload,
                           applyFill now Buy (Js.Fin quantity)
                             (Js.Fin entryPrice) true e1, b2, w3)
                      | (Bot.Ok response, b2, w3) =>
                          (Submitted "OPEN_LONG" response,
                           if negb additive
                           then applyFill now Buy (Js.Fin quantity)
                                  (Js.Fin entryPrice) true e1
                           else e1, b2, w3)
                      end
              end
        | _ => (Failed "Invalid entry price", e, b1, w1)
        end
  end.

(** The common tail of [#trimPosition] and [#closeAll]: sell at
    market and apply the expected fill at the last trade price. *)
Definition sellAtMarket (now : Z) (act : string) (quantity : Q)
    (lastTrade : Js.num) (e : engine) (b : Bot.bot) (w : Bot.world)
  : outcome :=
  match Bot.marketSell numberText ex (Some (Js.Fin quantity)) ∅ b w with
  | (Bot.Throw m, b1, w1) => (Thrown m, e, b1, w1)
  | (Bot.Ok (Bot.DryRun payload), b1, w1) =>
      (DryRunDone act payload,
       applyFill now Sell (Js.Fin quantity) lastTrade true e, b1, w1)
  | (Bot.Ok response, b1, w1) =>
      (Submitted act response,
       applyFill now Sell (Js.Fin quantity) lastTrade true e, b1, w1)
  end.

Definition hasLong (e : engine) : bool :=
  match pside (pos e) with
  | LONG => negb (Qle_bool (size (pos e)) 0)
  | FLAT => false
  end.

(** [#trimPosition(decision, context)] (lines 219-244) *)
Definition trimPosition (now : Z) (d : decision) (close : Js.num)
    (e : engine) (b : Bot.bot) (w : Bot.world) : outcome :=
  if negb (hasLong e) then (Ignored "No long position to trim", e, b, w)
  else
    let sizePct := match size_pct d with Js.Fin s => s | _ => 50%Q end in
    if Qle_bool sizePct 0 then (Ignored "size_pct <= 0", e, b, w)
    else
      let quantity := (size (pos e) * (sizePct / 100))%Q in
      if Qle_bool quantity 0 then (Ignored "Computed quantity <= 0", e, b, w)
      else
        match ensureTicker close b w with
        | (None, b1, w1) => (Failed "Ticker unavailable", e, b1, w1)
        | (Some lastTrade, b1, w1) =>
            sellAtMarket now "TRIM" quantity lastTrade e b1 w1
        end.

(** [#closeAll(context)] (lines 246-264) *)
Definition closeAll (now : Z) (close : Js.num)
    (e : engine) (b : Bot.bot) (w : Bot.world) : outcome :=
  if negb (hasLong e) then (Ignored "No position to close", e, b, w)
  else
    match ensureTicker close b w with
    | (None, b1, w1) => (Failed "Ticker unavailable", e, b1, w1)
    | (Some lastTrade, b1, w1) =>
        sellAtMarket now "CLOSE_ALL" (size (pos e)) lastTrade e b1 w1
    end.

(** [#pause(decision)] (lines 271-279) *)
Definition pause (now : Z) (d : decision) (e : engine) : execution * engine :=
  let mins := match minutes d with
              | Js.Fin m => m
              | _ => pauseMinutes (cfg e)
              end in
  let durationMs := (Qmax mins 1 * 60000)%Q in
  let until := (inject_Z now + durationMs)%Q in
  (Paused until,
   {| cfg := cfg e; pos := pos e;
      realizedPnlQuote := realizedPnlQuote e;
      dailyStartingBalance := dailyStartingBalance e;
      dailyPnlPct := dailyPnlPct e;
      lossCountWindow := lossCountWindow e;
      pauseUntil := until;
      lastBalanceTs := lastBalanceTs e;
      lastBalances := lastBalances e |}).

(** [execute(decision, context)] (lines 86-121); [None] is a decision
    that is not an object. *)
Definition execute (now : Z) (d : option decision) (close : Js.num)
    (e : engine) (b : Bot.bot) (w : Bot.world) : outcome :=
  match d with
  | None => (Ignored "Invalid decision payload", e, b, w)
  | Some d =>
      if (String.eqb (action d) "HOLD" || String.eqb (action d) EmptyString)%bool
      then (Noop, e, b, w)
      else if (isPaused now e && negb (String.eqb (action d) "PAUSE"))%bool
      then (Paused (pauseUntil e), e, b, w)
      else if String.eqb (action d) "OPEN_LONG"
      then openLong now d close false e b w
      else if String.eqb (action d) "ADD"
      then openLong now d close true e b w
      else if (String.eqb (action d) "TRIM" ||
               String.eqb (action d) "CLOSE_PARTIAL")%bool
      then trimPosition now d close e b w
      else if String.eqb (action d) "CLOSE_ALL"
      then closeAll now close e b w
      else if String.eqb (action d) "MOVE_STOP"
      then (Instruction "MOVE_STOP", e, b, w)
      else if String.eqb (action d) "SET_TP"
      then (Instruction "SET_TP", e, b, w)
      else if String.eqb (action d) "PAUSE"
      then let '(r, e1) := pause now d e in (r, e1, b, w)
      else (Ignored ("Unsupported action " +:+ action d), e, b, w)
  end.

(** ** Reading an execution *)


(** The bot as the gateway validates an order against it: with the pair
    metadata it holds, or the metadata that [ensurePairMetadata] loads
    for the order; [None] when the metadata cannot be resolved and the
    gateway throws. *)
Definition resolvedBot (b : Bot.bot) : option Bot.bot :=
  match Bot.ensurePairMetadata ex false b Bot.emptyWorld with
  | (Bot.Ok _, b1, _) => Some b1
  | (Bot.Throw _, _, _) => None
  end.

(** The price of a limit entry whose finite offset leaves the last
    price positive (lines 288-296): this is the price that
    [#deriveEntryPrice] hands to [applyPricePrecision]. *)
Definition shiftedPrice (lastPrice : Js.num) (entry : option entrySpec)
  : option Q :=
  match lastPrice, entry with
  | Js.Fin last, Some {| offset_bps := Js.Fin offset |} =>
      let adjusted := (last * (1 + offset / 10000))%Q in
      if (negb (Qle_bool last 0) && isLimit entry &&
          negb (Qle_bool adjusted 0))%bool
      then Some adjusted else None
  | _, _ => None
  end.






End WithGateway.

(** ** Reading a run of the ledger *)

(** The sell an operation performs, if it reaches the sell branch:
    the clock, the quantity and the price. *)
Definition sellOf (op : ledgerOp) : option (Z * Q * Q) :=
  match op with
  | OpApplyFill now Sell (Js.Fin q) (Js.Fin p) _ =>
      if (Qle_bool q 0 || Qle_bool p 0)%bool then None else Some (now, q, p)
  | OpHandleFill now (Some f) =>
      match fquantity f, fprice f, fside f with
      | Js.Fin q, Js.Fin p, Some s =>
          if (Qle_bool q 0 || Qle_bool p 0)%bool then None
          else if String.eqb (Js.toLowerCase s) "buy" then None
          else if String.eqb (Js.toLowerCase s) "sell" then Some (now, q, p)
          else None
      | _, _, _ => None
      end
  | _ => None
  end.

(** The operation is a sell that realises a loss in state [e]. *)
Definition isLoss (e : engine) (op : ledgerOp) : bool :=
  match sellOf op with
  | Some (_, q, p) => negb (Qle_bool 0 (realizedOf q p (pos e)))
  | None => false
  end.

(** The operation is a sell whose outcome makes [#maybeApplyPause]
    enter the cooldown. *)
Definition triggersPause (e : engine) (op : ledgerOp) : bool :=
  match sellOf op with
  | Some (_, q, p) => lossesReached (recordSell q p e)
  | None => false
  end.

(** Number of losing sells in a run that starts in state [e]. *)
Fixpoint lossCount (ops : list ledgerOp) (e : engine) : nat :=
  match ops with
  | [] => 0
  | op :: rest =>
      ((if isLoss e op then 1 else 0) + lossCount rest (applyOp e op))%nat
  end.

(** The shape of every reachable position: flat with nothing held, or
    long with a positive size bought at a positive average price. *)
Definition position_ok (p : position) : Prop :=
  (pside p = FLAT /\ size p == 0 /\ averagePrice p == 0)%Q \/
  (pside p = LONG /\ 0 < size p /\ 0 < averagePrice p)%Q.

(** A market OPEN_LONG of 25 percent against a quote balance of 10000:
    the 0.75 percent trade cap makes the notional 75. *)
Definition openLong25 : decision :=
  {| action := "OPEN_LONG"; size_pct := Js.Fin 25; entry := None;
     minutes := Js.NaN |}.

Definition richExchange : Bot.exchange :=
  {| Bot.getTradablePairs := Data.Resolved [("XDGUSD", Bot.dogeInfo)];
     Bot.getTicker := Data.Resolved (Some (1 # 10));
     Bot.getBalances := Data.Resolved (Js.Fin 10000, Js.Fin 0);
     Bot.addOrder := fun _ => Data.Resolved "{}" |}.

(** A dry-run bot that does not enforce precision. *)
Definition looseOptions : Bot.options :=
  {| Bot.enforcePrecision := false; Bot.dryRun := true |}.

(** The entry of [test-llm-bot.js]: the same decision as a limit order
    5 basis points under the last price. *)
Definition limitLong25 : decision :=
  {| action := "OPEN_LONG"; size_pct := Js.Fin 25;
     entry := Some {| entryType := Some "limit"; offset_bps := Js.Fin (-5) |};
     minutes := Js.NaN |}.

(** The bot as constructed, before [start()] has loaded the pair
    metadata. *)
Definition unloadedBot (o : Bot.options) : Bot.bot :=
  {| Bot.opts := o; Bot.restPair := "XDGUSD"; Bot.wsPair := "XDG/USD";
     Bot.pairInfoCache := None |}.

(** The loss-streak scenario: buy 100 at 1.00, sell 100 at 0.98,
    buy 100 at 0.97; the engine is then one losing sell away from the
    cooldown. *)
Definition exchangeFill (sd : string) (quantity price : Q) : option fill :=
  Some {| fside := Some sd; fquantity := Js.Fin quantity;
          fprice := Js.Fin price |}.

Definition twoLossesPrefix : list ledgerOp :=
  [ OpHandleFill 1000 (exchangeFill "buy" 100 1);
    OpHandleFill 2000 (exchangeFill "sell" 100 (98 # 100));
    OpHandleFill 3000 (exchangeFill "buy" 100 (97 # 100)) ].

Definition secondLoss : ledgerOp :=
  OpHandleFill 4000 (exchangeFill "sell" 100 (96 # 100)).

(** ** The engine's public methods *)

(** The 5m timeframe of a feature snapshot as [updateMarketContext]
    reads it: [tf5.close] and [tf5.atr] ([NaN] for a missing or [null]
    field). *)
Record tf5Features : Type := {
  close5 : Js.num;
  atr5 : Js.num
}.

(** A feature snapshot as [updateMarketContext] reads it; the timestamp
    is the clock reading that [build] stored. *)
Record features : Type := {
  ftimestamp : Z;
  ftf5 : option tf5Features
}.

(** [updateMarketContext(features)] (lines 61-84); [None] is a falsy
    argument. *)
Definition updateMarketContext (clock : Z) (f : option features)
    (e : engine) : engine :=
  match f with
  | None => e
  | Some f =>
      let now := if ftimestamp f =? 0 then clock else ftimestamp f in
      let p := pos e in
      let withPosition (p' : position) : engine :=
        {| cfg := cfg e; pos := p';
           realizedPnlQuote := realizedPnlQuote e;
           dailyStartingBalance := dailyStartingBalance e;
           dailyPnlPct := dailyPnlPct e;
           lossCountWindow := lossCountWindow e;
           pauseUntil := pauseUntil e;
           lastBalanceTs := lastBalanceTs e;
           lastBalances := lastBalances e |} in
      if (match pside p with FLAT => true | LONG => false end
          || openedAt_unset (openedAt p))%bool
      then
        withPosition {| pside := pside p; size := size p;
                        averagePrice := averagePrice p;
                        openedAt := openedAt p;
                        unrealizedR := 0; barsOpen5m := 0 |}
      else
        let unrealized :=
          match ftf5 f with
          | Some tf5 =>
              match close5 tf5, Js.or_num (atr5 tf5) (Js.Fin 1) with
              | Js.Fin price, Js.Fin atr =>
                  if negb (Qle_bool atr 0)
                  then ((price - averagePrice p) / atr)%Q
                  else unrealizedR p
              | _, _ => unrealizedR p
              end
          | None => unrealizedR p
          end in
        let bars :=
          match openedAt p with
          | Some opened =>
              if opened =? 0 then barsOpen5m p
              else Z.max 0 (now - opened) / (5 * 60000)
          | None => barsOpen5m p
          end in
        withPosition {| pside := pside p; size := size p;
                        averagePrice := averagePrice p;
                        openedAt := openedAt p;
                        unrealizedR := unrealized; barsOpen5m := bars |}
  end.

(** [ensureBalanceSnapshot(force)] (lines 140-145) *)
Definition ensureBalanceSnapshot (ex : Bot.exchange) (force : bool) (now : Z)
    (e : engine) (w : Bot.world) : balances * engine * Bot.world :=
  let e0 :=
    if force then
      {| cfg := cfg e; pos := pos e;
         realizedPnlQuote := realizedPnlQuote e;
         dailyStartingBalance := dailyStartingBalance e;
         dailyPnlPct := dailyPnlPct e;
         lossCountWindow := lossCountWindow e;
         pauseUntil := pauseUntil e;
         lastBalanceTs := 0;
         lastBalances := lastBalances e |}
    else e in
  loadBalances ex force now e0 w.

(** One call of a public method that changes the engine, with the
    clock and the exchange's answers at the time of the call. *)
Inductive apiCall : Type :=
| CallExecute (ex : Bot.exchange) (now : Z) (d : option decision)
    (close : Js.num)
| CallHandleFill (now : Z) (f : option fill)
| CallEnsureBalanceSnapshot (ex : Bot.exchange) (force : bool) (now : Z)
| CallUpdateMarketContext (now : Z) (f : option features).

(** The engine, the bot it trades through and the recorded effects. *)
Definition state : Type := (engine * Bot.bot * Bot.world)%type.

Definition apiStep (numberText : Q -> string) (s : state) (c : apiCall)
  : state :=
  let '(e, b, w) := s in
  match c with
  | CallExecute ex now d close =>
      let o := execute numberText ex now d close e b w in
      (engineOf o, botOf o, worldOf o)
  | CallHandleFill now f => (handleFill now f e, b, w)
  | CallEnsureBalanceSnapshot ex force now =>
      let '(_, e1, w1) := ensureBalanceSnapshot ex force now e w in
      (e1, b, w1)
  | CallUpdateMarketContext now f => (updateMarketContext now f e, b, w)
  end.

Definition apiRun (numberText : Q -> string) (calls : list apiCall)
    (s : state) : state :=
  fold_left (apiStep numberText) calls s.

(** The buy an operation performs, if it reaches the buy branch: the
    quantity and the price. *)
Definition buyOf (op : ledgerOp) : option (Q * Q) :=
  match op with
  | OpApplyFill _ Buy (Js.Fin q) (Js.Fin p) _ =>
      if (Qle_bool q 0 || Qle_bool p 0)%bool then None else Some (q, p)
  | OpHandleFill _ (Some f) =>
      match fquantity f, fprice f, fside f with
      | Js.Fin q, Js.Fin p, Some s =>
          if (Qle_bool q 0 || Qle_bool p 0)%bool then None
          else if String.eqb (Js.toLowerCase s) "buy" then Some (q, p)
          else None
      | _, _, _ => None
      end
  | _ => None
  end.

(** The quantity bought and the amount paid over a run. *)
Definition boughtQuantity (ops : list ledgerOp) : Q :=
  fold_right (fun op acc =>
                match buyOf op with
                | Some (q, _) => (q + acc)%Q
                | None => acc
                end) 0%Q ops.

Definition boughtCost (ops : list ledgerOp) : Q :=
  fold_right (fun op acc =>
                match buyOf op with
                | Some (q, p) => (q * p + acc)%Q
                | None => acc
                end) 0%Q ops.

(** The actions that reach the order gateway or the pause. *)
Definition actingActions : list string :=
  ["OPEN_LONG"; "ADD"; "TRIM"; "CLOSE_PARTIAL"; "CLOSE_ALL"; "PAUSE"].

(** A flat position carries no entry time, no unrealised R and no age;
    the age is never negative. *)
Definition restingFields (p : position) : Prop :=
  (pside p = FLAT ->
   openedAt p = None /\ (unrealizedR p == 0)%Q /\ barsOpen5m p = 0) /\
  0 <= barsOpen5m p.

(** The event of a dry-run submission. *)
Definition isDryEvent (ev : Bot.orderEvent) : bool :=
  match ev with Bot.SubmittedDry _ => true | Bot.SubmittedLive _ _ => false end.

(** What a dry-run session has done since the state [(b, w)]: the
    options are the same, no AddOrder call was added, and every event
    announced since is a dry-run submission. *)
Definition dryRunSince (b : Bot.bot) (w : Bot.world)
    (b' : Bot.bot) (w' : Bot.world) : Prop :=
  Bot.opts b' = Bot.opts b /\
  Bot.addOrders w' = Bot.addOrders w /\
  exists evs, Bot.emitted w' = (Bot.emitted w ++ evs)%list /\
              forallb isDryEvent evs = true.

(** The daily PnL percentage is the realised PnL against the baseline
    [s]. *)
Definition pnlTracks (s : Q) (e : engine) : Prop :=
  dailyStartingBalance e = Some s /\
  (dailyPnlPct e == realizedPnlQuote e / s * 100)%Q.

(** A session on the public methods: the balances are loaded, a market
    entry is executed, its fill arrives, and the market context is
    refreshed. *)
Definition sampleSession : list apiCall :=
  [ CallEnsureBalanceSnapshot richExchange true 1000;
    CallExecute richExchange 5000 (Some openLong25) (Js.Fin (1 # 10));
    CallHandleFill 6000 (exchangeFill "buy" 750 (1 # 10));
    CallUpdateMarketContext 7000
      (Some {| ftimestamp := 307000;
               ftf5 := Some {| close5 := Js.Fin (11 # 100);
                               atr5 := Js.Fin (1 # 100) |} |}) ].

(** The engine after its first balance load: the baseline of the daily
    PnL is the quote balance of 10000. *)
Definition primedEngine : engine :=
  snd (fst (loadBalances richExchange false 1000 (construct defaultRisk)
              Bot.emptyWorld)).

(** Two buys: 100 at 1.00 and 100 at 0.97. *)
Definition twoBuys : list ledgerOp :=
  [ OpHandleFill 1000 (exchangeFill "buy" 100 1);
    OpHandleFill 3000 (exchangeFill "buy" 100 (97 # 100)) ].

(** A risk configuration that asks for more losses than the window of
    five outcomes can hold. *)
Definition patientRisk : riskConfig := {|
  maxTradeRiskPct := 3 # 4;
  maxTotalRiskPct := 3 # 2;
  defaultSizePct := 25;
  minNotional := 20;
  pauseAfterLosses := 6;
  pauseMinutes := 30
|}.

(** Decisions without a size or an entry. *)
Definition command (a : string) (m : Js.num) : decision :=
  {| action := a; size_pct := Js.NaN; entry := None; minutes := m |}.

(** The engine holding [q] units bought at 1.00. *)
Definition longEngine (q : Q) : engine :=
  applyOps [OpHandleFill 1000 (exchangeFill "buy" q 1)] (construct defaultRisk).

End ExecutionEngine.

(* ===================================================================== *)
(** * gpt-bot/libs/EventEngine.js : the debounced trigger detector *)
(* ===================================================================== *)

Module EventEngine.

(** [this.thresholds] *)
Record thresholds : Type := {
  volHigh : Q;
  volLow : Q;
  confluenceDelta : Q;
  drawdownGuard : Q;
  positionAgeBars : Q
}.

Definition defaultThresholds : thresholds := {|
  volHigh := 70;
  volLow := 30;
  confluenceDelta := 2;
  drawdownGuard := 2;
  positionAgeBars := 36
|}.

(** [this.lastLiquidity] *)
Record liquidityFlags : Type := {
  sweepLow : bool;
  sweepHigh : bool;
  breakAndHoldHigh : bool;
  breakAndHoldLow : bool
}.

Definition noLiquidity : liquidityFlags :=
  {| sweepLow := false; sweepHigh := false;
     breakAndHoldHigh := false; breakAndHoldLow := false |}.

(** The engine object.  [pendingReasonSet] is a JavaScript [Set] of
    strings: a duplicate-free list in insertion order. *)
Record engine : Type := {
  debounceMs : Q;
  thr : thresholds;
  bucket5m : option Z;
  bucket15m : option Z;
  bucket60m : option Z;
  lastTrendState : option string;
  lastVolState : option string;
  lastConfluence : option Z;
  lastLiquidity : liquidityFlags;
  lastDrawdownAlert : option string;
  pendingReasonSet : list string;
  lastEmitTs : Js.num
}.

(** The constructor (lines 2-33); [debounce] is [options.debounceMs]
    when that is a finite number. *)
Definition construct (debounce : option Q) (t : thresholds) : engine := {|
  debounceMs := match debounce with Some d => d | None => 60000 end;
  thr := t;
  bucket5m := None;
  bucket15m := None;
  bucket60m := None;
  lastTrendState := None;
  lastVolState := None;
  lastConfluence := None;
  lastLiquidity := noLiquidity;
  lastDrawdownAlert := None;
  pendingReasonSet := [];
  lastEmitTs := Js.Fin 0
|}.

(** ** shouldEvaluate *)

(** The timestamp fields of a price update; [None] is a missing or
    [null] field. *)
Record priceData : Type := {
  channelTimestampUnix : option Js.num;
  timestampUnix : option Js.num;
  intervalBeginUnix : option Js.num
}.

Definition field (o : option Js.num) : Js.num :=
  match o with Some x => x | None => Js.NaN end.

(** [#extractTimestamp] (lines 118-123) *)
Definition extractTimestamp (now : Z) (pd : priceData) : Js.num :=
  Js.or_num (field (channelTimestampUnix pd))
    (Js.or_num (field (timestampUnix pd))
       (Js.or_num (field (intervalBeginUnix pd))
          (Js.Fin (inject_Z now)))).

(** Price data as the monitor's OHLC mapping produces it: every
    timestamp field is [null] or the finite result of [Date.parse]. *)
Definition fromMonitor (pd : priceData) : bool :=
  let ok (o : option Js.num) :=
    match o with
    | None | Some (Js.Fin _) => true
    | Some _ => false
    end in
  (ok (channelTimestampUnix pd) && ok (timestampUnix pd) &&
   ok (intervalBeginUnix pd))%bool.

(** [#updateBucket] (lines 125-139) on one slot of [lastBuckets]:
    the new slot and the returned boolean. *)
Definition updateBucket (last : option Z) (timestamp : Js.num) (minutes : Z)
  : option Z * bool :=
  match timestamp with
  | Js.Fin t =>
      let bucket := Qfloor (t / inject_Z (minutes * 60000)) in
      match last with
      | None => (Some bucket, true)
      | Some b => if negb (b =? bucket) then (Some bucket, true)
                  else (last, false)
      end
  | _ => (last, false)
  end.

(** [shouldEvaluate(priceData, meta)] (lines 35-69); [thresholdTriggered]
    is the truthiness of [meta?.thresholdTriggered].  The log lines
    written under [verbose] are not modelled. *)
Definition shouldEvaluate (now : Z) (pd : priceData)
    (thresholdTriggered : bool) (e : engine) : bool * engine :=
  let timestamp := extractTimestamp now pd in
  let '(b5, r5) := updateBucket (bucket5m e) timestamp 5 in
  let '(b15, r15) := updateBucket (bucket15m e) timestamp 15 in
  let '(b60, r60) := updateBucket (bucket60m e) timestamp 60 in
  let release :=
    (negb (Nat.eqb (length (pendingReasonSet e)) 0) &&
     Js.ge (Js.sub timestamp (lastEmitTs e)) (Js.Fin (debounceMs e)))%bool in
  let evaluate := (r5 || r15 || r60 || thresholdTriggered || release)%bool in
  (evaluate,
   {| debounceMs := debounceMs e; thr := thr e;
      bucket5m := b5; bucket15m := b15; bucket60m := b60;
      lastTrendState := lastTrendState e;
      lastVolState := lastVolState e;
      lastConfluence := lastConfluence e;
      lastLiquidity := lastLiquidity e;
      lastDrawdownAlert := lastDrawdownAlert e;
      pendingReasonSet := pendingReasonSet e;
      lastEmitTs := lastEmitTs e |}).

(** ** detect *)

(** [snapshot.risk] as [#evaluateRisk] reads it: the position age is an
    integer bar count ([Math.floor] in the execution engine), [None]
    when it is not a finite number. *)
Record riskState : Type := {
  dailyPnlPct : Js.num;
  positionAgeBars5m : option Z;
  unrealizedR : Js.num
}.

(** A feature snapshot as [detect] reads it.  [regimeTrend] and
    [regimeVolatility] are [snapshot?.regime?.x] when present; the score
    is the integer of [#computeConfluence], [None] when it is not a
    finite number; the liquidity flags are read by truthiness. *)
Record snapshot : Type := {
  timestamp : Js.num;
  regimeTrend : option string;
  regimeVolatility : option string;
  confluenceScore : option Z;
  liquidity : liquidityFlags;
  risk : option riskState
}.

(** [x || null] on an optional string: the empty string is falsy. *)
Definition truthyString (o : option string) : option string :=
  match o with
  | Some s => if String.eqb s EmptyString then None else Some s
  | None => None
  end.

(** The mutable part of the engine that the evaluators touch, threaded
    with the local [reasons] array. *)
Definition push (r : string) (reasons : list string) : list string :=
  (reasons ++ [r])%list.

(** [#evaluateTrend] (lines 154-164) *)
Definition evaluateTrend (sn : snapshot) (last : option string)
    (reasons : list string) : option string * list string :=
  match truthyString (regimeTrend sn) with
  | None => (last, reasons)
  | Some trendState =>
      let reasons' :=
        match truthyString last with
        | Some l =>
            if negb (String.eqb l trendState) then
              push (if String.eqb trendState "bull" then "TrendFlip-Up(15m)"
                    else if String.eqb trendState "bear"
                         then "TrendFlip-Down(15m)"
                         else "TrendFlip-Neutral(15m)") reasons
            else reasons
        | None => reasons
        end in
      (Some trendState, reasons')
  end.

(** [#evaluateVolatility] (lines 166-183) *)
Definition evaluateVolatility (sn : snapshot) (last : option string)
    (reasons : list string) : option string * list string :=
  match truthyString (regimeVolatility sn) with
  | None => (last, reasons)
  | Some volState =>
      let reasons' :=
        match truthyString last with
        | Some l =>
            if negb (String.eqb l volState) then
              if String.eqb volState "high"
              then push "VolatilityRegimeHigh(15m)" reasons
              else if String.eqb volState "low"
                   then push "VolatilityRegimeLow(15m)" reasons
                   else push "VolatilityRegimeNormal(15m)" reasons
            else reasons
        | None =>
            if (String.eqb volState "high" || String.eqb volState "low")%bool
            then push (if String.eqb volState "high"
                       then "VolatilityRegimeHigh(15m)"
                       else "VolatilityRegimeLow(15m)") reasons
            else reasons
        end in
      (Some volState, reasons')
  end.

(** [#evaluateConfluence] (lines 185-197) *)
Definition evaluateConfluence (t : thresholds) (sn : snapshot)
    (last : option Z) (reasons : list string) : option Z * list string :=
  match confluenceScore sn with
  | None => (last, reasons)
  | Some score =>
      let reasons' :=
        match last with
        | Some l =>
            let delta := score - l in
            if Qle_bool (confluenceDelta t) (inject_Z (Z.abs delta))
            then push ("ConfluenceDelta(" +:+ Js.showZ l +:+ "→" +:+
                       Js.showZ score +:+ ")") reasons
            else reasons
        | None => reasons
        end in
      (Some score, reasons')
  end.

(** [#evaluateLiquidity] (lines 199-224) *)
Definition evaluateLiquidity (sn : snapshot) (last : liquidityFlags)
    (reasons : list string) : liquidityFlags * list string :=
  let l := liquidity sn in
  let r1 := if (sweepLow l && negb (sweepLow last))%bool
            then push "LiquiditySweep(Low)" reasons else reasons in
  let r2 := if (sweepHigh l && negb (sweepHigh last))%bool
            then push "LiquiditySweep(High)" r1 else r1 in
  let r3 := if (breakAndHoldHigh l && negb (breakAndHoldHigh last))%bool
            then push "BreakAndHold(High)" r2 else r2 in
  let r4 := if (breakAndHoldLow l && negb (breakAndHoldLow last))%bool
            then push "BreakAndHold(Low)" r3 else r3 in
  (l, r4).

(** [#evaluateRisk] (lines 226-248) *)
Definition evaluateRisk (t : thresholds) (sn : snapshot)
    (lastAlert : option string) (reasons : list string)
  : option string * list string :=
  match risk sn with
  | None => (lastAlert, reasons)
  | Some r =>
      let '(alert, r1) :=
        match dailyPnlPct r with
        | Js.Fin drawdown =>
            if Qle_bool drawdown (- Qabs (drawdownGuard t)) then
              let key := ("DrawdownGuardrail(" +:+ Js.toFixed 2 drawdown
                          +:+ "%)") in
              match lastAlert with
              | Some k =>
                  if String.eqb k key then (lastAlert, reasons)
                  else (Some key, push key reasons)
              | None => (Some key, push key reasons)
              end
            else (None, reasons)
        | _ => (lastAlert, reasons)
        end in
      let unrealized :=
        match unrealizedR r with Js.Fin u => u | _ => 0%Q end in
      let r2 :=
        match positionAgeBars5m r with
        | Some positionAge =>
            if (Qle_bool (positionAgeBars t) (inject_Z positionAge) &&
                negb (Qle_bool (1 # 2) (Qabs unrealized)))%bool
            then push ("TimeStop(" +:+ Js.showZ positionAge +:+ "bars)") r1
            else r1
        | None => r1
        end in
      (alert, r2)
  end.

(** The gate of [#maybeEmit] (line 145). *)
Definition gateOpen (ts : Js.num) (e : engine) : bool :=
  (negb (Js.truthy (lastEmitTs e)) ||
   Js.ge (Js.sub ts (lastEmitTs e)) (Js.Fin (debounceMs e)))%bool.

(** [#maybeEmit] (lines 141-152) on the engine with [pending] as its
    pending set: the emitted array, the new pending set and the new
    [lastEmitTs]. *)
Definition maybeEmit (ts : Js.num) (pending : list string) (e : engine)
  : list string * list string * Js.num :=
  match pending with
  | [] => ([], pending, lastEmitTs e)
  | _ :: _ =>
      if gateOpen ts e then (pending, [], ts)
      else ([], pending, lastEmitTs e)
  end.

(** The local [reasons] array that [detect] builds (lines 77-87), with
    the remembered state after the five evaluators. *)
Definition evaluateAll (sn : snapshot) (thresholdTriggered : bool)
    (e : engine)
  : option string * option string * option Z * liquidityFlags *
    option string * list string :=
  let '(trend, r1) := evaluateTrend sn (lastTrendState e) [] in
  let '(vol, r2) := evaluateVolatility sn (lastVolState e) r1 in
  let '(conf, r3) := evaluateConfluence (thr e) sn (lastConfluence e) r2 in
  let '(liq, r4) := evaluateLiquidity sn (lastLiquidity e) r3 in
  let '(alert, r5) := evaluateRisk (thr e) sn (lastDrawdownAlert e) r4 in
  let r6 := if thresholdTriggered then push "MomentumSpike(PriceFeed)" r5
            else r5 in
  (trend, vol, conf, liq, alert, r6).

(** The timestamp [detect] works with: [snapshot.timestamp || Date.now()]. *)
Definition detectTimestamp (now : Z) (sn : snapshot) : Js.num :=
  Js.or_num (timestamp sn) (Js.Fin (inject_Z now)).

(** The pending set after [reasons.forEach(add)] (lines 89-91). *)
Definition accumulate (reasons pending : list string) : list string :=
  fold_left (fun acc r => Js.set_add r acc) reasons pending.

(** [detect(snapshot, meta)] (lines 71-102); [None] is a snapshot that
    is not an object.  Returns the emitted array and the engine. *)
Definition detect (now : Z) (sn : option snapshot)
    (thresholdTriggered : bool) (e : engine) : list string * engine :=
  match sn with
  | None => ([], e)
  | Some sn =>
      let ts := detectTimestamp now sn in
      let '(trend, vol, conf, liq, alert, reasons) :=
        evaluateAll sn thresholdTriggered e in
      let pending := accumulate reasons (pendingReasonSet e) in
      let '(emitted, pending', emitTs) := maybeEmit ts pending e in
      (emitted,
       {| debounceMs := debounceMs e; thr := thr e;
          bucket5m := bucket5m e; bucket15m := bucket15m e;
          bucket60m := bucket60m e;
          lastTrendState := trend;
          lastVolState := vol;
          lastConfluence := conf;
          lastLiquidity := liq;
          lastDrawdownAlert := alert;
          pendingReasonSet := pending';
          lastEmitTs := emitTs |})
  end.

(** [reset()] (lines 104-116) *)
Definition reset (e : engine) : engine :=
  {| debounceMs := debounceMs e; thr := thr e;
     bucket5m := bucket5m e; bucket15m := bucket15m e;
     bucket60m := bucket60m e;
     lastTrendState := None;
     lastVolState := None;
     lastConfluence := None;
     lastLiquidity := noLiquidity;
     lastDrawdownAlert := lastDrawdownAlert e;
     pendingReasonSet := [];
     lastEmitTs := Js.Fin 0 |}.

(** The reasons one [detect] call finds, and the pending set it then
    holds before [#maybeEmit] runs. *)
Definition reasonsOf (sn : snapshot) (thresholdTriggered : bool)
    (e : engine) : list string :=
  snd (evaluateAll sn thresholdTriggered e).

Definition accumulated (sn : snapshot) (thresholdTriggered : bool)
    (e : engine) : list string :=
  accumulate (reasonsOf sn thresholdTriggered e) (pendingReasonSet e).

(** ** Runs of [detect] *)

(** One [detect] call: the clock, the snapshot and the meta flag. *)
Record call : Type := {
  c_now : Z;
  c_snapshot : option snapshot;
  c_threshold : bool
}.

(** The timestamp a call works with, when it has a snapshot. *)
Definition callTimestamp (c : call) : Js.num :=
  match c_snapshot c with
  | Some sn => detectTimestamp (c_now c) sn
  | None => Js.Fin (inject_Z (c_now c))
  end.

(** The arrays returned by a sequence of [detect] calls, each with the
    timestamp of its call, and the final engine. *)
Fixpoint run (calls : list call) (e : engine)
  : list (Js.num * list string) * engine :=
  match calls with
  | [] => ([], e)
  | c :: rest =>
      let '(emitted, e1) := detect (c_now c) (c_snapshot c) (c_threshold c) e in
      let '(out, e2) := run rest e1 in
      ((callTimestamp c, emitted) :: out, e2)
  end.

(** A small run: a low sweep at 100 s, a high sweep 30 s later, a quiet
    snapshot another 30 s later. *)
Definition quietSnapshot (ts : Q) (l : liquidityFlags) : option snapshot :=
  Some {| timestamp := Js.Fin ts; regimeTrend := None;
          regimeVolatility := None; confluenceScore := None;
          liquidity := l; risk := None |}.

Definition sweepCalls : list call :=
  [ {| c_now := 100001;
       c_snapshot := quietSnapshot 100000
         {| sweepLow := true; sweepHigh := false;
            breakAndHoldHigh := false; breakAndHoldLow := false |};
       c_threshold := false |};
    {| c_now := 130001;
       c_snapshot := quietSnapshot 130000
         {| sweepLow := true; sweepHigh := true;
            breakAndHoldHigh := false; breakAndHoldLow := false |};
       c_threshold := false |};
    {| c_now := 160001;
       c_snapshot := quietSnapshot 160000
         {| sweepLow := true; sweepHigh := true;
            breakAndHoldHigh := false; breakAndHoldLow := false |};
       c_threshold := false |} ].

(** The index of the bar of [minutes] minutes that holds a timestamp
    (line 129). *)
Definition barIndex (minutes : Z) (t : Q) : Z :=
  Qfloor (t / inject_Z (minutes * 60000)).

(** The reason text of a time stop (line 246). *)
Definition timeStop (age : Z) : string :=
  "TimeStop(" +:+ Js.showZ age +:+ "bars)".

(** A price update stamped by the channel at [t]. *)
Definition barUpdate (t : Q) : priceData :=
  {| channelTimestampUnix := Some (Js.Fin t); timestampUnix := None;
     intervalBeginUnix := None |}.

(** A snapshot with a trend, a high volatility, a confluence score, a
    low sweep, a drawdown of 3 percent and a position of 40 bars that
    has not moved: a fresh engine reads the volatility, the sweep, the
    drawdown and the time stop as reasons. *)
Definition busySnapshot : snapshot :=
  {| timestamp := Js.Fin 100000; regimeTrend := Some "bull";
     regimeVolatility := Some "high"; confluenceScore := Some 3;
     liquidity := {| sweepLow := true; sweepHigh := false;
                     breakAndHoldHigh := false; breakAndHoldLow := false |};
     risk := Some {| dailyPnlPct := Js.Fin (-3);
                     positionAgeBars5m := Some 40;
                     unrealizedR := Js.Fin (1 # 10) |} |}.

End EventEngine.

(* ===================================================================== *)
(** * gpt-bot/libs/GPT5.js : the confluence score of the feature builder *)
(* ===================================================================== *)

Module FeatureBuilder.

(** The fields of a timeframe's features that [#computeConfluence]
    reads.  [maStack] is the string of [#deriveMaStack]. *)
Record timeframeFeatures : Type := {
  maStack : string;
  macdHistogram : Js.num;
  rsi : Js.num;
  priceZ20 : Js.num;
  volumeZScore : Js.num
}.

(** [timeframes['5m']], [timeframes['15m']], [timeframes['1h']];
    [None] is a timeframe that failed and was left out. *)
Record timeframes : Type := {
  tf5m : option timeframeFeatures;
  tf15m : option timeframeFeatures;
  tf1h : option timeframeFeatures
}.

(** The pair of locals [score], [components]. *)
Definition acc : Type := (Z * list string)%type.

(** [score += delta; components.push(tag)] *)
Definition bump (delta : Z) (tag : string) (a : acc) : acc :=
  (fst a + delta, (snd a ++ [tag])%list).

(** [#computeConfluence(timeframes)] (lines 613-666) *)
Definition computeConfluence (tfs : timeframes) : acc :=
  let a0 : acc := (0, []) in
  let a1 :=
    match tf15m tfs with
    | Some tf15 =>
        let b1 :=
          if String.eqb (maStack tf15) "bull" then bump 2 "TrendBull(15m)" a0
          else if String.eqb (maStack tf15) "bear"
               then bump (-2) "TrendBear(15m)" a0
               else a0 in
        let b2 :=
          if Js.finite_gt (macdHistogram tf15) 0
          then bump 1 "MACD>0(15m)" b1 else b1 in
        if Js.finite_gt (rsi tf15) 55 then bump 1 "RSI>55(15m)" b2
        else if Js.finite_lt (rsi tf15) 45 then bump (-1) "RSI<45(15m)" b2
             else b2
    | None => a0
    end in
  let a2 :=
    match tf5m tfs with
    | Some tf5 =>
        let b1 :=
          if Js.finite_gt (priceZ20 tf5) (12 # 10)
          then bump 1 "PriceZ>1(5m)" a1
          else if Js.finite_lt (priceZ20 tf5) (- (12 # 10))
               then bump (-1) "PriceZ<-1(5m)" a1
               else a1 in
        if Js.finite_gt (volumeZScore tf5) (15 # 10)
        then bump 1 "VolumeSpike(5m)" b1 else b1
    | None => a1
    end in
  match tf1h tfs with
  | Some tf =>
      if String.eqb (maStack tf) "bull" then bump 1 "TrendBull(1h)" a2
      else if String.eqb (maStack tf) "bear" then bump (-1) "TrendBear(1h)" a2
           else a2
  | None => a2
  end.

(** ** The score as a sum of independent terms *)

(** One term of the sum: its signed weight and its tag, or nothing. *)
Definition term : Type := option (Z * string).

Definition weight (t : term) : Z :=
  match t with Some (w, _) => w | None => 0 end.

Definition tags (t : term) : list string :=
  match t with Some (_, tag) => [tag] | None => [] end.

Definition onTf (o : option timeframeFeatures)
    (f : timeframeFeatures -> term) : term :=
  match o with Some tf => f tf | None => None end.

Definition maTerm (w : Z) (bull bear : string) (tf : timeframeFeatures) : term :=
  if String.eqb (maStack tf) "bull" then Some (w, bull)
  else if String.eqb (maStack tf) "bear" then Some (- w, bear)
       else None.

(** The MACD term of the code: a positive histogram only. *)
Definition macdTerm (tf : timeframeFeatures) : term :=
  if Js.finite_gt (macdHistogram tf) 0 then Some (1, "MACD>0(15m)") else None.

(** The MACD weight as the specification words it: the sign of the
    histogram. *)
Definition macdSignWeight (tf : timeframeFeatures) : Z :=
  if Js.finite_gt (macdHistogram tf) 0 then 1
  else if Js.finite_lt (macdHistogram tf) 0 then -1
       else 0.

Definition rsiTerm (tf : timeframeFeatures) : term :=
  if Js.finite_gt (rsi tf) 55 then Some (1, "RSI>55(15m)")
  else if Js.finite_lt (rsi tf) 45 then Some (-1, "RSI<45(15m)")
       else None.

Definition priceZTerm (tf : timeframeFeatures) : term :=
  if Js.finite_gt (priceZ20 tf) (12 # 10) then Some (1, "PriceZ>1(5m)")
  else if Js.finite_lt (priceZ20 tf) (- (12 # 10))
       then Some (-1, "PriceZ<-1(5m)")
       else None.

Definition volumeTerm (tf : timeframeFeatures) : term :=
  if Js.finite_gt (volumeZScore tf) (15 # 10)
  then Some (1, "VolumeSpike(5m)") else None.

(** The contributing terms, in the order the code visits them. *)
Definition terms (tfs : timeframes) : list term :=
  [ onTf (tf15m tfs) (maTerm 2 "TrendBull(15m)" "TrendBear(15m)");
    onTf (tf15m tfs) macdTerm;
    onTf (tf15m tfs) rsiTerm;
    onTf (tf5m tfs) priceZTerm;
    onTf (tf5m tfs) volumeTerm;
    onTf (tf1h tfs) (maTerm 1 "TrendBull(1h)" "TrendBear(1h)") ].

Definition sumZ (l : list Z) : Z := fold_right Z.add 0 l.

(** The score of the specification's sentence: the terms above, with
    the MACD one replaced by the sign of the histogram. *)
Definition specScore (tfs : timeframes) : Z :=
  weight (onTf (tf15m tfs) (maTerm 2 "TrendBull(15m)" "TrendBear(15m)")) +
  match tf15m tfs with Some tf => macdSignWeight tf | None => 0 end +
  weight (onTf (tf15m tfs) rsiTerm) +
  weight (onTf (tf5m tfs) priceZTerm) +
  weight (onTf (tf5m tfs) volumeTerm) +
  weight (onTf (tf1h tfs) (maTerm 1 "TrendBull(1h)" "TrendBear(1h)")).

(** A 15m timeframe that is neutral but for a negative histogram. *)
Definition negativeMacd : timeframes := {|
  tf5m := None;
  tf15m := Some {| maStack := "neutral"; macdHistogram := Js.Fin (-1);
                   rsi := Js.Fin 50; priceZ20 := Js.Fin 0;
                   volumeZScore := Js.Fin 0 |};
  tf1h := None
|}.

End FeatureBuilder.

(* ===================================================================== *)
(** * gpt-bot/libs/LLMDecider.js : normalising the model's decision *)
(* ===================================================================== *)

Module LLMDecider.

(** A JavaScript value as [JSON.parse] or a mock decision function
    yields it.  An object is its list of own properties; the last
    binding of a key wins. *)
#[warnings="-register-all"] Inductive value : Type :=
| VUndefined
| VNull
| VBool (b : bool)
| VNum (n : Js.num)
| VStr (s : string)
| VArr (items : list value)
| VObj (props : list (string * value)).

(** [o.key] on an object; any other value has none of the decision's
    properties. *)
Fixpoint lookupProp (key : string) (props : list (string * value))
  : option value :=
  match props with
  | [] => None
  | (k, v) :: rest =>
      match lookupProp key rest with
      | Some later => Some later
      | None => if String.eqb k key then Some v else None
      end
  end.

Definition get (v : value) (key : string) : value :=
  match v with
  | VObj props =>
      match lookupProp key props with Some x => x | None => VUndefined end
  | _ => VUndefined
  end.

(** Truthiness. *)
Definition truthy (v : value) : bool :=
  match v with
  | VUndefined | VNull => false
  | VBool b => b
  | VNum n => Js.truthy n
  | VStr s => negb (String.eqb s EmptyString)
  | VArr _ | VObj _ => true
  end.

(** [typeof v === 'object'] *)
Definition isObjectType (v : value) : bool :=
  match v with
  | VNull | VArr _ | VObj _ => true
  | _ => false
  end.

Definition joinComma (l : list string) : string :=
  match l with
  | [] => EmptyString
  | x :: rest => fold_left (fun a s => a +:+ "," +:+ s) rest x
  end.

Section Coercions.

(** The two conversions between numbers and text of the language,
    [Number::toString] and [StringToNumber], are taken as given. *)
Variable numberToString : Js.num -> string.
Variable stringToNumber : string -> Js.num.

(** [String(v)] *)
Fixpoint toString (v : value) : string :=
  match v with
  | VUndefined => "undefined"
  | VNull => "null"
  | VBool true => "true"
  | VBool false => "false"
  | VNum n => numberToString n
  | VStr s => s
  | VArr items =>
      joinComma (map (fun x => match x with
                               | VUndefined | VNull => EmptyString
                               | _ => toString x
                               end) items)
  | VObj _ => "[object Object]"
  end.

(** [Number(v)] *)
Definition toNumber (v : value) : Js.num :=
  match v with
  | VUndefined => Js.NaN
  | VNull => Js.Fin 0
  | VBool true => Js.Fin 1
  | VBool false => Js.Fin 0
  | VNum n => n
  | VStr s => stringToNumber s
  | VArr _ => stringToNumber (toString v)
  | VObj _ => Js.NaN
  end.

(** [Number.isFinite(Number(x)) ? Number(x) : null] *)
Definition finiteOrNull (v : value) : value :=
  match toNumber v with
  | Js.Fin q => VNum (Js.Fin q)
  | _ => VNull
  end.

(** The normalised decision: the default [{action: 'HOLD', comment}] or
    the full record of lines 120-128. *)
Record decision : Type := {
  action : string;
  size_pct : value;
  entry : value;
  stop_atr : value;
  tp_atr : value;
  followups : value;
  comment : string
}.

Inductive normalised : Type :=
| Default (comment : string)
| Full (d : decision).

(** [#defaultDecision(comment)] (lines 131-136) *)
Definition defaultDecision (c : string) : normalised := Default c.


Definition allowed : list string :=
  ["HOLD"; "OPEN_LONG"; "ADD"; "TRIM"; "CLOSE_PARTIAL"; "CLOSE_ALL";
   "MOVE_STOP"; "SET_TP"; "PAUSE"].

Definition isWhite (c : ascii) : bool :=
  let n := nat_of_ascii c in
  ((n =? 32)%nat || ((9 <=? n)%nat && (n <=? 13)%nat))%bool.

Fixpoint trimStart (s : string) : string :=
  match s with
  | EmptyString => EmptyString
  | String c r => if isWhite c then trimStart r else s
  end.

Fixpoint trimEnd (s : string) : string :=
  match s with
  | EmptyString => EmptyString
  | String c r =>
      match trimEnd r with
      | EmptyString => if isWhite c then EmptyString
                       else String c EmptyString
      | r' => String c r'
      end
  end.

(** [s.trim()] on ASCII white space. *)
Definition trim (s : string) : string := trimEnd (trimStart s).

(** [#normaliseDecision(decision, source)] (lines 111-129) *)
Definition normaliseDecision (d : value) (source : string) : normalised :=
  if (negb (truthy d) || negb (isObjectType d))%bool then
    defaultDecision ("Invalid " +:+ source)
  else
    let act :=
      Js.toUpperCase
        (toString (if truthy (get d "action") then get d "action"
                   else VStr EmptyString)) in
    if negb (existsb (String.eqb act) allowed) then
      defaultDecision
        ("Unsupported action " +:+ Js.dquote +:+ toString (get d "action")
         +:+ Js.dquote)
    else
      Full {| action := act;
              size_pct := finiteOrNull (get d "size_pct");
              entry := if truthy (get d "entry") then get d "entry"
                       else VNull;
              stop_atr := finiteOrNull (get d "stop_atr");
              tp_atr := finiteOrNull (get d "tp_atr");
              followups := match get d "followups" with
                           | VArr items => VArr items
                           | _ => VArr []
                           end;
              comment := match get d "comment" with
                         | VStr c => trim c
                         | _ => source
                         end |}.

End Coercions.

(** ** What the specification asks of a normalised decision *)





(** A decision with a stop entry and a numeric follow-up. *)
Definition stopEntryDecision : value :=
  VObj [ ("action", VStr "open_long");
         ("size_pct", VNum (Js.Fin 25));
         ("entry", VObj [("type", VStr "stop")]);
         ("followups", VArr [VNum (Js.Fin 1)]) ].

End LLMDecider.

(* ===================================================================== *)
(** * Level2Logger.js : the local order book *)
(* ===================================================================== *)

Module Level2Logger.

(** A stored book level, [{ price, qty }]. *)
Record level : Type := {
  price : Q;
  qty : Q
}.

(** A level of an event, after the two [Number(...)] coercions of
    lines 231-232. *)
Record rawLevel : Type := {
  rprice : Js.num;
  rqty : Js.num
}.

(** The map key of a price: [price.toFixed(12)]. *)
Definition key (p : Q) : string := Js.toFixed 12 p.

(** The key a level addresses, if its price is finite. *)
Definition keyOf (l : option rawLevel) : option string :=
  match l with
  | Some {| rprice := Js.Fin p |} => Some (key p)
  | _ => None
  end.

(** The body of the [forEach] in [_applyLevels] (lines 227-241);
    [None] is a falsy entry of the array. *)
Definition applyLevel (m : gmap string level) (l : option rawLevel)
  : gmap string level :=
  match l with
  | None => m
  | Some l =>
      match rprice l with
      | Js.Fin p =>
          let k := key p in
          match rqty l with
          | Js.Fin q =>
              if Qle_bool q 0 then delete k m
              else <[k := {| price := p; qty := q |}]> m
          | _ => delete k m
          end
      | _ => m
      end
  end.

(** [_applyLevels(map, levels)] (lines 223-243); [None] is a [levels]
    that is not an array. *)
Definition applyLevels (m : gmap string level)
    (levels : option (list (option rawLevel))) : gmap string level :=
  match levels with
  | None => m
  | Some ls => fold_left applyLevel ls m
  end.

(** A book event of the monitor. *)
Record bookEvent : Type := {
  etype : string;
  ebids : option (list (option rawLevel));
  easks : option (list (option rawLevel))
}.

(** The book of one symbol: the two maps and the last trade price. *)
Record bookState : Type := {
  bids : gmap string level;
  asks : gmap string level;
  lastPrice : option Q
}.

(** The maps after [_onBookEvent] (lines 196-202) on the state of a
    symbol. *)
Definition applyEvent (st : bookState) (ev : bookEvent) : bookState :=
  let cleared :=
    if String.eqb (etype ev) "snapshot"
    then {| bids := ∅; asks := ∅; lastPrice := lastPrice st |}
    else st in
  {| bids := applyLevels (bids cleared) (ebids ev);
     asks := applyLevels (asks cleared) (easks ev);
     lastPrice := lastPrice cleared |}.

(** [_onBookEvent(symbol, event)] (lines 190-210) on [this.bookStates].
    [_recordSnapshot], which it calls last, reads the two maps and
    writes to the database; it does not change them. *)
Definition onBookEvent (symbol : string) (ev : bookEvent)
    (books : gmap string bookState) : gmap string bookState :=
  match books !! symbol with
  | None => books
  | Some st => <[symbol := applyEvent st ev]> books
  end.

(** A sequence of book events for one symbol, in the order received. *)
Definition onBookEvents (symbol : string) (evs : list bookEvent)
    (books : gmap string bookState) : gmap string bookState :=
  fold_left (fun b ev => onBookEvent symbol ev b) evs books.

(** What a level with a finite price leaves under its key. *)
Definition levelOutcome (p : Q) (q : Js.num) : option level :=
  match q with
  | Js.Fin q => if Qle_bool q 0 then None
                else Some {| price := p; qty := q |}
  | _ => None
  end.

(** One side of the book after an event, against the map [start] the
    event's levels were applied to: the last level that addresses a key
    decides it (present with the level's price and quantity when the
    quantity is positive, absent when it is zero, negative or not
    finite), and a key that no level addresses is as in [start]. *)
Definition sideAfter (start after : gmap string level)
    (levels : option (list (option rawLevel))) : Prop :=
  (forall pre post p q,
     levels = Some (pre ++ Some {| rprice := Js.Fin p; rqty := q |} :: post) ->
     (forall l, In l post -> keyOf l <> Some (key p)) ->
     (forall q0, q = Js.Fin q0 -> (0 < q0)%Q ->
        after !! key p = Some {| price := p; qty := q0 |}) /\
     (forall q0, q = Js.Fin q0 -> (q0 <= 0)%Q -> after !! key p = None) /\
     (Js.isFinite q = false -> after !! key p = None)) /\
  (forall k,
     (forall ls l, levels = Some ls -> In l ls -> keyOf l <> Some k) ->
     after !! k = start !! k).

(** A state with one resting bid, and an update that removes it and
    adds an ask. *)
Definition oneBid : bookState :=
  {| bids := {[ key (1 # 10) := {| price := 1 # 10; qty := 500 |} ]};
     asks := ∅; lastPrice := None |}.

Definition removeBidAddAsk : bookEvent :=
  {| etype := "update";
     ebids := Some [Some {| rprice := Js.Fin (1 # 10); rqty := Js.Fin 0 |}];
     easks := Some [Some {| rprice := Js.Fin (11 # 100); rqty := Js.Fin 40 |}] |}.

End Level2Logger.

(* ---------------------------------------------------------------------- *)
(** * Bot.js: normalisePair *)
(* ---------------------------------------------------------------------- *)

Module Pair.


(** [KNOWN_QUOTES] (lines 6-31) *)
Definition KNOWN_QUOTES : list string :=
  ["USDT"; "USDC"; "DAI"; "EUR"; "USD"; "GBP"; "CAD"; "CHF"; "JPY"; "AUD";
   "NZD"; "BTC"; "XBT"; "ETH"; "SOL"; "DOT"; "ADA"; "TRY"; "MXN"; "ZUSD";
   "ZEUR"; "ZGBP"; "ZJPY"; "ZCAD"].

(** The character class [[:\s-]] on ASCII, and the slash. *)
Definition isSeparator (c : ascii) : bool :=
  (Ascii.eqb c ":" || LLMDecider.isWhite c || Ascii.eqb c "-")%bool.

Definition isSlash (c : ascii) : bool := Ascii.eqb c "/".

(** [s.replace(/[class]+/g, '/')]: every maximal run of characters of
    the class becomes one slash; [inRun] says that the character before
    belonged to a run. *)
Fixpoint replaceRuns (isRun : ascii -> bool) (inRun : bool) (s : string)
  : string :=
  match s with
  | EmptyString => EmptyString
  | String c r =>
      if isRun c then
        if inRun then replaceRuns isRun true r
        else String "/" (replaceRuns isRun true r)
      else String c (replaceRuns isRun false r)
  end.

(** Lines 97-99. *)
Definition sanitise (input : string) : string :=
  replaceRuns isSlash false
    (replaceRuns isSeparator false (Js.toUpperCase (LLMDecider.trim input))).

(** [s.includes('/')] *)
Fixpoint includesSlash (s : string) : bool :=
  match s with
  | EmptyString => false
  | String c r => (isSlash c || includesSlash r)%bool
  end.

(** [s.endsWith(q)] *)
Fixpoint endsWith (s q : string) : bool :=
  if String.eqb s q then true
  else match s with
       | EmptyString => false
       | String _ r => endsWith r q
       end.

(** [s.slice(0, s.length - n)] and [s.slice(-n)], for [n] up to the
    length of [s]. *)
Definition sliceEnd (n : nat) (s : string) : string :=
  substring 0 (String.length s - n) s.

Definition lastChars (n : nat) (s : string) : string :=
  substring (String.length s - n) n s.

(** Lines 101-108: a text without a slash is cut before its quote. *)
Definition splitQuote (s : string) : string :=
  if includesSlash s then s
  else
    match List.find (fun q => endsWith s q) KNOWN_QUOTES with
    | Some m => sliceEnd (String.length m) s +:+ "/" +:+ m
    | None =>
        if (6 <=? String.length s)%nat
        then sliceEnd 3 s +:+ "/" +:+ lastChars 3 s
        else s
    end.

(** [s.split('/')] *)
Fixpoint splitSlash (s : string) : list string :=
  match s with
  | EmptyString => [EmptyString]
  | String c r =>
      if isSlash c then EmptyString :: splitSlash r
      else match splitSlash r with
           | x :: xs => String c x :: xs
           | [] => [String c EmptyString]
           end
  end.

Record pair : Type := {
  wsPair : string;
  restPair : string;
  base : string;
  quote : string
}.

(** [normalisePair(input)] (lines 92-121) on a string. *)
Definition normalisePair (input : string) : Bot.result pair :=
  if String.eqb (LLMDecider.trim input) EmptyString then
    Bot.Throw "A trading pair string is required, e.g. DOGE/USD"
  else
    let unparsed :=
      Bot.Throw ("Unable to parse trading pair from " +:+ Js.dquote +:+
                 input +:+ Js.dquote) in
    match splitSlash (splitQuote (sanitise input)) with
    | b :: q :: _ =>
        if (String.eqb b EmptyString || String.eqb q EmptyString)%bool
        then unparsed
        else Bot.Ok {| wsPair := b +:+ "/" +:+ q;
                       restPair := b +:+ q;
                       base := b;
                       quote := q |}
    | _ => unparsed
    end.

(** Every character of a text satisfies a test. *)
Fixpoint allChars (f : ascii -> bool) (s : string) : bool :=
  match s with
  | EmptyString => true
  | String c r => (f c && allChars f r)%bool
  end.

(** A character that the first two steps leave alone, and one that can
    stand in a base or a quote. *)
Definition upperFixed (c : ascii) : bool := Ascii.eqb (Js.upper_ascii c) c.

Definition tidy (c : ascii) : bool :=
  (negb (isSeparator c) && upperFixed c)%bool.

Definition clean (c : ascii) : bool := (tidy c && negb (isSlash c))%bool.

(** The entries of [KNOWN_QUOTES] that start with Kraken's [Z] prefix. *)
Definition zQuotes : list string := ["ZUSD"; "ZEUR"; "ZGBP"; "ZJPY"; "ZCAD"].

(** A text of clean characters and slashes. *)
Definition plain (c : ascii) : bool := (clean c || isSlash c)%bool.

End Pair.

(* ===================================================================== *)
(** * Properties *)
(* ===================================================================== *)

(* ---------------------------------------------------------------------- *)
(** ** The position ledger (ExecutionEngine.js) *)
(* ---------------------------------------------------------------------- *)

Section Ledger.
Import ExecutionEngine.

Lemma position_ok_flat : position_ok flatPosition.
Proof. left. split; [reflexivity | split; reflexivity]. Qed.

Lemma position_ok_equiv (p : position) :
  position_ok p ->
  (pside p = FLAT <-> (size p == 0)%Q) /\
  ((size p == 0)%Q <-> (averagePrice p == 0)%Q).
Proof.
  intros [(Hs & Hz & Ha) | (Hs & Hz & Ha)].
  - repeat split; intros; assumption.
  - repeat split; intros H.
    + rewrite Hs in H; discriminate.
    + rewrite H in Hz. exfalso. revert Hz. apply Qlt_irrefl.
    + rewrite H in Hz. exfalso. revert Hz. apply Qlt_irrefl.
    + rewrite H in Ha. exfalso. revert Ha. apply Qlt_irrefl.
Qed.

Lemma pos_recalculateDailyPnL (e : engine) : pos (recalculateDailyPnL e) = pos e.
Proof.
  unfold recalculateDailyPnL.
  destruct (dailyStartingBalance e) as [b|]; [|reflexivity].
  destruct (Qeq_bool b 0); [reflexivity|].
  destruct (negb (Qle_bool b 0)); reflexivity.
Qed.

Lemma pos_maybeApplyPause (now : Z) (e : engine) :
  pos (maybeApplyPause now e) = pos e.
Proof. unfold maybeApplyPause. destruct (lossesReached e); reflexivity. Qed.

Lemma guard_false (q p : Q) :
  (Qle_bool q 0 || Qle_bool p 0)%bool = false -> (0 < q /\ 0 < p)%Q.
Proof.
  intros H. apply orb_false_elim in H. destruct H as [Hq Hp].
  split; apply Qnot_le_lt; intros Hle; apply Qle_bool_iff in Hle; congruence.
Qed.

Lemma applyBuy_ok (now : Z) (q p : Q) (a : bool) (e : engine) :
  (0 < q)%Q -> (0 < p)%Q -> position_ok (pos e) ->
  position_ok (pos (applyBuy now q p a e)).
Proof.
  intros Hq Hp Hok. right. cbn.
  assert (Hsz : (0 <= size (pos e))%Q).
  { destruct Hok as [(_ & H & _) | (_ & H & _)];
      [rewrite H; apply Qle_refl | apply Qlt_le_weak, H]. }
  assert (Hav : (0 <= averagePrice (pos e))%Q).
  { destruct Hok as [(_ & _ & H) | (_ & _ & H)];
      [rewrite H; apply Qle_refl | apply Qlt_le_weak, H]. }
  assert (Hnew : (0 < size (pos e) + q)%Q) by lra.
  split; [reflexivity | split; [exact Hnew|]].
  apply Qlt_shift_div_l; [exact Hnew|].
  assert (0 <= averagePrice (pos e) * size (pos e))%Q
    by (apply Qmult_le_0_compat; assumption).
  assert (0 < q * p)%Q by (apply Qmult_lt_0_compat; assumption).
  lra.
Qed.

Lemma recordSell_ok (q p : Q) (e : engine) :
  (0 < q)%Q -> position_ok (pos e) -> position_ok (pos (recordSell q p e)).
Proof.
  intros Hq Hok. unfold recordSell. cbn.
  destruct (Qeq_bool (Qmax 0 (size (pos e) - q)) 0) eqn:Hz.
  - left. cbn. apply Qeq_bool_iff in Hz.
    split; [reflexivity | split; [exact Hz | reflexivity]].
  - right. cbn.
    assert (Hne : ~ (Qmax 0 (size (pos e) - q) == 0)%Q).
    { intros H. apply Qeq_bool_iff in H. congruence. }
    destruct (Q.max_spec 0 (size (pos e) - q)) as [[Hlt Heq] | [Hle Heq]];
      [|contradiction].
    destruct Hok as [(Hs & Hsz & Ha) | (Hs & Hsz & Ha)].
    + exfalso. rewrite Hsz in Hlt. lra.
    + split; [exact Hs | split; [rewrite Heq; exact Hlt | exact Ha]].
Qed.

Lemma applyFill_ok (now : Z) (sd : fillSide) (q p : Js.num) (a : bool)
    (e : engine) :
  position_ok (pos e) -> position_ok (pos (applyFill now sd q p a e)).
Proof.
  intros Hok. unfold applyFill.
  destruct q as [q| | |]; try exact Hok.
  destruct p as [p| | |]; try exact Hok.
  destruct (Qle_bool q 0 || Qle_bool p 0)%bool eqn:Hg; [exact Hok|].
  apply guard_false in Hg. destruct Hg as [Hq Hp].
  rewrite pos_recalculateDailyPnL.
  destruct sd.
  - apply applyBuy_ok; assumption.
  - unfold applySell. rewrite pos_maybeApplyPause.
    apply recordSell_ok; assumption.
Qed.

Lemma handleFill_ok (now : Z) (f : option fill) (e : engine) :
  position_ok (pos e) -> position_ok (pos (handleFill now f e)).
Proof.
  intros Hok. unfold handleFill.
  destruct f as [f|]; [|exact Hok].
  destruct (fquantity f) as [q| | |] eqn:Eq; try exact Hok.
  destruct (fprice f) as [p| | |] eqn:Ep; try exact Hok.
  destruct (Qle_bool q 0 || Qle_bool p 0)%bool; [exact Hok|].
  destruct (fside f) as [s|]; cbn -[applyFill]; [|exact Hok].
  destruct (String.eqb (Js.toLowerCase s) "buy"); [apply applyFill_ok, Hok|].
  destruct (String.eqb (Js.toLowerCase s) "sell"); [apply applyFill_ok, Hok|].
  exact Hok.
Qed.

Lemma applyOp_ok (e : engine) (op : ledgerOp) :
  position_ok (pos e) -> position_ok (pos (applyOp e op)).
Proof.
  destruct op; cbn; [apply handleFill_ok | apply applyFill_ok].
Qed.

Lemma applyOps_ok (ops : list ledgerOp) (e : engine) :
  position_ok (pos e) -> position_ok (pos (applyOps ops e)).
Proof.
  revert e. induction ops as [|op ops IH]; intros e Hok; cbn.
  - exact Hok.
  - apply IH, applyOp_ok, Hok.
Qed.

(** C8.  Start from the constructor's state and apply any sequence of
    fills (exchange notifications through [handleFill], or fills applied
    locally by the order paths).  After every fill application, that is
    after every prefix of the sequence, the position satisfies
    [side = FLAT <-> size = 0 <-> avg_price = 0]. *)
Theorem ledger_flat_iff_zero_size_iff_zero_avg
    (risk : riskConfig) (ops : list ledgerOp) (n : nat) :
  let p := pos (applyOps (firstn n ops) (construct risk)) in
  (pside p = FLAT <-> size p == 0)%Q /\
  (size p == 0 <-> averagePrice p == 0)%Q.
Proof.
  cbv zeta. apply position_ok_equiv, applyOps_ok. exact position_ok_flat.
Qed.

(** *** The loss window and the cooldown *)

Lemma count_true_app (l1 l2 : list bool) :
  Js.count_true (l1 ++ l2) = (Js.count_true l1 + Js.count_true l2)%nat.
Proof. unfold Js.count_true. rewrite List.filter_app, length_app. reflexivity. Qed.

Lemma count_true_skipn (n : nat) (l : list bool) :
  (Js.count_true (skipn n l) <= Js.count_true l)%nat.
Proof.
  rewrite <- (firstn_skipn n l) at 2. rewrite count_true_app. lia.
Qed.

Lemma count_true_slice_last (n : nat) (l : list bool) :
  (Js.count_true (Js.slice_last n l) <= Js.count_true l)%nat.
Proof. apply count_true_skipn. Qed.

Lemma fields_recalculateDailyPnL (e : engine) :
  cfg (recalculateDailyPnL e) = cfg e /\
  lossCountWindow (recalculateDailyPnL e) = lossCountWindow e /\
  pauseUntil (recalculateDailyPnL e) = pauseUntil e.
Proof.
  unfold recalculateDailyPnL.
  destruct (dailyStartingBalance e) as [b|]; [|auto].
  destruct (Qeq_bool b 0); [auto|].
  destruct (negb (Qle_bool b 0)); auto.
Qed.

(** What an operation does, read through [sellOf]. *)
Lemma applyOp_sell (e : engine) (op : ledgerOp) (now : Z) (q p : Q) :
  sellOf op = Some (now, q, p) ->
  applyOp e op = recalculateDailyPnL (applySell now q p e).
Proof.
  destruct op as [t f | t sd qn pn a]; cbn.
  - destruct f as [f|]; [|discriminate]. cbn.
    destruct (fquantity f) as [q0| | |]; try discriminate.
    destruct (fprice f) as [p0| | |]; try discriminate.
    destruct (fside f) as [s|]; [|discriminate]. cbn -[applyFill].
    destruct (Qle_bool q0 0 || Qle_bool p0 0)%bool eqn:Hg; [discriminate|].
    destruct (String.eqb (Js.toLowerCase s) "buy"); [discriminate|].
    destruct (String.eqb (Js.toLowerCase s) "sell"); [|discriminate].
    intros H; injection H as <- <- <-. unfold applyFill. rewrite Hg. reflexivity.
  - destruct sd; [discriminate|].
    destruct qn as [q0| | |]; try discriminate.
    destruct pn as [p0| | |]; try discriminate.
    destruct (Qle_bool q0 0 || Qle_bool p0 0)%bool eqn:Hg; [discriminate|].
    intros H; injection H as <- <- <-. unfold applyFill. rewrite Hg. reflexivity.
Qed.

Lemma applyBuy_window (now : Z) (q p : Q) (a : bool) (e : engine) :
  lossCountWindow (recalculateDailyPnL (applyBuy now q p a e)) = lossCountWindow e.
Proof.
  destruct (fields_recalculateDailyPnL (applyBuy now q p a e)) as (_ & -> & _).
  reflexivity.
Qed.

Lemma applyFill_valid (now : Z) (sd : fillSide) (q p : Q) (a : bool)
    (e : engine) :
  (Qle_bool q 0 || Qle_bool p 0)%bool = false ->
  applyFill now sd (Js.Fin q) (Js.Fin p) a e =
  recalculateDailyPnL
    match sd with
    | Buy => applyBuy now q p a e
    | Sell => applySell now q p e
    end.
Proof. intros Hg. unfold applyFill. rewrite Hg. reflexivity. Qed.

Lemma applyOp_not_sell (e : engine) (op : ledgerOp) :
  sellOf op = None ->
  lossCountWindow (applyOp e op) = lossCountWindow e /\
  cfg (applyOp e op) = cfg e.
Proof.
  intros Hs. destruct op as [t f | t sd qn pn a]; cbn [applyOp].
  - unfold handleFill. destruct f as [f|]; [|auto].
    unfold sellOf in Hs.
    destruct (fquantity f) as [q0| | |]; auto.
    destruct (fprice f) as [p0| | |]; auto.
    destruct (Qle_bool q0 0 || Qle_bool p0 0)%bool eqn:Hg; [auto|].
    destruct (fside f) as [s|]; [|auto]. cbn [fmap option_fmap option_map].
    destruct (String.eqb (Js.toLowerCase s) "buy").
    { rewrite (applyFill_valid _ _ _ _ _ _ Hg).
      destruct (fields_recalculateDailyPnL (applyBuy t q0 p0 false e))
        as (-> & -> & _). auto. }
    destruct (String.eqb (Js.toLowerCase s) "sell"); [discriminate|auto].
  - unfold sellOf in Hs.
    destruct qn as [q0| | |]; try (unfold applyFill; auto; fail).
    destruct pn as [p0| | |]; try (unfold applyFill; auto; fail).
    destruct (Qle_bool q0 0 || Qle_bool p0 0)%bool eqn:Hg.
    { unfold applyFill. rewrite Hg. auto. }
    destruct sd; [|discriminate].
    rewrite (applyFill_valid _ _ _ _ _ _ Hg).
    destruct (fields_recalculateDailyPnL (applyBuy t q0 p0 a e))
      as (-> & -> & _). auto.
Qed.

Lemma cfg_applyOp (e : engine) (op : ledgerOp) : cfg (applyOp e op) = cfg e.
Proof.
  destruct (sellOf op) as [[[now q] p]|] eqn:Hs.
  - rewrite (applyOp_sell e op now q p Hs).
    destruct (fields_recalculateDailyPnL (applySell now q p e)) as (-> & _).
    unfold applySell, maybeApplyPause.
    destruct (lossesReached (recordSell q p e)); reflexivity.
  - apply applyOp_not_sell, Hs.
Qed.

Lemma cfg_applyOps (ops : list ledgerOp) (e : engine) :
  cfg (applyOps ops e) = cfg e.
Proof.
  revert e. induction ops as [|op ops IH]; intros e; cbn; [reflexivity|].
  rewrite IH. apply cfg_applyOp.
Qed.

Lemma applyOps_snoc (ops : list ledgerOp) (op : ledgerOp) (e : engine) :
  applyOps (ops ++ [op]) e = applyOp (applyOps ops e) op.
Proof. unfold applyOps. rewrite fold_left_app. reflexivity. Qed.

Lemma lossCount_snoc (ops : list ledgerOp) (op : ledgerOp) (e : engine) :
  lossCount (ops ++ [op]) e =
  (lossCount ops e + if isLoss (applyOps ops e) op then 1 else 0)%nat.
Proof.
  revert e. induction ops as [|o ops IH]; intros e; cbn.
  - lia.
  - rewrite IH. unfold applyOps. lia.
Qed.

(** The window after the push and the slide holds at most one loss more
    than before, and only if the sell is a loss. *)
Lemma recordSell_window (q p : Q) (e : engine) :
  (Js.count_true (lossCountWindow (recordSell q p e)) <=
   Js.count_true (lossCountWindow e) +
   if negb (Qle_bool 0 (realizedOf q p (pos e))) then 1 else 0)%nat.
Proof.
  unfold recordSell; cbn [lossCountWindow].
  etransitivity; [apply count_true_slice_last|].
  rewrite count_true_app.
  destruct (negb (Qle_bool 0 (realizedOf q p (pos e)))); cbn; lia.
Qed.

Lemma applyOp_window (e : engine) (op : ledgerOp) :
  (Js.count_true (lossCountWindow (applyOp e op)) <=
   Js.count_true (lossCountWindow e) + if isLoss e op then 1 else 0)%nat.
Proof.
  unfold isLoss.
  destruct (sellOf op) as [[[now q] p]|] eqn:Hs.
  - rewrite (applyOp_sell e op now q p Hs).
    destruct (fields_recalculateDailyPnL (applySell now q p e)) as (_ & -> & _).
    unfold applySell, maybeApplyPause.
    destruct (lossesReached (recordSell q p e)).
    + cbn. lia.
    + apply recordSell_window.
  - destruct (applyOp_not_sell e op Hs) as [-> _]. lia.
Qed.

Lemma applyOps_window (ops : list ledgerOp) (e : engine) :
  (Js.count_true (lossCountWindow (applyOps ops e)) <=
   Js.count_true (lossCountWindow e) + lossCount ops e)%nat.
Proof.
  revert e. induction ops as [|op ops IH]; intros e; cbn.
  - lia.
  - etransitivity; [apply IH|].
    pose proof (applyOp_window e op). lia.
Qed.

(** C10.  When a sell fill brings the number of losses in the last-5
    window to at least [pauseAfterLosses], the engine sets [pauseUntil]
    to [now + pauseMinutes * 60000] and empties the window.  From that
    state on, whatever fills follow, the next sell that triggers the
    pause has at least [pauseAfterLosses] losing sells since the
    cooldown: the streak restarts from zero. *)
Theorem cooldown_clears_loss_window
    (e : engine) (op : ledgerOp) (now : Z) (q p : Q) :
  sellOf op = Some (now, q, p) ->
  lossesReached (recordSell q p e) = true ->
  let e' := applyOp e op in
  (pauseUntil e' == inject_Z now + pauseMinutes (cfg e) * 60000)%Q /\
  lossCountWindow e' = [] /\
  forall (ops : list ledgerOp) (op2 : ledgerOp),
    triggersPause (applyOps ops e') op2 = true ->
    (pauseAfterLosses (cfg e) <=
     inject_Z (Z.of_nat (lossCount (ops ++ [op2]) e')))%Q.
Proof.
  intros Hs Hreach e'.
  assert (He' : e' = recalculateDailyPnL (applySell now q p e))
    by (apply applyOp_sell, Hs).
  destruct (fields_recalculateDailyPnL (applySell now q p e))
    as (Hc & Hw & Hp).
  assert (Hwin : lossCountWindow e' = []).
  { rewrite He', Hw. unfold applySell, maybeApplyPause. rewrite Hreach.
    reflexivity. }
  split; [|split].
  - rewrite He', Hp. unfold applySell, maybeApplyPause. rewrite Hreach.
    cbn. reflexivity.
  - exact Hwin.
  - intros ops op2 Htrig.
    unfold triggersPause in Htrig.
    destruct (sellOf op2) as [[[now2 q2] p2]|] eqn:Hs2; [|discriminate].
    unfold lossesReached in Htrig. apply Qle_bool_iff in Htrig.
    assert (Hcfg : cfg (recordSell q2 p2 (applyOps ops e')) = cfg e).
    { cbn. rewrite cfg_applyOps. subst e'. apply cfg_applyOp. }
    rewrite Hcfg in Htrig.
    eapply Qle_trans; [exact Htrig|].
    rewrite <- Zle_Qle. apply Nat2Z.inj_le.
    rewrite lossCount_snoc.
    pose proof (recordSell_window q2 p2 (applyOps ops e')) as H1.
    pose proof (applyOps_window ops e') as H2.
    rewrite Hwin in H2. cbn in H2.
    unfold isLoss. rewrite Hs2. lia.
Qed.

Lemma cooldown_clears_loss_window_witness :
  let e := applyOps twoLossesPrefix (construct defaultRisk) in
  let e' := applyOp e secondLoss in
  (pauseUntil e' == inject_Z 4000 + pauseMinutes (cfg e) * 60000)%Q /\
  lossCountWindow e' = [] /\
  forall (ops : list ledgerOp) (op2 : ledgerOp),
    triggersPause (applyOps ops e') op2 = true ->
    (pauseAfterLosses (cfg e) <=
     inject_Z (Z.of_nat (lossCount (ops ++ [op2]) e')))%Q.
Proof.
  apply (cooldown_clears_loss_window
           (applyOps twoLossesPrefix (construct defaultRisk))
           secondLoss 4000 100 (96 # 100)).
  - vm_compute. reflexivity.
  - vm_compute. reflexivity.
Defined.

(** The scenario, evaluated: the second loss pauses the engine until
    4000 + 30 * 60000 and empties the window. *)
Example cooldown_scenario :
  let e' := applyOps (twoLossesPrefix ++ [secondLoss]) (construct defaultRisk) in
  Qeq_bool (pauseUntil e') 1804000 = true /\
  lossCountWindow e' = [] /\
  isPaused 5000 e' = true /\
  pside (pos e') = FLAT.
Proof. vm_compute. repeat split. Qed.

End Ledger.

(* ---------------------------------------------------------------------- *)
(** ** The event engine (EventEngine.js) *)
(* ---------------------------------------------------------------------- *)

Section Events.
Import EventEngine.

(** A price update whose channel timestamp is [Infinity]. *)
Example first_shouldEvaluate_returns_false :
  fst (shouldEvaluate 1700000000000
         {| channelTimestampUnix := Some Js.PosInf;
            timestampUnix := None;
            intervalBeginUnix := None |}
         false
         (construct None defaultThresholds)) = false.
Proof. reflexivity. Qed.

Lemma extractTimestamp_fromMonitor (now : Z) (pd : priceData) :
  fromMonitor pd = true -> Js.isFinite (extractTimestamp now pd) = true.
Proof.
  unfold fromMonitor, extractTimestamp, Js.or_num, field.
  destruct (channelTimestampUnix pd) as [[a| | |]|],
           (timestampUnix pd) as [[c| | |]|],
           (intervalBeginUnix pd) as [[i| | |]|]; cbn [andb]; try discriminate;
    intros _; cbn [Js.truthy];
    repeat match goal with
           | |- context [negb (Qeq_bool ?x 0)] => destruct (negb (Qeq_bool x 0))
           end; reflexivity.
Qed.

(** C9, amended.  On a freshly constructed engine the first call of
    [shouldEvaluate] returns true exactly when the extracted timestamp
    is a finite number (a null bucket index then counts as a change) or
    the threshold flag of [meta] is set.  In particular it returns true
    for every price update whose timestamp fields are finite or
    missing, as those of the monitor are: a missing timestamp falls
    back to the clock. *)
Theorem first_shouldEvaluate_iff_finite_timestamp
    (debounce : option Q) (t : thresholds) (now : Z) (pd : priceData)
    (thresholdTriggered : bool) :
  fst (shouldEvaluate now pd thresholdTriggered (construct debounce t)) =
  (Js.isFinite (extractTimestamp now pd) || thresholdTriggered)%bool /\
  (fromMonitor pd = true ->
   fst (shouldEvaluate now pd thresholdTriggered (construct debounce t)) = true).
Proof.
  assert (H : fst (shouldEvaluate now pd thresholdTriggered
                     (construct debounce t)) =
              (Js.isFinite (extractTimestamp now pd) || thresholdTriggered)%bool).
  { unfold shouldEvaluate. cbn [construct bucket5m bucket15m bucket60m
      pendingReasonSet lastEmitTs debounceMs].
    destruct (extractTimestamp now pd) as [ts| | |]; cbn; try reflexivity.
    all: destruct thresholdTriggered; reflexivity. }
  split; [exact H|].
  intros Hpd. rewrite H, (extractTimestamp_fromMonitor now pd Hpd). reflexivity.
Qed.

(** *** The pending set and the debounce gate *)



(** The two outcomes of [detect] on a snapshot. *)
Lemma detect_emit (now : Z) (sn : snapshot) (th : bool) (e : engine) :
  accumulated sn th e <> [] ->
  gateOpen (detectTimestamp now sn) e = true ->
  fst (detect now (Some sn) th e) = accumulated sn th e /\
  pendingReasonSet (snd (detect now (Some sn) th e)) = [] /\
  lastEmitTs (snd (detect now (Some sn) th e)) = detectTimestamp now sn.
Proof.
  unfold accumulated, reasonsOf, detect.
  destruct (evaluateAll sn th e) as [[[[[tr vo] co] li] al] rs]. cbn [snd].
  intros Hne Hgate. unfold maybeEmit. rewrite Hgate.
  destruct (accumulate rs (pendingReasonSet e)); [congruence|].
  cbn. auto.
Qed.

Lemma detect_hold (now : Z) (sn : snapshot) (th : bool) (e : engine) :
  accumulated sn th e = [] \/ gateOpen (detectTimestamp now sn) e = false ->
  fst (detect now (Some sn) th e) = [] /\
  pendingReasonSet (snd (detect now (Some sn) th e)) = accumulated sn th e /\
  lastEmitTs (snd (detect now (Some sn) th e)) = lastEmitTs e.
Proof.
  unfold accumulated, reasonsOf, detect.
  destruct (evaluateAll sn th e) as [[[[[tr vo] co] li] al] rs]. cbn [snd].
  intros Hcase. unfold maybeEmit.
  destruct (accumulate rs (pendingReasonSet e)) as [|r acc]; [cbn; auto|].
  destruct Hcase as [Hnil | Hgate]; [discriminate|].
  rewrite Hgate. cbn. auto.
Qed.


Lemma detect_cases (now : Z) (sn : snapshot) (th : bool) (e : engine) :
  (accumulated sn th e <> [] /\
   gateOpen (detectTimestamp now sn) e = true) \/
  (accumulated sn th e = [] \/
   gateOpen (detectTimestamp now sn) e = false).
Proof.
  destruct (accumulated sn th e); [right; left; reflexivity|].
  destruct (gateOpen (detectTimestamp now sn) e).
  - left. split; [discriminate|reflexivity].
  - right. right. reflexivity.
Qed.












(** The run above: the low sweep is emitted at once, the high sweep is
    held back 30 s later and comes out once 60 s have passed. *)
Example sweep_run :
  fst (run sweepCalls (construct None defaultThresholds)) =
  [ (Js.Fin 100000, ["LiquiditySweep(Low)"]);
    (Js.Fin 130000, []);
    (Js.Fin 160000, ["LiquiditySweep(High)"]) ].
Proof. reflexivity. Qed.

End Events.

(* ---------------------------------------------------------------------- *)
(** ** The confluence score (GPT5.js) *)
(* ---------------------------------------------------------------------- *)

Section Confluence.
Import FeatureBuilder.

(** A negative 15m histogram subtracts nothing: the code scores 0 where
    the sentence of the specification gives -1. *)
Example negative_macd_is_not_scored :
  fst (computeConfluence negativeMacd) = 0 /\
  snd (computeConfluence negativeMacd) = [] /\
  specScore negativeMacd = -1.
Proof. repeat split. Qed.

(** C4, amended.  The confluence score is the sum of: +2/-2 for a
    bull/bear 15m ma_stack; +1 for a positive 15m MACD histogram (a
    negative histogram contributes nothing); +1 if 15m RSI > 55 and -1
    if < 45; +1 if 5m price_z20 > 1.2 and -1 if < -1.2; +1 if 5m
    volume_z > 1.5; +1/-1 for a bull/bear 1h ma_stack.  The components
    list holds exactly one tag per contributing term, in that order. *)
Theorem confluence_score_is_sum_of_terms (tfs : timeframes) :
  fst (computeConfluence tfs) = sumZ (map weight (terms tfs)) /\
  snd (computeConfluence tfs) = concat (map tags (terms tfs)) /\
  length (snd (computeConfluence tfs)) =
  length (List.filter (fun t : term => match t with Some _ => true | None => false end)
            (terms tfs)).
Proof.
  assert (H : computeConfluence tfs =
              (sumZ (map weight (terms tfs)), concat (map tags (terms tfs)))).
  { unfold computeConfluence, terms, maTerm, macdTerm, rsiTerm, priceZTerm,
      volumeTerm, onTf.
    destruct (tf15m tfs) as [tf15|], (tf5m tfs) as [tf5|], (tf1h tfs) as [tf1|].
    all: repeat match goal with
           | |- context [String.eqb ?a ?b] => destruct (String.eqb a b)
           | |- context [Js.finite_gt ?a ?b] => destruct (Js.finite_gt a b)
           | |- context [Js.finite_lt ?a ?b] => destruct (Js.finite_lt a b)
           end; reflexivity. }
  rewrite H. cbn [fst snd]. split; [reflexivity|]. split; [reflexivity|].
  unfold terms.
  generalize (onTf (tf15m tfs) (maTerm 2 "TrendBull(15m)" "TrendBear(15m)")),
    (onTf (tf15m tfs) macdTerm), (onTf (tf15m tfs) rsiTerm),
    (onTf (tf5m tfs) priceZTerm), (onTf (tf5m tfs) volumeTerm),
    (onTf (tf1h tfs) (maTerm 1 "TrendBull(1h)" "TrendBear(1h)")).
  intros [[? ?]|] [[? ?]|] [[? ?]|] [[? ?]|] [[? ?]|] [[? ?]|]; reflexivity.
Qed.

End Confluence.

(* ---------------------------------------------------------------------- *)
(** ** The decision adapter (LLMDecider.js) *)
(* ---------------------------------------------------------------------- *)

Section Decisions.
Import LLMDecider.

Variable numberToString : Js.num -> string.
Variable stringToNumber : string -> Js.num.



End Decisions.


Example stop_entry_normalised :
  forall (numberToString : Js.num -> string)
         (stringToNumber : string -> Js.num),
  exists d,
    LLMDecider.normaliseDecision numberToString stringToNumber
      LLMDecider.stopEntryDecision "LLM decision" = LLMDecider.Full d /\
    LLMDecider.action d = "OPEN_LONG"%string /\
    LLMDecider.get (LLMDecider.entry d) "type" = LLMDecider.VStr "stop" /\
    LLMDecider.followups d = LLMDecider.VArr [LLMDecider.VNum (Js.Fin 1)].
Proof. intros. eexists. split; [reflexivity|]. repeat split. Qed.

(* ---------------------------------------------------------------------- *)
(** ** The REST client's retry policy (Data.js) *)
(* ---------------------------------------------------------------------- *)

Section Retry.
Import Data.

Variable R : Type.
Variable undefined : R.
Variable net : nat -> outcome R.

(** One call of [makeRequest] performs [k] HTTP requests, 1 <= k <= 3:
    the first [k - 1] are rejected and each is followed by a delay of
    250 ms times its number; the call ends with the outcome of the
    k-th, and an error is surfaced only from the third. *)
Lemma makeRequest_attempts (w : world) :
  exists k : nat,
    (1 <= k <= 3)%nat /\
    sent (snd (makeRequest R undefined net w)) = (sent w + k)%nat /\
    calls (snd (makeRequest R undefined net w)) = S (calls w) /\
    slept (snd (makeRequest R undefined net w)) = (slept w ++ backoffs k)%list /\
    fst (makeRequest R undefined net w) = net (sent w + pred k)%nat /\
    (forall i, (i < pred k)%nat -> exists m, net (sent w + i)%nat = Rejected m) /\
    ((exists m, fst (makeRequest R undefined net w) = Rejected m) -> k = 3%nat).
Proof.
  unfold makeRequest. change (Z.to_nat maxRetries) with 3%nat.
  cbn [requestLoop sent calls slept sleep].
  change (1 <=? maxRetries) with true. change (1 =? maxRetries) with false.
  change (1 + 1 <=? maxRetries) with true. change (1 + 1 =? maxRetries) with false.
  change (1 + 1 + 1 <=? maxRetries) with true.
  change (1 + 1 + 1 =? maxRetries) with true.
  cbv iota.
  destruct (net (sent w)) as [r0|m0] eqn:E0.
  { exists 1%nat. cbn [fst snd sent calls slept pred backoffs].
    rewrite Nat.add_0_r, E0, List.app_nil_r.
    split; [lia|]. do 4 (split; [reflexivity || lia|]).
    split; [intros i Hi; lia | intros [m Hm]; discriminate]. }
  destruct (net (S (sent w))) as [r1|m1] eqn:E1.
  { exists 2%nat. cbn [fst snd sent calls slept pred].
    replace (sent w + 1)%nat with (S (sent w)) by lia. rewrite E1.
    split; [lia|]. do 4 (split; [reflexivity || lia|]).
    split; [|intros [m Hm]; discriminate].
    intros i Hi. assert (i = 0)%nat as -> by lia.
    rewrite Nat.add_0_r. eauto. }
  exists 3%nat. cbn [fst snd sent calls slept pred].
  replace (sent w + 2)%nat with (S (S (sent w))) by lia.
  assert (Hi : forall i, (i < 2)%nat -> exists m, net (sent w + i)%nat = Rejected m).
  { intros i Hi. destruct i as [|[|i]]; [| |lia].
    - rewrite Nat.add_0_r. eauto.
    - replace (sent w + 1)%nat with (S (sent w)) by lia. eauto. }
  destruct (net (S (S (sent w)))) as [r2|m2] eqn:E2;
    cbn [fst snd sent calls slept]; rewrite <- List.app_assoc;
    (split; [lia|]); do 4 (split; [reflexivity || lia|]);
    (split; [exact Hi | intros _; reflexivity]).
Qed.

Lemma openOrdersLoop_run (fuel i : nat) (w : world) :
  (i + fuel = 5)%nat -> (1 <= fuel)%nat ->
  (forall j, (j < i)%nat ->
     exists m, fst (makeRequest R undefined net
                      (worldBeforeCall R undefined net j w)) = Rejected m /\
               retryable m = true) ->
  exists n, (i + 1 <= n <= 5)%nat /\
    openOrdersRun R undefined net w n
      (openOrdersLoop R undefined net fuel (Z.of_nat (S i))
         (worldBeforeCall R undefined net i w)).
Proof.
  revert i. induction fuel as [|fuel IH]; intros i Hsum Hfuel Hprev; [lia|].
  cbn [openOrdersLoop].
  assert (Hle : (Z.of_nat (S i) <=? maxAttempts) = true)
    by (apply Z.leb_le; unfold maxAttempts; lia).
  rewrite Hle.
  destruct (makeRequest R undefined net (worldBeforeCall R undefined net i w))
    as [[r|m] w1] eqn:Hcall.
  - exists (S i). split; [lia|]. unfold openOrdersRun. cbn [pred].
    rewrite Hcall. cbn [fst snd]. auto.
  - fold (retryable m).
    replace (negb (Js.includes "Invalid nonce" m) && negb (Js.includes "timeout" m))%bool
      with (negb (retryable m))
      by (unfold retryable; apply negb_orb).
    destruct ((Z.of_nat (S i) =? maxAttempts) || negb (retryable m))%bool eqn:Hstop.
    + exists (S i). split; [lia|]. unfold openOrdersRun. cbn [pred].
      rewrite Hcall. cbn [fst snd]. split; [exact Hprev|]. split; [reflexivity|].
      split; [reflexivity|].
      apply orb_true_iff in Hstop. destruct Hstop as [H5|Hnr].
      * left. apply Z.eqb_eq in H5. unfold maxAttempts in H5. lia.
      * right. apply negb_true_iff in Hnr. exact Hnr.
    + apply orb_false_iff in Hstop. destruct Hstop as [H5 Hr].
      apply Z.eqb_neq in H5. unfold maxAttempts in H5.
      apply negb_false_iff in Hr.
      replace (Z.of_nat (S i) + 1) with (Z.of_nat (S (S i))) by lia.
      assert (Hw : sleep (baseDelay * Z.of_nat (S i)) w1 =
                   worldBeforeCall R undefined net (S i) w).
      { cbn [worldBeforeCall]. rewrite Hcall. reflexivity. }
      rewrite Hw.
      destruct (IH (S i)) as (n & Hn & Hrun); [lia | lia | |].
      * intros j Hj. destruct (Nat.eq_dec j i) as [->|Hne].
        -- rewrite Hcall. cbn [fst]. eauto.
        -- apply Hprev. lia.
      * exists n. split; [lia|exact Hrun].
Qed.

(** C6.  A call of [makeRequest] makes at most 3 HTTP attempts; a
    rejected attempt other than the third is followed by a delay of
    250 ms times its number, and only the error of the third attempt is
    surfaced.  [getOpenOrders] makes at most 5 such calls: it calls
    again, after 250 ms times the call's number, only when the call
    failed with a message that contains "Invalid nonce" or "timeout";
    a success is returned at once and any other error is surfaced at
    once, wrapped as "Failed to fetch open orders: ...". *)
Theorem rest_retry_policy (w : world) :
  (exists k : nat,
     (1 <= k <= 3)%nat /\
     sent (snd (makeRequest R undefined net w)) = (sent w + k)%nat /\
     calls (snd (makeRequest R undefined net w)) = S (calls w) /\
     slept (snd (makeRequest R undefined net w)) = (slept w ++ backoffs k)%list /\
     fst (makeRequest R undefined net w) = net (sent w + pred k)%nat /\
     (forall i, (i < pred k)%nat ->
        exists m, net (sent w + i)%nat = Rejected m) /\
     ((exists m, fst (makeRequest R undefined net w) = Rejected m) ->
        k = 3%nat)) /\
  (exists n : nat,
     (1 <= n <= 5)%nat /\
     calls (snd (getOpenOrders R undefined net w)) = (calls w + n)%nat /\
     openOrdersRun R undefined net w n (getOpenOrders R undefined net w)).
Proof.
  split; [apply makeRequest_attempts|].
  destruct (openOrdersLoop_run 5 0 w) as (n & Hn & Hrun);
    [lia | lia | intros j Hj; lia |].
  exists n. split; [lia|]. split; [|exact Hrun].
  destruct Hrun as (Hprev & Hsnd & _).
  change (openOrdersLoop R undefined net 5 (Z.of_nat 1)
            (worldBeforeCall R undefined net 0 w))
    with (getOpenOrders R undefined net w) in Hsnd.
  rewrite Hsnd. clear Hsnd.
  assert (Hcalls : forall i,
            calls (snd (makeRequest R undefined net
                          (worldBeforeCall R undefined net i w))) =
            (calls w + S i)%nat).
  { induction i as [|i IHi].
    - destruct (makeRequest_attempts (worldBeforeCall R undefined net 0 w))
        as (k & _ & _ & Hc & _). rewrite Hc. cbn. lia.
    - destruct (makeRequest_attempts (worldBeforeCall R undefined net (S i) w))
        as (k & _ & _ & Hc & _). rewrite Hc.
      cbn [worldBeforeCall sleep calls]. rewrite IHi. lia. }
  rewrite Hcalls. lia.
Qed.

End Retry.

(** Nonce collision: the first call burns its three attempts on
    "Invalid nonce", the second call succeeds on its first attempt. *)
Example nonce_retry_scenario :
  Data.getOpenOrders string EmptyString Data.nonceThenOk Data.startWorld =
  (Data.Resolved "{}",
   {| Data.sent := 4; Data.calls := 2; Data.slept := [250; 500; 250] |}).
Proof. reflexivity. Qed.

(** Any other error: three attempts of one call, then surfaced. *)
Example denied_is_not_retried :
  Data.getOpenOrders string EmptyString Data.alwaysDenied Data.startWorld =
  (Data.Rejected "Failed to fetch open orders: EGeneral:Permission denied",
   {| Data.sent := 3; Data.calls := 1; Data.slept := [250; 500] |}).
Proof. reflexivity. Qed.

(* ---------------------------------------------------------------------- *)
(** ** The local order book (Level2Logger.js) *)
(* ---------------------------------------------------------------------- *)

Section Book.
Import Level2Logger.

Lemma applyLevel_at (m : gmap string level) (p : Q) (q : Js.num) :
  applyLevel m (Some {| rprice := Js.Fin p; rqty := q |}) !! key p =
  levelOutcome p q.
Proof.
  unfold applyLevel, levelOutcome. cbn [rprice rqty].
  destruct q as [q| | |]; try apply lookup_delete_eq.
  destruct (Qle_bool q 0); [apply lookup_delete_eq | apply lookup_insert_eq].
Qed.

Lemma applyLevel_other (m : gmap string level) (l : option rawLevel)
    (k : string) :
  keyOf l <> Some k -> applyLevel m l !! k = m !! k.
Proof.
  intros Hk. unfold applyLevel.
  destruct l as [[pr q]|]; [|reflexivity]. cbn [rprice rqty].
  destruct pr as [p| | |]; try reflexivity.
  assert (Hne : key p <> k) by (intros <-; apply Hk; reflexivity).
  destruct q as [q| | |]; try (apply lookup_delete_ne; exact Hne).
  destruct (Qle_bool q 0);
    [apply lookup_delete_ne | apply lookup_insert_ne]; exact Hne.
Qed.

Lemma applyLevels_untouched (ls : list (option rawLevel))
    (m : gmap string level) (k : string) :
  (forall l, In l ls -> keyOf l <> Some k) ->
  fold_left applyLevel ls m !! k = m !! k.
Proof.
  revert m. induction ls as [|l ls IH]; intros m Hk; cbn; [reflexivity|].
  rewrite IH; [|intros l' Hl'; apply Hk; right; exact Hl'].
  apply applyLevel_other, Hk. left. reflexivity.
Qed.

(** The last level of an array that addresses a key decides it. *)
Lemma applyLevels_last (pre post : list (option rawLevel))
    (m : gmap string level) (p : Q) (q : Js.num) :
  (forall l, In l post -> keyOf l <> Some (key p)) ->
  applyLevels m (Some (pre ++ Some {| rprice := Js.Fin p; rqty := q |} :: post))
    !! key p = levelOutcome p q.
Proof.
  intros Hpost. unfold applyLevels. rewrite fold_left_app. cbn [fold_left].
  rewrite (applyLevels_untouched post _ _ Hpost). apply applyLevel_at.
Qed.

Lemma levelOutcome_positive (p q0 : Q) :
  (0 < q0)%Q -> levelOutcome p (Js.Fin q0) = Some {| price := p; qty := q0 |}.
Proof.
  intros Hq. unfold levelOutcome.
  destruct (Qle_bool q0 0) eqn:Hle; [|reflexivity].
  apply Qle_bool_iff in Hle. exfalso. apply (Qlt_not_le _ _ Hq Hle).
Qed.

Lemma levelOutcome_nonpositive (p q0 : Q) :
  (q0 <= 0)%Q -> levelOutcome p (Js.Fin q0) = None.
Proof.
  intros Hq. unfold levelOutcome. apply Qle_bool_iff in Hq. rewrite Hq.
  reflexivity.
Qed.

Lemma applyLevels_sideAfter (m : gmap string level)
    (levels : option (list (option rawLevel))) :
  sideAfter m (applyLevels m levels) levels.
Proof.
  split.
  - intros pre post p q -> Hpost.
    rewrite (applyLevels_last pre post m p q Hpost).
    split; [|split].
    + intros q0 -> Hq. apply levelOutcome_positive, Hq.
    + intros q0 -> Hq. apply levelOutcome_nonpositive, Hq.
    + destruct q; cbn; intros; congruence.
  - intros k Hk. destruct levels as [ls|]; [|reflexivity]. cbn.
    apply applyLevels_untouched. intros l Hl. apply (Hk ls l eq_refl Hl).
Qed.

Lemma onBookEvents_snoc (symbol : string) (evs : list bookEvent)
    (ev : bookEvent) (books : gmap string bookState) :
  onBookEvents symbol (evs ++ [ev]) books =
  onBookEvent symbol ev (onBookEvents symbol evs books).
Proof. unfold onBookEvents. rewrite fold_left_app. reflexivity. Qed.

(** C3.  Take the book of a symbol after any sequence of events and
    apply one more event.  On each side, a level with quantity 0 (or
    any quantity <= 0) leaves its price key absent and a level with a
    positive quantity leaves the key present with exactly that
    quantity; keys the event does not address are unchanged.  When the
    event is a snapshot, both maps are emptied first, so they then hold
    the event's levels only. *)
Theorem book_levels_and_snapshot
    (symbol : string) (evs : list bookEvent) (ev : bookEvent)
    (books : gmap string bookState) (st : bookState) :
  onBookEvents symbol evs books !! symbol = Some st ->
  exists st',
    onBookEvents symbol (evs ++ [ev]) books !! symbol = Some st' /\
    (etype ev = "snapshot" ->
       bids st' = applyLevels ∅ (ebids ev) /\
       asks st' = applyLevels ∅ (easks ev) /\
       sideAfter ∅ (bids st') (ebids ev) /\
       sideAfter ∅ (asks st') (easks ev)) /\
    (etype ev <> "snapshot" ->
       sideAfter (bids st) (bids st') (ebids ev) /\
       sideAfter (asks st) (asks st') (easks ev)).
Proof.
  intros Hst. exists (applyEvent st ev).
  rewrite onBookEvents_snoc. unfold onBookEvent. rewrite Hst.
  split; [apply lookup_insert_eq|].
  unfold applyEvent.
  destruct (String.eqb (etype ev) "snapshot") eqn:Hty; cbn [bids asks].
  - split; [|intros Hne; apply String.eqb_eq in Hty; contradiction].
    intros _. split; [reflexivity|]. split; [reflexivity|].
    split; apply applyLevels_sideAfter.
  - split; [intros Hs; apply String.eqb_neq in Hty; contradiction|].
    intros _. split; apply applyLevels_sideAfter.
Qed.

Lemma book_levels_and_snapshot_witness :
  exists st',
    onBookEvents "DOGE/USD" ([] ++ [removeBidAddAsk])
      {[ "DOGE/USD" := oneBid ]} !! "DOGE/USD" = Some st' /\
    (etype removeBidAddAsk = "snapshot" ->
       bids st' = applyLevels ∅ (ebids removeBidAddAsk) /\
       asks st' = applyLevels ∅ (easks removeBidAddAsk) /\
       sideAfter ∅ (bids st') (ebids removeBidAddAsk) /\
       sideAfter ∅ (asks st') (easks removeBidAddAsk)) /\
    (etype removeBidAddAsk <> "snapshot" ->
       sideAfter (bids oneBid) (bids st') (ebids removeBidAddAsk) /\
       sideAfter (asks oneBid) (asks st') (easks removeBidAddAsk)).
Proof.
  apply (book_levels_and_snapshot "DOGE/USD" [] removeBidAddAsk
           {[ "DOGE/USD" := oneBid ]} oneBid).
  reflexivity.
Defined.

(** The update above, evaluated: the bid at 0.1 is gone and the ask at
    0.11 rests with quantity 40. *)
Example update_removes_and_adds :
  let st := applyEvent oneBid removeBidAddAsk in
  bids st !! key (1 # 10) = None /\
  asks st !! key (11 # 100) = Some {| price := 11 # 100; qty := 40 |} /\
  key (11 # 100) = "0.110000000000".
Proof. repeat split; vm_compute; reflexivity. Qed.

End Book.

(* ---------------------------------------------------------------------- *)
(** ** The order gateway (Bot.js) *)
(* ---------------------------------------------------------------------- *)

Section Gateway.
Import Bot.

Variable numberText : Q -> string.

Lemma addOrders_called (c : restCall) (w : world) :
  isAddOrder c = false -> addOrders (called c w) = addOrders w.
Proof.
  intros Hc. unfold addOrders, called. cbn [rest].
  rewrite List.filter_app. cbn. rewrite Hc. apply List.app_nil_r.
Qed.

Lemma addOrders_emit (e : orderEvent) (w : world) :
  addOrders (emit e w) = addOrders w.
Proof. reflexivity. Qed.

Lemma ensurePairMetadata_keeps (ex : exchange) (force : bool)
    (b : bot) (w : world) :
  opts (botOf (ensurePairMetadata ex force b w)) = opts b /\
  addOrders (worldOf (ensurePairMetadata ex force b w)) = addOrders w /\
  emitted (worldOf (ensurePairMetadata ex force b w)) = emitted w.
Proof.
  unfold ensurePairMetadata, botOf, worldOf.
  destruct (match pairInfoCache b with
            | Some info => if (negb force && matchesStoredPairInfo b info)%bool
                           then Some info else None
            | None => None
            end) as [info|]; [cbn; auto|].
  destruct (getTradablePairs ex) as [pairs|m]; cbn [fst snd].
  - destruct (List.find _ pairs) as [[k info]|]; cbn [fst snd];
      (split; [reflexivity|]; split; [apply addOrders_called|]); reflexivity.
  - split; [reflexivity|]. split; [apply addOrders_called|]; reflexivity.
Qed.

Lemma submitOrder_dry (ex : exchange) (type ordertype : string)
    (price volume : option Js.num) (params : gmap string field)
    (b : bot) (w : world) :
  dryRun (opts b) = true ->
  let r := submitOrder numberText ex type ordertype price volume params b w in
  addOrders (worldOf r) = addOrders w /\
  (forall x, resultOf r = Ok x ->
     exists payload,
       x = DryRun payload /\
       buildPayload numberText (botOf r) type ordertype price volume params
       = Ok payload /\
       emitted (worldOf r) = (emitted w ++ [SubmittedDry payload])%list) /\
  (forall info payload,
     (String.eqb type EmptyString || String.eqb ordertype EmptyString)%bool = false ->
     resultOf (ensurePairMetadata ex false b w) = Ok info ->
     buildPayload numberText (botOf r) type ordertype price volume params
     = Ok payload ->
     resultOf r = Ok (DryRun payload)).
Proof.
  intros Hdry. cbv zeta. unfold submitOrder.
  destruct (String.eqb type EmptyString || String.eqb ordertype EmptyString)%bool.
  { unfold resultOf, botOf, worldOf. cbn [fst snd].
    split; [reflexivity|]. split; [intros x; discriminate|].
    intros info payload; discriminate. }
  pose proof (ensurePairMetadata_keeps ex false b w) as (Hopts & Hadd & Hem).
  destruct (ensurePairMetadata ex false b w) as [[[info|m] b1] w1].
  - unfold botOf, worldOf, resultOf in Hopts, Hadd, Hem. cbn [fst snd] in *.
    destruct (buildPayload numberText b1 type ordertype price volume params)
      as [payload|m] eqn:Hp.
    + rewrite Hopts, Hdry. unfold resultOf, botOf, worldOf. cbn [fst snd].
      rewrite Hp. split; [exact Hadd|]. split.
      * intros x Hx. injection Hx as <-. exists payload.
        split; [reflexivity|]. split; [reflexivity|].
        cbn. rewrite Hem. reflexivity.
      * intros info' payload' _ _ Hp'. congruence.
    + unfold resultOf, botOf, worldOf. cbn [fst snd]. rewrite Hp.
      split; [exact Hadd|]. split; [intros x; discriminate|].
      intros info' payload' _ _ Hp'. discriminate.
  - unfold botOf, worldOf, resultOf in *. cbn [fst snd] in *.
    split; [exact Hadd|]. split; [intros x; discriminate|].
    intros info payload _ Hm. discriminate.
Qed.

(** C1.  Place an order through [marketBuy], [marketSell], [limitBuy]
    or [limitSell] on a bot whose [dryRun] option is set.  No AddOrder
    call is made, whatever the outcome.  Every value the call returns is
    the object [{dryRun: true, payload}] with the payload constructed
    for the order, and that payload is the one announced in the
    ['order:submitted'] event.  The call does return it whenever the
    pair metadata resolves and the payload passes the checks on volume
    and price; otherwise it throws before any submission. *)
Theorem dry_run_never_calls_add_order
    (ex : exchange) (o : order) (b : bot) (w : world) :
  dryRun (opts b) = true ->
  let r := place numberText ex o b w in
  let constructed :=
    buildPayload numberText (botOf r) (orderType o) (orderKind o)
      (orderPrice o) (orderVolume o) (orderParams o) in
  addOrders (worldOf r) = addOrders w /\
  (forall x, resultOf r = Ok x ->
     exists payload,
       x = DryRun payload /\ constructed = Ok payload /\
       emitted (worldOf r) = (emitted w ++ [SubmittedDry payload])%list) /\
  (forall info payload,
     resultOf (ensurePairMetadata ex false b w) = Ok info ->
     constructed = Ok payload ->
     resultOf r = Ok (DryRun payload)).
Proof.
  intros Hdry. cbv zeta.
  destruct o as [v ps | v ps | p v ps | p v ps];
    cbn [place orderType orderKind orderPrice orderVolume orderParams];
    unfold marketBuy, marketSell, limitBuy, limitSell;
    match goal with
    | |- context [submitOrder numberText ex ?t ?k ?pr ?vo ?pa b w] =>
        destruct (submitOrder_dry ex t k pr vo pa b w Hdry) as (H1 & H2 & H3)
    end;
    (split; [exact H1|]; split; [exact H2|]);
    intros info payload Hmeta Hc; apply (H3 info payload eq_refl Hmeta Hc).
Qed.

End Gateway.

Lemma dry_run_never_calls_add_order_witness :
  let o := Bot.MarketBuy (Some (Js.Fin 1000)) ∅ in
  let b := Bot.dogeBot Bot.dryOptions in
  let r := Bot.place Bot.wholeText Bot.acceptingExchange o b Bot.emptyWorld in
  let constructed :=
    Bot.buildPayload Bot.wholeText (Bot.botOf r) (Bot.orderType o)
      (Bot.orderKind o) (Bot.orderPrice o) (Bot.orderVolume o)
      (Bot.orderParams o) in
  Bot.addOrders (Bot.worldOf r) = Bot.addOrders Bot.emptyWorld /\
  (forall x, Bot.resultOf r = Bot.Ok x ->
     exists payload,
       x = Bot.DryRun payload /\ constructed = Bot.Ok payload /\
       Bot.emitted (Bot.worldOf r) =
       (Bot.emitted Bot.emptyWorld ++ [Bot.SubmittedDry payload])%list) /\
  (forall info payload,
     Bot.resultOf (Bot.ensurePairMetadata Bot.acceptingExchange false b
                     Bot.emptyWorld) = Bot.Ok info ->
     constructed = Bot.Ok payload ->
     Bot.resultOf r = Bot.Ok (Bot.DryRun payload)).
Proof.
  apply (dry_run_never_calls_add_order Bot.wholeText Bot.acceptingExchange
           (Bot.MarketBuy (Some (Js.Fin 1000)) ∅)
           (Bot.dogeBot Bot.dryOptions) Bot.emptyWorld).
  reflexivity.
Defined.

(** The dry-run market buy above returns the payload and calls nothing;
    the same order on a live bot makes one AddOrder call. *)
Example dry_run_market_buy :
  let r := Bot.place Bot.wholeText Bot.acceptingExchange
             (Bot.MarketBuy (Some (Js.Fin 1000)) ∅)
             (Bot.dogeBot Bot.dryOptions) Bot.emptyWorld in
  Bot.rest (Bot.worldOf r) = [] /\
  exists payload,
    Bot.resultOf r = Bot.Ok (Bot.DryRun payload) /\
    payload !! "volume" = Some (Bot.FText "1000") /\
    payload !! "pair" = Some (Bot.FText "XDGUSD") /\
    payload !! "type" = Some (Bot.FText "buy") /\
    payload !! "ordertype" = Some (Bot.FText "market").
Proof.
  split; [reflexivity|]. eexists. split; [reflexivity|].
  repeat split; vm_compute; reflexivity.
Qed.

Example live_market_buy :
  let r := Bot.place Bot.wholeText Bot.acceptingExchange
             (Bot.MarketBuy (Some (Js.Fin 1000)) ∅)
             (Bot.dogeBot {| Bot.enforcePrecision := true;
                             Bot.dryRun := false |}) Bot.emptyWorld in
  length (Bot.addOrders (Bot.worldOf r)) = 1%nat /\
  Bot.resultOf r = Bot.Ok (Bot.Live "{}").
Proof. split; vm_compute; reflexivity. Qed.

(* ---------------------------------------------------------------------- *)
(** ** The text of a rounded volume (Bot.js, formatWithPrecision) *)
(* ---------------------------------------------------------------------- *)

Section OrderText.
Import Bot.

Example format_examples :
  formatWithPrecision wholeText (7500 # 7) 8 = "1071.42857143" /\
  formatWithPrecision wholeText (1005 # 10) 2 = "100.5" /\
  formatWithPrecision wholeText 100 8 = "100" /\
  formatWithPrecision wholeText (1 # 1000) 2 = "0".
Proof. repeat split; vm_compute; reflexivity. Qed.

(** With zero decimals the pattern [\.?0+$] eats the zeros of the
    integer itself: 100 is sent as "1". *)
Example format_zero_decimals :
  formatWithPrecision wholeText 100 0 = "1" /\
  textValue (formatWithPrecision wholeText 100 0) = Some 1%Q.
Proof. split; vm_compute; reflexivity. Qed.

Variable numberText : Q -> string.

Lemma append_cons (c : ascii) (a b : string) :
  String c a +:+ b = String c (a +:+ b).
Proof. reflexivity. Qed.

Lemma append_nil_l (b : string) : EmptyString +:+ b = b.
Proof. reflexivity. Qed.





























End OrderText.

(* ---------------------------------------------------------------------- *)
(** ** Sizing an entry (ExecutionEngine.js, #openLong) *)
(* ---------------------------------------------------------------------- *)

Section Sizing.
Import ExecutionEngine.

Variable numberText : Q -> string.
Variable ex : Bot.exchange.

Lemma ensurePairMetadata_cached (b : Bot.bot) (w : Bot.world) :
  Bot.metadataLoaded b ->
  exists info, Bot.ensurePairMetadata ex false b w = (Bot.Ok info, b, w).
Proof.
  intros (info & Hc & Hm). exists info.
  unfold Bot.ensurePairMetadata. rewrite Hc. cbn [negb andb]. rewrite Hm.
  reflexivity.
Qed.


Lemma submitOrder_cached (type kind : string) (price volume : option Js.num)
    (params : gmap string Bot.field) (b : Bot.bot) (w : Bot.world) :
  Bot.metadataLoaded b ->
  (String.eqb type EmptyString || String.eqb kind EmptyString)%bool = false ->
  Bot.submitOrder numberText ex type kind price volume params b w =
  match Bot.buildPayload numberText b type kind price volume params with
  | Bot.Throw m => (Bot.Throw m, b, w)
  | Bot.Ok payload =>
      if Bot.dryRun (Bot.opts b)
      then (Bot.Ok (Bot.DryRun payload), b, Bot.emit (Bot.SubmittedDry payload) w)
      else
        match Bot.addOrder ex payload with
        | Data.Rejected m =>
            (Bot.Throw m, b, Bot.called (Bot.AddOrder payload) w)
        | Data.Resolved raw =>
            (Bot.Ok (Bot.Live raw), b,
             Bot.emit (Bot.SubmittedLive payload raw)
               (Bot.called (Bot.AddOrder payload) w))
        end
  end.
Proof.
  intros Hm Hne. unfold Bot.submitOrder. rewrite Hne.
  destruct (ensurePairMetadata_cached b w Hm) as (info & ->). reflexivity.
Qed.

(** The volume check of the gateway with precision enforced. *)
Lemma normaliseVolume_enforced (b : Bot.bot) (q : Q) :
  Bot.enforcePrecision (Bot.opts b) = true -> (0 < q)%Q ->
  ((0 < Bot.minimumVolume b)%Q -> (q < Bot.minimumVolume b)%Q ->
   exists m, Bot.normaliseVolume numberText b (Js.Fin q) = Bot.Throw m) /\
  (((0 < Bot.minimumVolume b)%Q -> (Bot.minimumVolume b <= q)%Q) ->
   Bot.normaliseVolume numberText b (Js.Fin q) =
   Bot.Ok (Bot.FText (Bot.formatWithPrecision numberText q
                        (Bot.volumePrecision b)))).
Proof.
  intros Henf Hq. unfold Bot.normaliseVolume, Bot.applyVolumePrecision.
  assert (Hq0 : Qle_bool q 0 = false).
  { apply not_true_is_false. intros H. apply Qle_bool_iff in H. lra. }
  rewrite Hq0, Henf. cbn [negb].
  split.
  - intros Hmin Hlt.
    assert (H1 : Qle_bool (Bot.minimumVolume b) 0 = false).
    { apply not_true_is_false. intros H. apply Qle_bool_iff in H. lra. }
    assert (H2 : Qle_bool (Bot.minimumVolume b) q = false).
    { apply not_true_is_false. intros H. apply Qle_bool_iff in H. lra. }
    rewrite H1, H2. cbn. eauto.
  - intros Hok.
    destruct (Qle_bool (Bot.minimumVolume b) 0) eqn:H1; [reflexivity|].
    assert (Hpos : (0 < Bot.minimumVolume b)%Q).
    { apply Qnot_le_lt. intros H. apply Qle_bool_iff in H. congruence. }
    apply Hok in Hpos. apply Qle_bool_iff in Hpos. rewrite Hpos. reflexivity.
Qed.


Lemma addOrders_called_order (p : gmap string Bot.field) (w : Bot.world) :
  Bot.addOrders (Bot.called (Bot.AddOrder p) w) =
  (Bot.addOrders w ++ [Bot.AddOrder p])%list.
Proof.
  unfold Bot.addOrders, Bot.called. cbn [Bot.rest].
  rewrite List.filter_app. reflexivity.
Qed.


Lemma Qle_bool_false (x y : Q) : Qle_bool x y = false -> (y < x)%Q.
Proof.
  intros H. apply Qnot_le_lt. intros Hle. apply Qle_bool_iff in Hle. congruence.
Qed.











(** A bot whose pair metadata is loaded is the bot the gateway
    validates against. *)
Lemma resolvedBot_loaded (b : Bot.bot) :
  Bot.metadataLoaded b -> resolvedBot ex b = Some b.
Proof.
  intros Hm. unfold resolvedBot.
  destruct (ensurePairMetadata_cached b Bot.emptyWorld Hm) as (info & ->).
  reflexivity.
Qed.


End Sizing.


(** The same decision with enforcement on is rejected by the gateway,
    and at a price of 0.1 it goes out with the volume "750". *)
Example enforced_volume_examples :
  let run b close :=
    ExecutionEngine.execute Bot.wholeText ExecutionEngine.richExchange
      5000 (Some ExecutionEngine.openLong25) close
      (ExecutionEngine.construct ExecutionEngine.defaultRisk)
      b Bot.emptyWorld in
  ExecutionEngine.executionOf (run (Bot.dogeBot Bot.dryOptions) (Js.Fin 7)) =
    ExecutionEngine.Thrown "Volume 10 is below minimum order size 50" /\
  exists payload,
    ExecutionEngine.executionOf
      (run (Bot.dogeBot Bot.dryOptions) (Js.Fin (1 # 10))) =
      ExecutionEngine.DryRunDone "OPEN_LONG" payload /\
    payload !! "volume" = Some (Bot.FText "750").
Proof.
  cbv zeta. split; [vm_compute; reflexivity|].
  eexists. split; vm_compute; reflexivity.
Qed.

(** Before the pair metadata is loaded the bot knows no minimum, but
    the gateway loads the metadata for the order and checks the volume
    against the minimum of 50 it finds there. *)
Example unloaded_metadata_examples :
  let b := ExecutionEngine.unloadedBot Bot.dryOptions in
  let run close :=
    ExecutionEngine.execute Bot.wholeText ExecutionEngine.richExchange
      5000 (Some ExecutionEngine.openLong25) close
      (ExecutionEngine.construct ExecutionEngine.defaultRisk)
      b Bot.emptyWorld in
  (Bot.minimumVolume b == 0)%Q /\
  ExecutionEngine.resolvedBot ExecutionEngine.richExchange b =
    Some (Bot.dogeBot Bot.dryOptions) /\
  ExecutionEngine.executionOf (run (Js.Fin 7)) =
    ExecutionEngine.Thrown "Volume 10 is below minimum order size 50" /\
  exists payload,
    ExecutionEngine.executionOf (run (Js.Fin (1 # 10))) =
      ExecutionEngine.DryRunDone "OPEN_LONG" payload /\
    payload !! "volume" = Some (Bot.FText "750").
Proof.
  cbv zeta. split; [vm_compute; reflexivity|].
  split; [vm_compute; reflexivity|].
  split; [vm_compute; reflexivity|].
  eexists. split; vm_compute; reflexivity.
Qed.

(** The limit entry 5 basis points under a last price of 0.1: with
    precision enforcement on it is rejected, although the volume would
    be above the minimum; with enforcement off it goes out at the
    shifted price. *)
Example limit_entry_examples :
  let run o :=
    ExecutionEngine.execute Bot.wholeText ExecutionEngine.richExchange
      5000 (Some ExecutionEngine.limitLong25) (Js.Fin (1 # 10))
      (ExecutionEngine.construct ExecutionEngine.defaultRisk)
      (Bot.dogeBot o) Bot.emptyWorld in
  ExecutionEngine.shiftedPrice (Js.Fin (1 # 10))
    (ExecutionEngine.entry ExecutionEngine.limitLong25) =
    Some ((1 # 10) * (1 + -5 / 10000))%Q /\
  ExecutionEngine.executionOf (run Bot.dryOptions) =
    ExecutionEngine.Failed "Invalid entry price" /\
  exists payload v,
    ExecutionEngine.executionOf (run ExecutionEngine.looseOptions) =
      ExecutionEngine.DryRunDone "OPEN_LONG" payload /\
    payload !! "volume" = Some (Bot.FNum v) /\
    (v == 75 / ((1 # 10) * (1 + -5 / 10000)))%Q.
Proof.
  cbv zeta. split; [vm_compute; reflexivity|].
  split; [vm_compute; reflexivity|].
  eexists. eexists. split; [vm_compute; reflexivity|].
  split; [vm_compute; reflexivity|]. vm_compute. reflexivity.
Qed.


(* ---------------------------------------------------------------------- *)
(** ** Runs of the engine's public methods (ExecutionEngine.js) *)
(* ---------------------------------------------------------------------- *)

Section Session.
Import ExecutionEngine.
Variable numberText : Q -> string.

(** An invariant of the engine that balance loads, fills and the pause
    keep is kept by [execute]. *)
Lemma execute_preserves (P : engine -> Prop) (ex : Bot.exchange) :
  (forall force now e w, P e -> P (snd (fst (loadBalances ex force now e w)))) ->
  (forall now sd q p a e, P e -> P (applyFill now sd q p a e)) ->
  (forall now d e, P e -> P (snd (pause now d e))) ->
  forall now d close e b w,
    P e -> P (engineOf (execute numberText ex now d close e b w)).
Proof.
  intros Hload Hfill Hpause now d close e b w He.
  assert (Hopen : forall additive dd,
            P (engineOf (openLong numberText ex now dd close additive e b w))).
  { intros additive dd. unfold openLong.
    destruct (ensureTicker ex close b w) as [[[lt|] b1] w1]; [|exact He].
    destruct (Qle_bool (sizePctOf e dd) 0); [exact He|].
    destruct (deriveEntryPrice numberText b1 lt (entry dd)) as [[price|t]|];
      try exact He.
    destruct (Qle_bool price 0); [exact He|].
    unfold computeNotional.
    pose proof (Hload false now e w1 He) as Hl.
    destruct (loadBalances ex false now e w1) as [[bal e1] w2].
    cbn [fst snd] in Hl.
    destruct (Qle_bool (bquote bal) 0); [exact Hl|].
    destruct (negb (Qle_bool (minNotional (cfg e1)) _)); [exact Hl|].
    destruct (Qle_bool _ 0); [exact Hl|].
    match goal with
    | |- context [match ?s with _ => _ end] =>
        destruct s as [[[[pl|raw]|m] b2] w3]
    end; unfold engineOf; cbn [fst snd]; try exact Hl.
    - apply Hfill, Hl.
    - destruct (negb additive); [apply Hfill, Hl | exact Hl]. }
  assert (Hsell : forall act q lt b1 w1,
            P (engineOf (sellAtMarket numberText ex now act q lt e b1 w1))).
  { intros act q lt b1 w1. unfold sellAtMarket.
    destruct (Bot.marketSell numberText ex (Some (Js.Fin q)) ∅ b1 w1)
      as [[[[pl|raw]|m] b2] w2]; unfold engineOf; cbn [fst snd];
      try exact He; apply Hfill, He. }
  unfold execute. destruct d as [d|]; [|exact He].
  destruct (String.eqb (action d) "HOLD" || String.eqb (action d) EmptyString)%bool;
    [exact He|].
  destruct (isPaused now e && negb (String.eqb (action d) "PAUSE"))%bool;
    [exact He|].
  destruct (String.eqb (action d) "OPEN_LONG"); [apply Hopen|].
  destruct (String.eqb (action d) "ADD"); [apply Hopen|].
  destruct (String.eqb (action d) "TRIM" || String.eqb (action d) "CLOSE_PARTIAL")%bool.
  { unfold trimPosition. destruct (negb (hasLong e)); [exact He|].
    destruct (Qle_bool _ 0); [exact He|].
    destruct (Qle_bool _ 0); [exact He|].
    destruct (ensureTicker ex close b w) as [[[lt|] b1] w1]; [apply Hsell|exact He]. }
  destruct (String.eqb (action d) "CLOSE_ALL").
  { unfold closeAll. destruct (negb (hasLong e)); [exact He|].
    destruct (ensureTicker ex close b w) as [[[lt|] b1] w1]; [apply Hsell|exact He]. }
  destruct (String.eqb (action d) "MOVE_STOP"); [exact He|].
  destruct (String.eqb (action d) "SET_TP"); [exact He|].
  destruct (String.eqb (action d) "PAUSE"); [|exact He].
  pose proof (Hpause now d e He) as Hp.
  destruct (pause now d e) as [r e1]. exact Hp.
Qed.

(** An invariant of the bot and the recorded effects that the three
    gateway operations keep is kept by [execute]. *)
Lemma execute_preserves_gateway (G : Bot.bot -> Bot.world -> Prop)
    (ex : Bot.exchange) :
  (forall b w, G b w ->
     G (Bot.botOf (Bot.fetchTicker ex b w)) (Bot.worldOf (Bot.fetchTicker ex b w))) ->
  (forall b w, G b w -> G b (snd (Bot.fetchBalances ex w))) ->
  (forall type kind price volume params b w, G b w ->
     let r := Bot.submitOrder numberText ex type kind price volume params b w in
     G (Bot.botOf r) (Bot.worldOf r)) ->
  forall now d close e b w,
    G b w ->
    G (botOf (execute numberText ex now d close e b w))
      (worldOf (execute numberText ex now d close e b w)).
Proof.
  intros Htick Hbal Hsub now d close e b w Hg.
  assert (Het : forall b0 w0, G b0 w0 ->
            G (snd (fst (ensureTicker ex close b0 w0)))
              (snd (ensureTicker ex close b0 w0))).
  { intros b0 w0 H0. unfold ensureTicker.
    destruct (Js.truthy close); [exact H0|].
    pose proof (Htick b0 w0 H0) as H1.
    destruct (Bot.fetchTicker ex b0 w0) as [[[lt|m] b1] w1]; exact H1. }
  assert (Hlb : forall force e0 b0 w0, G b0 w0 ->
            G b0 (snd (loadBalances ex force now e0 w0))).
  { intros force e0 b0 w0 H0. unfold loadBalances.
    destruct (match lastBalances e0 with
              | Some bal => if (negb force && (now - lastBalanceTs e0 <? 30000))%bool
                            then Some bal else None
              | None => None
              end); [exact H0|].
    pose proof (Hbal b0 w0 H0) as H1.
    destruct (Bot.fetchBalances ex w0) as [[[qb bb]|m] w1]; exact H1. }
  assert (Hopen : forall additive dd,
            G (botOf (openLong numberText ex now dd close additive e b w))
              (worldOf (openLong numberText ex now dd close additive e b w))).
  { intros additive dd. unfold openLong.
    pose proof (Het b w Hg) as H1.
    destruct (ensureTicker ex close b w) as [[[lt|] b1] w1];
      cbn [fst snd] in H1; [|exact H1].
    destruct (Qle_bool (sizePctOf e dd) 0); [exact H1|].
    destruct (deriveEntryPrice numberText b1 lt (entry dd)) as [[price|t]|];
      try exact H1.
    destruct (Qle_bool price 0); [exact H1|].
    unfold computeNotional.
    pose proof (Hlb false e b1 w1 H1) as H2.
    destruct (loadBalances ex false now e w1) as [[bal e1] w2].
    cbn [fst snd] in H2.
    destruct (Qle_bool (bquote bal) 0); [exact H2|].
    destruct (negb (Qle_bool (minNotional (cfg e1)) _)); [exact H2|].
    destruct (Qle_bool _ 0); [exact H2|].
    destruct (isLimit (entry dd)); unfold Bot.limitBuy, Bot.marketBuy;
      match goal with
      | |- context [Bot.submitOrder numberText ex ?t ?k ?p ?v ?ps b1 w2] =>
          pose proof (Hsub t k p v ps b1 w2 H2) as H3; cbv zeta in H3;
          destruct (Bot.submitOrder numberText ex t k p v ps b1 w2)
            as [[[[pl|raw]|m] b2] w3]
      end; exact H3. }
  assert (Hsell : forall act q lt b1 w1, G b1 w1 ->
            G (botOf (sellAtMarket numberText ex now act q lt e b1 w1))
              (worldOf (sellAtMarket numberText ex now act q lt e b1 w1))).
  { intros act q lt b1 w1 H1. unfold sellAtMarket, Bot.marketSell.
    pose proof (Hsub "sell"%string "market"%string None (Some (Js.Fin q)) ∅
                  b1 w1 H1) as H3.
    cbv zeta in H3.
    destruct (Bot.submitOrder numberText ex "sell" "market" None
                (Some (Js.Fin q)) ∅ b1 w1)
      as [[[[pl|raw]|m] b2] w2]; exact H3. }
  unfold execute. destruct d as [d|]; [|exact Hg].
  destruct (String.eqb (action d) "HOLD" || String.eqb (action d) EmptyString)%bool;
    [exact Hg|].
  destruct (isPaused now e && negb (String.eqb (action d) "PAUSE"))%bool;
    [exact Hg|].
  destruct (String.eqb (action d) "OPEN_LONG"); [apply Hopen|].
  destruct (String.eqb (action d) "ADD"); [apply Hopen|].
  destruct (String.eqb (action d) "TRIM" || String.eqb (action d) "CLOSE_PARTIAL")%bool.
  { unfold trimPosition. destruct (negb (hasLong e)); [exact Hg|].
    destruct (Qle_bool _ 0); [exact Hg|].
    destruct (Qle_bool _ 0); [exact Hg|].
    pose proof (Het b w Hg) as H1.
    destruct (ensureTicker ex close b w) as [[[lt|] b1] w1];
      cbn [fst snd] in H1; [apply Hsell, H1|exact H1]. }
  destruct (String.eqb (action d) "CLOSE_ALL").
  { unfold closeAll. destruct (negb (hasLong e)); [exact Hg|].
    pose proof (Het b w Hg) as H1.
    destruct (ensureTicker ex close b w) as [[[lt|] b1] w1];
      cbn [fst snd] in H1; [apply Hsell, H1|exact H1]. }
  destruct (String.eqb (action d) "MOVE_STOP"); [exact Hg|].
  destruct (String.eqb (action d) "SET_TP"); [exact Hg|].
  destruct (String.eqb (action d) "PAUSE"); [|exact Hg].
  destruct (pause now d e) as [r e1]. exact Hg.
Qed.

Lemma handleFill_cases (now : Z) (f : option fill) (e : engine) :
  handleFill now f e = e \/
  exists sd q p, handleFill now f e = applyFill now sd q p false e.
Proof.
  unfold handleFill. destruct f as [f|]; [|auto].
  destruct (fquantity f) as [q| | |]; auto.
  destruct (fprice f) as [p| | |]; auto.
  destruct (Qle_bool q 0 || Qle_bool p 0)%bool; [auto|].
  destruct (Js.toLowerCase <$> fside f) as [s|]; [|auto].
  destruct (String.eqb s "buy"); [right; eauto|].
  destruct (String.eqb s "sell"); [right; eauto|auto].
Qed.

(** An invariant that balance loads, fills, the pause and the market
    context keep holds along every run of the public methods. *)
Lemma apiRun_preserves (P : engine -> Prop) (G : Bot.bot -> Bot.world -> Prop) :
  (forall ex force now e w, P e -> P (snd (fst (loadBalances ex force now e w)))) ->
  (forall now sd q p a e, P e -> P (applyFill now sd q p a e)) ->
  (forall now d e, P e -> P (snd (pause now d e))) ->
  (forall now f e, P e -> P (updateMarketContext now f e)) ->
  (forall e, P e ->
     P {| cfg := cfg e; pos := pos e;
          realizedPnlQuote := realizedPnlQuote e;
          dailyStartingBalance := dailyStartingBalance e;
          dailyPnlPct := dailyPnlPct e;
          lossCountWindow := lossCountWindow e;
          pauseUntil := pauseUntil e;
          lastBalanceTs := 0;
          lastBalances := lastBalances e |}) ->
  (forall ex b w, G b w ->
     G (Bot.botOf (Bot.fetchTicker ex b w)) (Bot.worldOf (Bot.fetchTicker ex b w))) ->
  (forall ex b w, G b w -> G b (snd (Bot.fetchBalances ex w))) ->
  (forall ex type kind price volume params b w, G b w ->
     let r := Bot.submitOrder numberText ex type kind price volume params b w in
     G (Bot.botOf r) (Bot.worldOf r)) ->
  forall calls e b w,
    P e -> G b w ->
    P (fst (fst (apiRun numberText calls (e, b, w)))) /\
    G (snd (fst (apiRun numberText calls (e, b, w))))
      (snd (apiRun numberText calls (e, b, w))).
Proof.
  intros Hload Hfill Hpause Hctx Hts Htick Hbal Hsub calls.
  induction calls as [|c calls IH]; intros e b w He Hg; [split; assumption|].
  unfold apiRun. cbn [fold_left]. fold (apiRun numberText calls).
  destruct c as [ex now d close | now f | ex force now | now f];
    cbn [apiStep].
  - apply IH.
    + apply execute_preserves;
        [apply Hload | apply Hfill | apply Hpause | exact He].
    + apply execute_preserves_gateway;
        [apply Htick | apply Hbal | apply Hsub | exact Hg].
  - apply IH; [|exact Hg].
    destruct (handleFill_cases now f e) as [-> | (sd & q & p & ->)];
      [exact He | apply Hfill, He].
  - unfold ensureBalanceSnapshot.
    match goal with
    | |- context [loadBalances ex force now ?e0 w] =>
        assert (He0 : P e0) by (destruct force; [apply Hts, He | exact He]);
        pose proof (Hload ex force now e0 w He0) as H1;
        assert (H2 : G b (snd (loadBalances ex force now e0 w)));
        [|destruct (loadBalances ex force now e0 w) as [[bal e1] w1]]
    end.
    { unfold loadBalances.
      match goal with
      | |- context [match ?c with Some _ => _ | None => _ end] =>
          destruct c; [exact Hg|]
      end.
      pose proof (Hbal ex b w Hg) as H3.
      destruct (Bot.fetchBalances ex w) as [[[qb bb]|m] w1]; exact H3. }
    apply IH; assumption.
  - apply IH; [apply Hctx, He | exact Hg].
Qed.

(** *** The ledger along runs of the public methods *)

Lemma pos_loadBalances (ex : Bot.exchange) (force : bool) (now : Z)
    (e : engine) (w : Bot.world) :
  pos (snd (fst (loadBalances ex force now e w))) = pos e.
Proof.
  unfold loadBalances.
  match goal with
  | |- context [match ?c with Some _ => _ | None => _ end] =>
      destruct c; [reflexivity|]
  end.
  destruct (Bot.fetchBalances ex w) as [[[qb bb]|m] w1]; reflexivity.
Qed.

Lemma applyFill_restingFields (now : Z) (sd : fillSide) (q p : Js.num)
    (a : bool) (e : engine) :
  restingFields (pos e) -> restingFields (pos (applyFill now sd q p a e)).
Proof.
  intros Hr. unfold applyFill.
  destruct q as [q| | |]; try exact Hr.
  destruct p as [p| | |]; try exact Hr.
  destruct (Qle_bool q 0 || Qle_bool p 0)%bool; [exact Hr|].
  rewrite pos_recalculateDailyPnL. destruct sd.
  - destruct Hr as [_ Hb]. split; [cbn; discriminate | exact Hb].
  - unfold applySell. rewrite pos_maybeApplyPause.
    unfold recordSell. cbn [pos].
    destruct (Qeq_bool _ 0).
    + split; [cbn; intros _; repeat split; reflexivity | cbn; lia].
    + exact Hr.
Qed.

Lemma updateMarketContext_ok (now : Z) (f : option features) (e : engine) :
  position_ok (pos e) /\ restingFields (pos e) ->
  position_ok (pos (updateMarketContext now f e)) /\
  restingFields (pos (updateMarketContext now f e)).
Proof.
  intros [Hok Hr]. unfold updateMarketContext.
  destruct f as [f|]; [|split; assumption].
  destruct (match pside (pos e) with FLAT => true | LONG => false end
            || openedAt_unset (openedAt (pos e)))%bool eqn:Hflat; cbn [pos].
  - split; [exact Hok|]. split; cbn; [|lia].
    intros Hs. destruct Hr as [Hr _]. destruct (Hr Hs) as (Ho & _ & _).
    split; [exact Ho | split; reflexivity].
  - split; [exact Hok|]. split; cbn.
    + intros Hs. rewrite Hs in Hflat. discriminate.
    + destruct Hr as [_ Hb].
      destruct (openedAt (pos e)) as [o|]; [|exact Hb].
      destruct (o =? 0); [exact Hb|].
      apply Z.div_pos; lia.
Qed.

(** X1. Along every run of the engine's public methods (execute,
    handleFill, ensureBalanceSnapshot, updateMarketContext) from a
    freshly constructed engine, whatever the exchange answers: the
    position is either flat with size 0 and average price 0, or long
    with a positive size and a positive average price; a flat position
    has no entry time, an unrealised R of 0 and an age of 0 bars; and
    the age in bars is never negative. *)
Theorem engine_methods_keep_ledger_invariant
    (risk : riskConfig) (calls : list apiCall) (b : Bot.bot) (w : Bot.world) :
  let e := fst (fst (apiRun numberText calls (construct risk, b, w))) in
  position_ok (pos e) /\
  (pside (pos e) = FLAT ->
   openedAt (pos e) = None /\ (unrealizedR (pos e) == 0)%Q /\
   barsOpen5m (pos e) = 0) /\
  0 <= barsOpen5m (pos e).
Proof.
  cbv zeta.
  destruct (apiRun_preserves
              (fun e => position_ok (pos e) /\ restingFields (pos e))
              (fun _ _ => True)) with (calls := calls)
      (e := construct risk) (b := b) (w := w) as [[Hok [Hflat Hbars]] _];
    try (intros; exact I).
  - intros ex force now e w0 H. rewrite pos_loadBalances. exact H.
  - intros now sd q p a e [Hok Hr].
    split; [apply applyFill_ok, Hok | apply applyFill_restingFields, Hr].
  - intros now d e H. exact H.
  - intros now f e H. apply updateMarketContext_ok, H.
  - intros e H. exact H.
  - split; [apply position_ok_flat|].
    split; [intros _; repeat split; reflexivity | cbn; lia].
  - auto.
Qed.

(** *** A dry-run bot along runs of the public methods *)

Lemma dryRunSince_refl (b : Bot.bot) (w : Bot.world) : dryRunSince b w b w.
Proof.
  split; [reflexivity|]. split; [reflexivity|].
  exists []. split; [symmetry; apply List.app_nil_r | reflexivity].
Qed.

Lemma dryRunSince_fetchTicker (ex : Bot.exchange) (b0 : Bot.bot)
    (w0 : Bot.world) (b : Bot.bot) (w : Bot.world) :
  dryRunSince b0 w0 b w ->
  dryRunSince b0 w0 (Bot.botOf (Bot.fetchTicker ex b w))
    (Bot.worldOf (Bot.fetchTicker ex b w)).
Proof.
  intros (Ho & Ha & evs & He & Hd). unfold Bot.fetchTicker.
  pose proof (ensurePairMetadata_keeps ex false b w) as (Ho1 & Ha1 & He1).
  destruct (Bot.ensurePairMetadata ex false b w) as [[[info|m] b1] w1];
    unfold Bot.botOf, Bot.worldOf in *; cbn [fst snd] in *.
  - assert (H : dryRunSince b0 w0 b1 (Bot.called Bot.Ticker w1)).
    { split; [congruence|]. split.
      - rewrite addOrders_called by reflexivity. congruence.
      - exists evs. split; [cbn; congruence | exact Hd]. }
    destruct (Bot.getTicker ex) as [[lt|]|m]; exact H.
  - split; [congruence|]. split; [congruence|].
    exists evs. split; [congruence | exact Hd].
Qed.

Lemma dryRunSince_submitOrder (ex : Bot.exchange) (type kind : string)
    (price volume : option Js.num) (params : gmap string Bot.field)
    (b0 : Bot.bot) (w0 : Bot.world) (b : Bot.bot) (w : Bot.world) :
  Bot.dryRun (Bot.opts b0) = true ->
  dryRunSince b0 w0 b w ->
  let r := Bot.submitOrder numberText ex type kind price volume params b w in
  dryRunSince b0 w0 (Bot.botOf r) (Bot.worldOf r).
Proof.
  intros Hdry (Ho & Ha & evs & He & Hd). cbv zeta. unfold Bot.submitOrder.
  destruct (String.eqb type EmptyString || String.eqb kind EmptyString)%bool.
  { split; [exact Ho|]. split; [exact Ha|]. exists evs. auto. }
  pose proof (ensurePairMetadata_keeps ex false b w) as (Ho1 & Ha1 & He1).
  destruct (Bot.ensurePairMetadata ex false b w) as [[[info|m] b1] w1];
    unfold Bot.botOf, Bot.worldOf in *; cbn [fst snd] in *.
  - destruct (Bot.buildPayload numberText b1 type kind price volume params)
      as [payload|m]; cbn [fst snd].
    + assert (Hd1 : Bot.dryRun (Bot.opts b1) = true) by congruence.
      rewrite Hd1. cbn [fst snd].
      split; [congruence|]. split; [rewrite addOrders_emit; congruence|].
      exists (evs ++ [Bot.SubmittedDry payload])%list. split.
      * cbn. rewrite He1, He. symmetry. apply List.app_assoc.
      * rewrite forallb_app, Hd. reflexivity.
    + split; [congruence|]. split; [congruence|].
      exists evs. split; [congruence | exact Hd].
  - split; [congruence|]. split; [congruence|].
    exists evs. split; [congruence | exact Hd].
Qed.

(** X2. With the dryRun option on, no run of the engine's public methods
    (execute with any decisions, handleFill, ensureBalanceSnapshot,
    updateMarketContext) adds an AddOrder call: the option is still on
    at the end, and every order event announced during the run is a
    dry-run submission. *)
Theorem dry_run_session_never_reaches_add_order
    (calls : list apiCall) (e : engine) (b : Bot.bot) (w : Bot.world) :
  Bot.dryRun (Bot.opts b) = true ->
  let s := apiRun numberText calls (e, b, w) in
  Bot.addOrders (snd s) = Bot.addOrders w /\
  Bot.dryRun (Bot.opts (snd (fst s))) = true /\
  exists evs, Bot.emitted (snd s) = (Bot.emitted w ++ evs)%list /\
              forallb isDryEvent evs = true.
Proof.
  intros Hdry. cbv zeta.
  destruct (apiRun_preserves (fun _ => True) (dryRunSince b w))
    with (calls := calls) (e := e) (b := b) (w := w)
    as [_ (Ho & Ha & Hev)]; try (intros; exact I).
  - intros ex b1 w1 H. apply dryRunSince_fetchTicker, H.
  - intros ex b1 w1 (Ho & Ha & evs & He & Hd). unfold Bot.fetchBalances.
    cbn [snd]. split; [exact Ho|]. split.
    + rewrite addOrders_called by reflexivity. exact Ha.
    + exists evs. split; [exact He | exact Hd].
  - intros ex type kind price volume params b1 w1 H.
    apply dryRunSince_submitOrder; assumption.
  - apply dryRunSince_refl.
  - split; [exact Ha|]. split; [congruence | exact Hev].
Qed.

(** *** The baseline of the daily PnL *)

Lemma recalculateDailyPnL_tracks (s : Q) (e : engine) :
  (0 < s)%Q -> dailyStartingBalance e = Some s ->
  pnlTracks s (recalculateDailyPnL e).
Proof.
  intros Hs He. unfold recalculateDailyPnL. rewrite He.
  assert (H0 : Qeq_bool s 0 = false).
  { apply not_true_is_false. intros H. apply Qeq_bool_iff in H. lra. }
  assert (H1 : Qle_bool s 0 = false).
  { apply not_true_is_false. intros H. apply Qle_bool_iff in H. lra. }
  rewrite H0, H1. cbn [negb]. split; [reflexivity|]. cbn.
  field. lra.
Qed.

Lemma applyFill_tracks (s : Q) (now : Z) (sd : fillSide) (q p : Js.num)
    (a : bool) (e : engine) :
  (0 < s)%Q -> pnlTracks s e -> pnlTracks s (applyFill now sd q p a e).
Proof.
  intros Hs He. unfold applyFill.
  destruct q as [q| | |]; try exact He.
  destruct p as [p| | |]; try exact He.
  destruct (Qle_bool q 0 || Qle_bool p 0)%bool; [exact He|].
  apply recalculateDailyPnL_tracks; [exact Hs|].
  destruct He as [He _]. destruct sd; [exact He|].
  unfold applySell, maybeApplyPause.
  destruct (lossesReached _); exact He.
Qed.

Lemma loadBalances_tracks (s : Q) (ex : Bot.exchange) (force : bool)
    (now : Z) (e : engine) (w : Bot.world) :
  (0 < s)%Q -> pnlTracks s e ->
  pnlTracks s (snd (fst (loadBalances ex force now e w))).
Proof.
  intros Hs [He Hp]. unfold loadBalances.
  match goal with
  | |- context [match ?c with Some _ => _ | None => _ end] =>
      destruct c; [split; assumption|]
  end.
  destruct (Bot.fetchBalances ex w) as [[[qb bb]|m] w1]; cbn [fst snd];
    [|split; assumption].
  split; cbn; [|exact Hp].
  rewrite He. cbn.
  assert (H0 : Qeq_bool s 0 = false).
  { apply not_true_is_false. intros H. apply Qeq_bool_iff in H. lra. }
  rewrite H0. reflexivity.
Qed.

(** X3. Once the daily starting balance holds a positive amount s and
    the daily PnL percentage is realizedPnlQuote / s * 100, every run of
    the engine's public methods keeps both: the baseline is never
    replaced by a later balance (there is no daily reset) and the
    percentage is always the realised PnL against s. *)
Theorem daily_pnl_baseline_is_fixed
    (calls : list apiCall) (e : engine) (b : Bot.bot) (w : Bot.world) (s : Q) :
  (0 < s)%Q ->
  dailyStartingBalance e = Some s ->
  (dailyPnlPct e == realizedPnlQuote e / s * 100)%Q ->
  let e' := fst (fst (apiRun numberText calls (e, b, w))) in
  dailyStartingBalance e' = Some s /\
  (dailyPnlPct e' == realizedPnlQuote e' / s * 100)%Q.
Proof.
  intros Hs He Hp. cbv zeta.
  destruct (apiRun_preserves (pnlTracks s) (fun _ _ => True))
    with (calls := calls) (e := e) (b := b) (w := w) as [H _];
    try (intros; exact I).
  - intros ex force now e0 w0 H. apply loadBalances_tracks; assumption.
  - intros now sd q p a e0 H. apply applyFill_tracks; assumption.
  - intros now d e0 H. exact H.
  - intros now f e0 H. unfold updateMarketContext.
    destruct f as [f|]; [|exact H].
    destruct (_ || _)%bool; exact H.
  - intros e0 H. exact H.
  - split; assumption.
  - exact H.
Qed.

End Session.

Lemma dry_run_session_never_reaches_add_order_witness :
  let s := ExecutionEngine.apiRun Bot.wholeText ExecutionEngine.sampleSession
             (ExecutionEngine.construct ExecutionEngine.defaultRisk,
              Bot.dogeBot Bot.dryOptions, Bot.emptyWorld) in
  Bot.addOrders (snd s) = Bot.addOrders Bot.emptyWorld /\
  Bot.dryRun (Bot.opts (snd (fst s))) = true /\
  exists evs, Bot.emitted (snd s) = (Bot.emitted Bot.emptyWorld ++ evs)%list /\
              forallb ExecutionEngine.isDryEvent evs = true.
Proof.
  exact (dry_run_session_never_reaches_add_order Bot.wholeText
           ExecutionEngine.sampleSession
           (ExecutionEngine.construct ExecutionEngine.defaultRisk)
           (Bot.dogeBot Bot.dryOptions) Bot.emptyWorld eq_refl).
Defined.

Lemma daily_pnl_baseline_is_fixed_witness :
  let e' := fst (fst (ExecutionEngine.apiRun Bot.wholeText
                        ExecutionEngine.sampleSession
                        (ExecutionEngine.primedEngine,
                         Bot.dogeBot Bot.dryOptions, Bot.emptyWorld))) in
  ExecutionEngine.dailyStartingBalance e' = Some 10000%Q /\
  (ExecutionEngine.dailyPnlPct e' ==
   ExecutionEngine.realizedPnlQuote e' / 10000 * 100)%Q.
Proof.
  apply (daily_pnl_baseline_is_fixed Bot.wholeText
           ExecutionEngine.sampleSession ExecutionEngine.primedEngine
           (Bot.dogeBot Bot.dryOptions) Bot.emptyWorld 10000).
  - reflexivity.
  - reflexivity.
  - reflexivity.
Defined.

Section CostBasis.
Import ExecutionEngine.

(** *** Buys and the average price *)

Lemma applyOp_buy (e : engine) (op : ledgerOp) (q p : Q) :
  buyOf op = Some (q, p) ->
  (0 < q)%Q /\ (0 < p)%Q /\
  exists now a, applyOp e op = recalculateDailyPnL (applyBuy now q p a e).
Proof.
  destruct op as [t f | t sd qn pn a]; cbn.
  - destruct f as [f|]; [|discriminate]. cbn.
    destruct (fquantity f) as [q0| | |]; try discriminate.
    destruct (fprice f) as [p0| | |]; try discriminate.
    destruct (fside f) as [s|]; [|discriminate]. cbn -[applyFill].
    destruct (Qle_bool q0 0 || Qle_bool p0 0)%bool eqn:Hg; [discriminate|].
    destruct (String.eqb (Js.toLowerCase s) "buy"); [|discriminate].
    intros H; injection H as <- <-.
    destruct (guard_false _ _ Hg) as [Hq Hp].
    split; [exact Hq|]. split; [exact Hp|].
    exists t, false. unfold applyFill. rewrite Hg. reflexivity.
  - destruct sd; [|discriminate].
    destruct qn as [q0| | |]; try discriminate.
    destruct pn as [p0| | |]; try discriminate.
    destruct (Qle_bool q0 0 || Qle_bool p0 0)%bool eqn:Hg; [discriminate|].
    intros H; injection H as <- <-.
    destruct (guard_false _ _ Hg) as [Hq Hp].
    split; [exact Hq|]. split; [exact Hp|].
    exists t, a. unfold applyFill. rewrite Hg. reflexivity.
Qed.

Lemma applyOp_idle (e : engine) (op : ledgerOp) :
  buyOf op = None -> sellOf op = None -> applyOp e op = e.
Proof.
  destruct op as [t f | t sd qn pn a]; cbn.
  - destruct f as [f|]; [|reflexivity]. cbn.
    destruct (fquantity f) as [q0| | |]; try reflexivity.
    destruct (fprice f) as [p0| | |]; try reflexivity.
    destruct (Qle_bool q0 0 || Qle_bool p0 0)%bool eqn:Hg; [reflexivity|].
    destruct (fside f) as [s|]; [|reflexivity]. cbn -[applyFill].
    destruct (String.eqb (Js.toLowerCase s) "buy"); [discriminate|].
    destruct (String.eqb (Js.toLowerCase s) "sell"); [discriminate|reflexivity].
  - unfold applyFill.
    destruct qn as [q0| | |]; try reflexivity.
    destruct pn as [p0| | |]; try reflexivity.
    destruct (Qle_bool q0 0 || Qle_bool p0 0)%bool eqn:Hg; [reflexivity|].
    destruct sd; discriminate.
Qed.

Lemma applyOps_cost_basis (ops : list ledgerOp) (e : engine) :
  (forall op, In op ops -> sellOf op = None) ->
  (0 <= size (pos e))%Q ->
  let p := pos (applyOps ops e) in
  (size p == size (pos e) + boughtQuantity ops)%Q /\
  (averagePrice p * size p ==
   averagePrice (pos e) * size (pos e) + boughtCost ops)%Q.
Proof.
  revert e. induction ops as [|op ops IH]; intros e Hns Hsz; cbv zeta.
  - cbn. split; ring.
  - cbn [applyOps fold_left]. fold (applyOps ops (applyOp e op)).
    assert (Hns' : forall o, In o ops -> sellOf o = None)
      by (intros o Ho; apply Hns; right; exact Ho).
    destruct (buyOf op) as [[q p]|] eqn:Hb.
    + destruct (applyOp_buy e op q p Hb) as (Hq & Hp & now & a & Happ).
      assert (Hpos : pos (applyOp e op) = pos (applyBuy now q p a e))
        by (rewrite Happ; apply pos_recalculateDailyPnL).
      destruct (IH (applyOp e op) Hns') as [H1 H2].
      { rewrite Hpos. cbn. lra. }
      cbv zeta in H1, H2. rewrite Hpos in H1, H2. cbn in H1, H2.
      cbn [boughtQuantity boughtCost fold_right]. rewrite Hb.
      fold (boughtQuantity ops). fold (boughtCost ops).
      split; [rewrite H1; ring|]. rewrite H2. field. lra.
    + rewrite (applyOp_idle e op Hb (Hns op (or_introl eq_refl))).
      destruct (IH e Hns' Hsz) as [H1 H2].
      cbn [boughtQuantity boughtCost fold_right]. rewrite Hb.
      split; assumption.
Qed.

(** X4. After a run of fills without a sell, from a freshly constructed
    engine, the position size is the sum of the quantities bought and
    averagePrice * size is the sum of quantity * price over the buys:
    the average price is the volume-weighted average of the buy prices.
    Fills with a non-finite or non-positive quantity or price, and fills
    whose side is neither buy nor sell, count for nothing. *)
Theorem average_price_is_volume_weighted
    (risk : riskConfig) (ops : list ledgerOp) :
  (forall op, In op ops -> sellOf op = None) ->
  let p := pos (applyOps ops (construct risk)) in
  (size p == boughtQuantity ops)%Q /\
  (averagePrice p * size p == boughtCost ops)%Q.
Proof.
  intros Hns. cbv zeta.
  destruct (applyOps_cost_basis ops (construct risk) Hns) as [H1 H2].
  { cbn. lra. }
  cbv zeta in H1, H2. cbn in H1, H2. split.
  - rewrite H1. ring.
  - rewrite H2. ring.
Qed.

(** *** The loss window *)

Lemma length_slice_last {A : Type} (n : nat) (l : list A) :
  (length (Js.slice_last n l) <= n)%nat.
Proof. unfold Js.slice_last. rewrite List.length_skipn. lia. Qed.

Lemma count_true_le_length (l : list bool) : (Js.count_true l <= length l)%nat.
Proof. unfold Js.count_true. apply List.filter_length_le. Qed.

Lemma applyOp_above_window (e : engine) (op : ledgerOp) :
  (5 < pauseAfterLosses (cfg e))%Q ->
  pauseUntil (applyOp e op) = pauseUntil e /\
  ((length (lossCountWindow e) <= 5)%nat ->
   (length (lossCountWindow (applyOp e op)) <= 5)%nat).
Proof.
  intros Hcfg.
  destruct (sellOf op) as [[[now q] p]|] eqn:Hs.
  - rewrite (applyOp_sell e op now q p Hs).
    destruct (fields_recalculateDailyPnL (applySell now q p e)) as (_ & -> & ->).
    unfold applySell, maybeApplyPause.
    assert (Hno : lossesReached (recordSell q p e) = false).
    { apply not_true_is_false. intros H. unfold lossesReached in H.
      apply Qle_bool_iff in H. cbn [cfg recordSell lossCountWindow] in H.
      pose proof (count_true_le_length
                    (Js.slice_last 5 (lossCountWindow e ++
                       [negb (Qle_bool 0 (realizedOf q p (pos e)))]))) as H1.
      pose proof (length_slice_last 5
                    (lossCountWindow e ++
                       [negb (Qle_bool 0 (realizedOf q p (pos e)))])) as H2.
      assert (H3 : (inject_Z (Z.of_nat (Js.count_true
                      (Js.slice_last 5 (lossCountWindow e ++
                         [negb (Qle_bool 0 (realizedOf q p (pos e)))])))) <= 5)%Q).
      { change 5%Q with (inject_Z 5). rewrite <- Zle_Qle. lia. }
      lra. }
    rewrite Hno. split; [reflexivity|]. intros _. cbn [recordSell lossCountWindow].
    apply length_slice_last.
  - destruct (buyOf op) as [[q p]|] eqn:Hb.
    + destruct (applyOp_buy e op q p Hb) as (_ & _ & now & a & ->).
      destruct (fields_recalculateDailyPnL (applyBuy now q p a e))
        as (_ & -> & ->). split; [reflexivity|]. intros H; exact H.
    + rewrite (applyOp_idle e op Hb Hs). split; [reflexivity|]. intros H; exact H.
Qed.

(** X5. When pauseAfterLosses is configured above 5, no run of fills
    ever starts the loss cooldown: the loss window never holds more than
    5 outcomes, pauseUntil stays 0 and the engine is not paused at any
    clock reading from 0 on. *)
Theorem cooldown_unreachable_above_window
    (risk : riskConfig) (ops : list ledgerOp) :
  (5 < pauseAfterLosses risk)%Q ->
  let e := applyOps ops (construct risk) in
  (length (lossCountWindow e) <= 5)%nat /\
  pauseUntil e = 0%Q /\
  forall now, 0 <= now -> isPaused now e = false.
Proof.
  intros Hcfg. cbv zeta.
  assert (H : forall e0,
            (5 < pauseAfterLosses (cfg e0))%Q ->
            (length (lossCountWindow e0) <= 5)%nat ->
            (length (lossCountWindow (applyOps ops e0)) <= 5)%nat /\
            pauseUntil (applyOps ops e0) = pauseUntil e0).
  { induction ops as [|op ops' IH]; intros e0 Hc Hl; [split; [exact Hl|reflexivity]|].
    cbn [applyOps fold_left]. fold (applyOps ops' (applyOp e0 op)).
    destruct (applyOp_above_window e0 op Hc) as [Hp Hw].
    destruct (IH (applyOp e0 op)) as [H1 H2].
    - rewrite cfg_applyOp. exact Hc.
    - apply Hw, Hl.
    - split; [exact H1 | congruence]. }
  destruct (H (construct risk) Hcfg) as [H1 H2]; [cbn; lia|].
  split; [exact H1|]. split; [exact H2|].
  intros now Hnow. unfold isPaused. rewrite H2. cbn [construct pauseUntil].
  apply negb_false_iff. apply Qle_bool_iff.
  change 0%Q with (inject_Z 0). rewrite <- Zle_Qle. exact Hnow.
Qed.

End CostBasis.

Lemma average_price_is_volume_weighted_witness :
  let p := ExecutionEngine.pos
             (ExecutionEngine.applyOps ExecutionEngine.twoBuys
                (ExecutionEngine.construct ExecutionEngine.defaultRisk)) in
  (ExecutionEngine.size p ==
   ExecutionEngine.boughtQuantity ExecutionEngine.twoBuys)%Q /\
  (ExecutionEngine.averagePrice p * ExecutionEngine.size p ==
   ExecutionEngine.boughtCost ExecutionEngine.twoBuys)%Q.
Proof.
  apply (average_price_is_volume_weighted ExecutionEngine.defaultRisk
           ExecutionEngine.twoBuys).
  intros op [<- | [<- | []]]; reflexivity.
Defined.

Lemma cooldown_unreachable_above_window_witness :
  let e := ExecutionEngine.applyOps
             (ExecutionEngine.twoLossesPrefix ++ [ExecutionEngine.secondLoss])
             (ExecutionEngine.construct ExecutionEngine.patientRisk) in
  (length (ExecutionEngine.lossCountWindow e) <= 5)%nat /\
  ExecutionEngine.pauseUntil e = 0%Q /\
  forall now, 0 <= now -> ExecutionEngine.isPaused now e = false.
Proof.
  apply (cooldown_unreachable_above_window ExecutionEngine.patientRisk
           (ExecutionEngine.twoLossesPrefix ++ [ExecutionEngine.secondLoss])).
  reflexivity.
Defined.

Section Commands.
Import ExecutionEngine.
Variable numberText : Q -> string.
Variable ex : Bot.exchange.

(** X6. A PAUSE decision is executed even while the engine is paused; it
    returns the paused status with the new pauseUntil, which is at least
    60000 ms after the clock (minutes below 1, also 0 and negative ones,
    count as 1), so the engine is paused at every clock reading before
    now + 60000; the position, the bot and the recorded REST calls and
    events are unchanged. *)
Theorem pause_lasts_at_least_a_minute
    (now : Z) (d : decision) (close : Js.num)
    (e : engine) (b : Bot.bot) (w : Bot.world) :
  action d = "PAUSE"%string ->
  let o := execute numberText ex now (Some d) close e b w in
  executionOf o = Paused (pauseUntil (engineOf o)) /\
  (inject_Z now + 60000 <= pauseUntil (engineOf o))%Q /\
  (forall t, t < now + 60000 -> isPaused t (engineOf o) = true) /\
  pos (engineOf o) = pos e /\ botOf o = b /\ worldOf o = w.
Proof.
  intros Ha. cbv zeta. unfold execute. rewrite Ha. cbn [String.eqb Ascii.eqb].
  cbn -[pause isPaused].
  rewrite andb_false_r.
  unfold pause, executionOf, engineOf, botOf, worldOf. cbn [fst snd pauseUntil pos].
  set (mins := match minutes d with Js.Fin m => m | _ => pauseMinutes (cfg e) end).
  assert (Hm : (1 <= Qmax mins 1)%Q) by apply Q.le_max_r.
  assert (Hu : (inject_Z now + 60000 <= inject_Z now + Qmax mins 1 * 60000)%Q) by lra.
  split; [reflexivity|]. split; [exact Hu|]. split; [|auto].
  intros t Ht. unfold isPaused. cbn [pauseUntil].
  apply negb_true_iff. apply not_true_is_false. intros H.
  apply Qle_bool_iff in H.
  assert (Ht' : (inject_Z t < inject_Z now + 60000)%Q).
  { change 60000%Q with (inject_Z 60000). rewrite <- inject_Z_plus.
    rewrite <- Zlt_Qlt. exact Ht. }
  lra.
Qed.

Lemma execute_paused (now : Z) (d : decision) (close : Js.num)
    (e : engine) (b : Bot.bot) (w : Bot.world) :
  isPaused now e = true ->
  action d <> "HOLD"%string -> action d <> EmptyString ->
  action d <> "PAUSE"%string ->
  execute numberText ex now (Some d) close e b w =
  (Paused (pauseUntil e), e, b, w).
Proof.
  intros Hp H1 H2 H3. unfold execute.
  apply String.eqb_neq in H1, H2, H3. rewrite H1, H2, H3, Hp. reflexivity.
Qed.

Lemma isPaused_before (t : Z) (e : engine) (until : Q) :
  pauseUntil e = until -> (inject_Z t < until)%Q -> isPaused t e = true.
Proof.
  intros Hu Ht. unfold isPaused. rewrite Hu.
  apply negb_true_iff. apply not_true_is_false. intros H.
  apply Qle_bool_iff in H. lra.
Qed.

(** X7. When a sell makes the number of losses in the window reach
    pauseAfterLosses, the engine is paused until the clock of that sell
    plus pauseMinutes * 60000, and every decision with an action other
    than HOLD, the empty action and PAUSE that is executed before that
    time returns the paused status with that time, leaving the engine,
    the bot and the recorded calls unchanged. *)
Theorem cooldown_refuses_every_order
    (e : engine) (op : ledgerOp) (now : Z) (q p : Q)
    (t : Z) (d : decision) (close : Js.num) (b : Bot.bot) (w : Bot.world) :
  sellOf op = Some (now, q, p) ->
  lossesReached (recordSell q p e) = true ->
  (inject_Z t < inject_Z now + pauseMinutes (cfg e) * 60000)%Q ->
  action d <> "HOLD"%string -> action d <> EmptyString ->
  action d <> "PAUSE"%string ->
  let e' := applyOp e op in
  execute numberText ex t (Some d) close e' b w =
  (Paused (inject_Z now + pauseMinutes (cfg e) * 60000)%Q, e', b, w).
Proof.
  intros Hs Hreach Ht H1 H2 H3. cbv zeta.
  assert (Hu : pauseUntil (applyOp e op) =
               (inject_Z now + pauseMinutes (cfg e) * 60000)%Q).
  { rewrite (applyOp_sell e op now q p Hs).
    destruct (fields_recalculateDailyPnL (applySell now q p e)) as (_ & _ & ->).
    unfold applySell, maybeApplyPause. rewrite Hreach. reflexivity. }
  rewrite (execute_paused t d close (applyOp e op) b w); [rewrite Hu; reflexivity | | | |];
    try assumption.
  apply (isPaused_before t _ _ Hu Ht).
Qed.

(** X8. A decision whose action is none of OPEN_LONG, ADD, TRIM,
    CLOSE_PARTIAL, CLOSE_ALL and PAUSE leaves the engine, the bot and
    the recorded REST calls and events unchanged; when the engine is not
    paused, MOVE_STOP and SET_TP return an instruction result with their
    own action and nothing else happens (no stop or target is stored or
    placed). *)
Theorem instructions_change_nothing
    (now : Z) (d : decision) (close : Js.num)
    (e : engine) (b : Bot.bot) (w : Bot.world) :
  ~ In (action d) actingActions ->
  let o := execute numberText ex now (Some d) close e b w in
  engineOf o = e /\ botOf o = b /\ worldOf o = w /\
  (action d = "MOVE_STOP"%string -> isPaused now e = false ->
   executionOf o = Instruction "MOVE_STOP") /\
  (action d = "SET_TP"%string -> isPaused now e = false ->
   executionOf o = Instruction "SET_TP").
Proof.
  intros Hn. cbv zeta. unfold actingActions in Hn. cbn [In] in Hn.
  assert (H1 : String.eqb (action d) "OPEN_LONG" = false)
    by (apply String.eqb_neq; intros H; apply Hn; auto).
  assert (H2 : String.eqb (action d) "ADD" = false)
    by (apply String.eqb_neq; intros H; apply Hn; auto).
  assert (H3 : String.eqb (action d) "TRIM" = false)
    by (apply String.eqb_neq; intros H; apply Hn; auto).
  assert (H4 : String.eqb (action d) "CLOSE_PARTIAL" = false)
    by (apply String.eqb_neq; intros H; apply Hn; auto 6).
  assert (H5 : String.eqb (action d) "CLOSE_ALL" = false)
    by (apply String.eqb_neq; intros H; apply Hn; auto 7).
  assert (H6 : String.eqb (action d) "PAUSE" = false)
    by (apply String.eqb_neq; intros H; apply Hn; auto 8).
  unfold execute. rewrite H1, H2, H3, H4, H5, H6. cbn [orb negb].
  rewrite andb_true_r.
  destruct (String.eqb (action d) "HOLD" || String.eqb (action d) EmptyString)%bool
    eqn:Hh.
  { unfold engineOf, botOf, worldOf, executionOf. cbn [fst snd].
    repeat split; intros Ha; rewrite Ha in Hh; discriminate. }
  destruct (isPaused now e).
  { unfold engineOf, botOf, worldOf, executionOf. cbn [fst snd].
    repeat split; intros _ Hf; discriminate. }
  destruct (String.eqb (action d) "MOVE_STOP") eqn:Hm.
  { apply String.eqb_eq in Hm.
    unfold engineOf, botOf, worldOf, executionOf. cbn [fst snd].
    repeat split. intros Ha. rewrite Hm in Ha. discriminate. }
  destruct (String.eqb (action d) "SET_TP") eqn:Hs.
  { unfold engineOf, botOf, worldOf, executionOf. cbn [fst snd].
    repeat split. intros Ha. apply String.eqb_neq in Hm. contradiction. }
  unfold engineOf, botOf, worldOf, executionOf. cbn [fst snd].
  repeat split; intros Ha; [apply String.eqb_neq in Hm | apply String.eqb_neq in Hs];
    contradiction.
Qed.

(** *** Closing a position *)

Lemma hasLong_size (e : engine) : hasLong e = true -> (0 < size (pos e))%Q.
Proof.
  unfold hasLong. destruct (pside (pos e)); [discriminate|].
  intros H. apply negb_true_iff in H. apply Qle_bool_false, H.
Qed.

Lemma closeAll_reaches_gateway (now : Z) (d : decision) (c : Q)
    (e : engine) (b : Bot.bot) (w : Bot.world) :
  action d = "CLOSE_ALL"%string -> isPaused now e = false ->
  hasLong e = true -> ~ (c == 0)%Q ->
  execute numberText ex now (Some d) (Js.Fin c) e b w =
  sellAtMarket numberText ex now "CLOSE_ALL" (size (pos e)) (Js.Fin c) e b w.
Proof.
  intros Ha Hp Hl Hc. unfold execute. rewrite Ha, Hp. cbn -[closeAll].
  unfold closeAll. rewrite Hl. cbn [negb]. unfold ensureTicker.
  assert (Ht : Js.truthy (Js.Fin c) = true).
  { cbn. apply negb_true_iff. apply not_true_is_false. intros H.
    apply Qeq_bool_iff in H. contradiction. }
  rewrite Ht. reflexivity.
Qed.

(** X9. On a dry-run bot with loaded pair metadata, a CLOSE_ALL decision
    executed while not paused on a long position, with a positive 5m
    close c in the features and a position size not below a positive
    minimum order volume (when precision is enforced), returns the
    dry-run result with the payload, makes no REST call, announces one
    dry-run submission of that payload, and books the whole position as
    sold at c: the position is flat with size 0 and the realised PnL
    grows by (c - averagePrice) * size. *)
Theorem close_all_dry_run_flattens
    (now : Z) (d : decision) (c : Q)
    (e : engine) (b : Bot.bot) (w : Bot.world) :
  action d = "CLOSE_ALL"%string ->
  isPaused now e = false ->
  hasLong e = true ->
  (0 < c)%Q ->
  Bot.metadataLoaded b ->
  Bot.dryRun (Bot.opts b) = true ->
  (Bot.enforcePrecision (Bot.opts b) = true ->
   (0 < Bot.minimumVolume b)%Q ->
   (Bot.minimumVolume b <= size (pos e))%Q) ->
  let o := execute numberText ex now (Some d) (Js.Fin c) e b w in
  exists payload,
    executionOf o = DryRunDone "CLOSE_ALL" payload /\
    pside (pos (engineOf o)) = FLAT /\
    (size (pos (engineOf o)) == 0)%Q /\
    (realizedPnlQuote (engineOf o) ==
     realizedPnlQuote e + (c - averagePrice (pos e)) * size (pos e))%Q /\
    botOf o = b /\
    Bot.rest (worldOf o) = Bot.rest w /\
    Bot.emitted (worldOf o) = (Bot.emitted w ++ [Bot.SubmittedDry payload])%list.
Proof.
  intros Ha Hp Hl Hc Hmeta Hdry Hvol. cbv zeta.
  pose proof (hasLong_size e Hl) as Hsz.
  rewrite (closeAll_reaches_gateway now d c e b w Ha Hp Hl) by lra.
  unfold sellAtMarket, Bot.marketSell.
  rewrite (submitOrder_cached numberText ex "sell" "market" None
             (Some (Js.Fin (size (pos e)))) ∅ b w Hmeta eq_refl).
  assert (Hnv : exists f, Bot.normaliseVolume numberText b
                            (Js.Fin (size (pos e))) = Bot.Ok f).
  { destruct (Bot.enforcePrecision (Bot.opts b)) eqn:Henf.
    - destruct (normaliseVolume_enforced numberText b (size (pos e)) Henf Hsz)
        as [_ Hacc].
      rewrite Hacc; [eauto|]. intros Hmin. apply Hvol; [reflexivity|exact Hmin].
    - unfold Bot.normaliseVolume. rewrite Henf.
      assert (H0 : Qle_bool (size (pos e)) 0 = false).
      { apply not_true_is_false. intros H. apply Qle_bool_iff in H. lra. }
      rewrite H0. cbn. eauto. }
  destruct Hnv as (f & Hf).
  unfold Bot.buildPayload. rewrite Hf, Hdry.
  eexists. unfold executionOf, engineOf, botOf, worldOf. cbn [fst snd].
  split; [reflexivity|].
  assert (Hg : (Qle_bool (size (pos e)) 0 || Qle_bool c 0)%bool = false).
  { apply orb_false_iff. split; apply not_true_is_false; intros H;
      apply Qle_bool_iff in H; lra. }
  rewrite (applyFill_valid now Sell (size (pos e)) c true e Hg).
  rewrite pos_recalculateDailyPnL. unfold applySell.
  rewrite pos_maybeApplyPause.
  assert (Hrem : Qeq_bool (Qmax 0 (size (pos e) - size (pos e))) 0 = true).
  { apply Qeq_bool_iff. rewrite Q.max_l; [reflexivity|]. lra. }
  assert (Hreal : realizedPnlQuote
                    (recalculateDailyPnL
                       (maybeApplyPause now (recordSell (size (pos e)) c e))) =
                  realizedPnlQuote (recordSell (size (pos e)) c e)).
  { unfold recalculateDailyPnL, maybeApplyPause.
    destruct (lossesReached _); cbn [dailyStartingBalance realizedPnlQuote];
      destruct (dailyStartingBalance _) as [s|]; try reflexivity;
      destruct (Qeq_bool s 0); try reflexivity;
      destruct (negb (Qle_bool s 0)); reflexivity. }
  rewrite Hreal. unfold recordSell. cbn [pos realizedPnlQuote]. rewrite Hrem.
  cbn [pside size].
  split; [reflexivity|]. split.
  { rewrite Q.max_l; [reflexivity|]. lra. }
  split.
  { unfold realizedOf. rewrite Q.min_l by lra. reflexivity. }
  split; [reflexivity|]. split; reflexivity.
Qed.

(** X10. With precision enforced and loaded pair metadata, a CLOSE_ALL
    decision executed while not paused, with a non-zero 5m close in the
    features, on a long position whose size is below the minimum order
    volume cannot be carried out: marketSell throws, execute propagates
    the exception, and the engine (still long), the bot and the recorded
    calls are unchanged, so such a position cannot be closed through the
    engine. *)
Theorem close_all_below_minimum_throws
    (now : Z) (d : decision) (c : Q)
    (e : engine) (b : Bot.bot) (w : Bot.world) :
  action d = "CLOSE_ALL"%string ->
  isPaused now e = false ->
  hasLong e = true ->
  ~ (c == 0)%Q ->
  Bot.metadataLoaded b ->
  Bot.enforcePrecision (Bot.opts b) = true ->
  (size (pos e) < Bot.minimumVolume b)%Q ->
  exists m,
    execute numberText ex now (Some d) (Js.Fin c) e b w = (Thrown m, e, b, w).
Proof.
  intros Ha Hp Hl Hc Hmeta Henf Hlt.
  pose proof (hasLong_size e Hl) as Hsz.
  rewrite (closeAll_reaches_gateway now d c e b w Ha Hp Hl Hc).
  unfold sellAtMarket, Bot.marketSell.
  rewrite (submitOrder_cached numberText ex "sell" "market" None
             (Some (Js.Fin (size (pos e)))) ∅ b w Hmeta eq_refl).
  destruct (normaliseVolume_enforced numberText b (size (pos e)) Henf Hsz)
    as [Hrej _].
  destruct Hrej as (m & Hm); [lra | exact Hlt |].
  unfold Bot.buildPayload. rewrite Hm. exists m. reflexivity.
Qed.

End Commands.

Lemma pause_lasts_at_least_a_minute_witness :
  let o := ExecutionEngine.execute Bot.wholeText ExecutionEngine.richExchange
             5000 (Some (ExecutionEngine.command "PAUSE" (Js.Fin 0)))
             (Js.Fin (1 # 10))
             (ExecutionEngine.construct ExecutionEngine.defaultRisk)
             (Bot.dogeBot Bot.dryOptions) Bot.emptyWorld in
  ExecutionEngine.executionOf o =
    ExecutionEngine.Paused
      (ExecutionEngine.pauseUntil (ExecutionEngine.engineOf o)) /\
  (inject_Z 5000 + 60000 <=
   ExecutionEngine.pauseUntil (ExecutionEngine.engineOf o))%Q /\
  (forall t, t < 5000 + 60000 ->
             ExecutionEngine.isPaused t (ExecutionEngine.engineOf o) = true) /\
  ExecutionEngine.pos (ExecutionEngine.engineOf o) =
    ExecutionEngine.pos (ExecutionEngine.construct ExecutionEngine.defaultRisk) /\
  ExecutionEngine.botOf o = Bot.dogeBot Bot.dryOptions /\
  ExecutionEngine.worldOf o = Bot.emptyWorld.
Proof.
  apply (pause_lasts_at_least_a_minute Bot.wholeText
           ExecutionEngine.richExchange 5000
           (ExecutionEngine.command "PAUSE" (Js.Fin 0)) (Js.Fin (1 # 10))
           (ExecutionEngine.construct ExecutionEngine.defaultRisk)
           (Bot.dogeBot Bot.dryOptions) Bot.emptyWorld).
  reflexivity.
Defined.

Lemma cooldown_refuses_every_order_witness :
  let e := ExecutionEngine.applyOps ExecutionEngine.twoLossesPrefix
             (ExecutionEngine.construct ExecutionEngine.defaultRisk) in
  let e' := ExecutionEngine.applyOp e ExecutionEngine.secondLoss in
  ExecutionEngine.execute Bot.wholeText ExecutionEngine.richExchange
    5000 (Some ExecutionEngine.openLong25) (Js.Fin (1 # 10)) e'
    (Bot.dogeBot Bot.dryOptions) Bot.emptyWorld =
  (ExecutionEngine.Paused
     (inject_Z 4000 +
      ExecutionEngine.pauseMinutes (ExecutionEngine.cfg e) * 60000)%Q,
   e', Bot.dogeBot Bot.dryOptions, Bot.emptyWorld).
Proof.
  cbv zeta.
  apply (cooldown_refuses_every_order Bot.wholeText
           ExecutionEngine.richExchange
           (ExecutionEngine.applyOps ExecutionEngine.twoLossesPrefix
              (ExecutionEngine.construct ExecutionEngine.defaultRisk))
           ExecutionEngine.secondLoss 4000 100 (96 # 100) 5000
           ExecutionEngine.openLong25 (Js.Fin (1 # 10))
           (Bot.dogeBot Bot.dryOptions) Bot.emptyWorld).
  - reflexivity.
  - vm_compute. reflexivity.
  - vm_compute. reflexivity.
  - discriminate.
  - discriminate.
  - discriminate.
Defined.

Lemma instructions_change_nothing_witness :
  let e := ExecutionEngine.construct ExecutionEngine.defaultRisk in
  let o := ExecutionEngine.execute Bot.wholeText ExecutionEngine.richExchange
             5000 (Some (ExecutionEngine.command "MOVE_STOP" Js.NaN))
             (Js.Fin (1 # 10)) e (Bot.dogeBot Bot.dryOptions) Bot.emptyWorld in
  ExecutionEngine.engineOf o = e /\
  ExecutionEngine.botOf o = Bot.dogeBot Bot.dryOptions /\
  ExecutionEngine.worldOf o = Bot.emptyWorld /\
  (ExecutionEngine.action (ExecutionEngine.command "MOVE_STOP" Js.NaN) =
     "MOVE_STOP"%string ->
   ExecutionEngine.isPaused 5000 e = false ->
   ExecutionEngine.executionOf o = ExecutionEngine.Instruction "MOVE_STOP") /\
  (ExecutionEngine.action (ExecutionEngine.command "MOVE_STOP" Js.NaN) =
     "SET_TP"%string ->
   ExecutionEngine.isPaused 5000 e = false ->
   ExecutionEngine.executionOf o = ExecutionEngine.Instruction "SET_TP").
Proof.
  cbv zeta.
  apply (instructions_change_nothing Bot.wholeText
           ExecutionEngine.richExchange 5000
           (ExecutionEngine.command "MOVE_STOP" Js.NaN) (Js.Fin (1 # 10))
           (ExecutionEngine.construct ExecutionEngine.defaultRisk)
           (Bot.dogeBot Bot.dryOptions) Bot.emptyWorld).
  cbn. intros H. repeat (destruct H as [H | H]; [discriminate H|]). exact H.
Defined.

Lemma close_all_dry_run_flattens_witness :
  let e := ExecutionEngine.longEngine 100 in
  let o := ExecutionEngine.execute Bot.wholeText ExecutionEngine.richExchange
             5000 (Some (ExecutionEngine.command "CLOSE_ALL" Js.NaN))
             (Js.Fin (11 # 10)) e (Bot.dogeBot Bot.dryOptions)
             Bot.emptyWorld in
  exists payload,
    ExecutionEngine.executionOf o =
      ExecutionEngine.DryRunDone "CLOSE_ALL" payload /\
    ExecutionEngine.pside (ExecutionEngine.pos (ExecutionEngine.engineOf o)) =
      ExecutionEngine.FLAT /\
    (ExecutionEngine.size (ExecutionEngine.pos (ExecutionEngine.engineOf o))
     == 0)%Q /\
    (ExecutionEngine.realizedPnlQuote (ExecutionEngine.engineOf o) ==
     ExecutionEngine.realizedPnlQuote e +
     ((11 # 10) - ExecutionEngine.averagePrice (ExecutionEngine.pos e)) *
     ExecutionEngine.size (ExecutionEngine.pos e))%Q /\
    ExecutionEngine.botOf o = Bot.dogeBot Bot.dryOptions /\
    Bot.rest (ExecutionEngine.worldOf o) = Bot.rest Bot.emptyWorld /\
    Bot.emitted (ExecutionEngine.worldOf o) =
      (Bot.emitted Bot.emptyWorld ++ [Bot.SubmittedDry payload])%list.
Proof.
  cbv zeta.
  apply (close_all_dry_run_flattens Bot.wholeText ExecutionEngine.richExchange
           5000 (ExecutionEngine.command "CLOSE_ALL" Js.NaN) (11 # 10)
           (ExecutionEngine.longEngine 100) (Bot.dogeBot Bot.dryOptions)
           Bot.emptyWorld).
  - reflexivity.
  - reflexivity.
  - reflexivity.
  - reflexivity.
  - exists Bot.dogeInfo. split; reflexivity.
  - reflexivity.
  - intros _ _. vm_compute. discriminate.
Defined.

Lemma close_all_below_minimum_throws_witness :
  exists m,
    ExecutionEngine.execute Bot.wholeText ExecutionEngine.richExchange
      5000 (Some (ExecutionEngine.command "CLOSE_ALL" Js.NaN))
      (Js.Fin (11 # 10)) (ExecutionEngine.longEngine 10)
      (Bot.dogeBot Bot.dryOptions) Bot.emptyWorld =
    (ExecutionEngine.Thrown m, ExecutionEngine.longEngine 10,
     Bot.dogeBot Bot.dryOptions, Bot.emptyWorld).
Proof.
  apply (close_all_below_minimum_throws Bot.wholeText
           ExecutionEngine.richExchange 5000
           (ExecutionEngine.command "CLOSE_ALL" Js.NaN) (11 # 10)
           (ExecutionEngine.longEngine 10) (Bot.dogeBot Bot.dryOptions)
           Bot.emptyWorld).
  - reflexivity.
  - reflexivity.
  - reflexivity.
  - vm_compute. discriminate.
  - exists Bot.dogeInfo. split; reflexivity.
  - reflexivity.
  - reflexivity.
Defined.

(* ---------------------------------------------------------------------- *)
(** ** The price-change threshold (Bot.js) *)
(* ---------------------------------------------------------------------- *)

Section Feed.
Import PriceFeed.

Lemma length_capHistory (h : list pricePoint) :
  (length (capHistory h) <= 500)%nat.
Proof.
  unfold capHistory. destruct (500 <? length h)%nat eqn:Hl.
  - rewrite List.length_skipn. apply Nat.ltb_lt in Hl. lia.
  - apply Nat.ltb_ge in Hl. exact Hl.
Qed.

Lemma evaluate_bounded (th period : Js.num) (pd : priceData)
    (h : list pricePoint) :
  (length h <= 500)%nat ->
  (length (snd (evaluatePriceChangeThreshold th period pd h)) <= 500)%nat.
Proof.
  intros Hh. unfold evaluatePriceChangeThreshold.
  destruct th as [t| | |]; try exact Hh.
  destruct (Qle_bool t 0); [exact Hh|].
  destruct (extractPrice (candidates pd)) as [price|]; [|exact Hh].
  destruct (Qle_bool price 0); [exact Hh|].
  apply length_capHistory.
Qed.

(** X11. Whatever price updates arrive and whatever the threshold and
    monitoring period are, the price-change history never holds more
    than 500 entries. *)
Theorem price_history_is_bounded
    (threshold period : Js.num) (updates : list priceData) :
  (length (snd (feed threshold period updates [])) <= 500)%nat.
Proof.
  assert (H : forall h, (length h <= 500)%nat ->
            (length (snd (feed threshold period updates h)) <= 500)%nat).
  { induction updates as [|pd rest IH]; intros h Hh; [exact Hh|].
    cbn [feed].
    pose proof (evaluate_bounded threshold period pd h Hh) as H1.
    destruct (evaluatePriceChangeThreshold threshold period pd h) as [flag h1].
    pose proof (IH h1 H1) as H2.
    destruct (feed threshold period rest h1) as [flags h2]. exact H2. }
  apply H. cbn. lia.
Qed.

Lemma expired_finite (t w a : Q) (x : pricePoint) :
  ptimestamp x = Js.Fin a ->
  expired (Js.Fin t) w x = negb (Qle_bool (t - a) w).
Proof. intros Hx. unfold expired. rewrite Hx. reflexivity. Qed.

Lemma shiftExpired_filter (t w : Q) (h : list pricePoint) :
  chronological h ->
  shiftExpired (Js.Fin t) w h =
  List.filter (fun x => negb (expired (Js.Fin t) w x)) h.
Proof.
  induction h as [|x rest IH]; intros Hs; [reflexivity|].
  apply StronglySorted_inv in Hs. destruct Hs as [Hrest Hx].
  cbn [shiftExpired List.filter].
  destruct (expired (Js.Fin t) w x) eqn:He; cbn [negb]; [apply IH, Hrest|].
  f_equal. symmetry. apply List.forallb_filter_id.
  apply forallb_forall. intros y Hy.
  rewrite List.Forall_forall in Hx.
  destruct (Hx y Hy) as (a & b & Ha & Hb & Hab).
  rewrite (expired_finite t w a x Ha) in He.
  rewrite (expired_finite t w b y Hb).
  apply negb_false_iff in He. apply Qle_bool_iff in He.
  rewrite negb_involutive. apply Qle_bool_iff. lra.
Qed.

(** X12. For a positive threshold, an update with a positive price and a
    finite timestamp t, and a history whose timestamps are finite and do
    not decrease: the threshold check returns true exactly when the
    history holds an entry that is not older than the window (t -
    timestamp <= windowMs) with a positive price sp such that |price -
    sp| / sp * 100 is at least the threshold; the comparison is against
    every entry of the window, not only the oldest. *)
Theorem price_spike_flag_characterised
    (th : Q) (period : Js.num) (pd : priceData) (t price : Q)
    (history : list pricePoint) :
  (0 < th)%Q ->
  extractPrice (candidates pd) = Some price -> (0 < price)%Q ->
  timestamp pd = Js.Fin t ->
  chronological history ->
  (fst (evaluatePriceChangeThreshold (Js.Fin th) period pd history) = true <->
   exists x sp,
     In x history /\
     expired (Js.Fin t) (windowMs period) x = false /\
     pprice x = Js.Fin sp /\ (0 < sp)%Q /\
     (th <= Qabs ((price - sp) / sp) * 100)%Q).
Proof.
  intros Hth Hprice Hpos Hts Hsorted.
  unfold evaluatePriceChangeThreshold.
  assert (H0 : Qle_bool th 0 = false).
  { apply not_true_is_false. intros H. apply Qle_bool_iff in H. lra. }
  assert (H1 : Qle_bool price 0 = false).
  { apply not_true_is_false. intros H. apply Qle_bool_iff in H. lra. }
  rewrite H0, Hprice, H1, Hts. cbn [fst].
  rewrite (shiftExpired_filter t (windowMs period) history Hsorted).
  rewrite existsb_exists. split.
  - intros (x & Hx & Hm). apply List.filter_In in Hx. destruct Hx as [Hin Hne].
    apply negb_true_iff in Hne. unfold moved in Hm.
    destruct (pprice x) as [sp| | |] eqn:Hp; try discriminate.
    destruct (Qle_bool sp 0) eqn:Hsp; [discriminate|].
    exists x, sp. split; [exact Hin|]. split; [exact Hne|].
    split; [exact Hp|]. split; [apply Qle_bool_false, Hsp|].
    apply Qle_bool_iff, Hm.
  - intros (x & sp & Hin & Hne & Hp & Hsp & Hm). exists x. split.
    + apply List.filter_In. split; [exact Hin|]. rewrite Hne. reflexivity.
    + unfold moved. rewrite Hp.
      assert (H2 : Qle_bool sp 0 = false).
      { apply not_true_is_false. intros H. apply Qle_bool_iff in H. lra. }
      rewrite H2. apply Qle_bool_iff, Hm.
Qed.

End Feed.

Lemma price_spike_flag_characterised_witness :
  let history := [ {| PriceFeed.ptimestamp := Js.Fin 1000;
                      PriceFeed.pprice := Js.Fin 100 |} ] in
  fst (PriceFeed.evaluatePriceChangeThreshold (Js.Fin (35 # 100)) (Js.Fin 5)
         (PriceFeed.tick 2000 101) history) = true <->
  exists x sp,
    List.In x history /\
    PriceFeed.expired (Js.Fin 2000) (PriceFeed.windowMs (Js.Fin 5)) x = false /\
    PriceFeed.pprice x = Js.Fin sp /\ (0 < sp)%Q /\
    (35 # 100 <= Qabs ((101 - sp) / sp) * 100)%Q.
Proof.
  cbv zeta.
  apply (price_spike_flag_characterised (35 # 100) (Js.Fin 5)
           (PriceFeed.tick 2000 101) 2000 101).
  - reflexivity.
  - reflexivity.
  - reflexivity.
  - reflexivity.
  - repeat constructor.
Defined.

(* ---------------------------------------------------------------------- *)
(** ** Pair names (Bot.js, normalisePair) *)
(* ---------------------------------------------------------------------- *)

Section PairNames.
Import Pair.

Example pair_examples :
  normalisePair "doge/usd" = normalisePair "DOGE-USD" /\
  normalisePair " doge : usd " = normalisePair "DOGEUSD" /\
  (exists r, normalisePair "DOGEUSD" = Bot.Ok r /\ wsPair r = "DOGE/USD"%string) /\
  (exists r, normalisePair "XXBTZUSD" = Bot.Ok r /\ wsPair r = "XXBTZ/USD"%string).
Proof. repeat split; try (eexists; split; reflexivity). Qed.

Lemma endsWith_refl (s : string) : endsWith s s = true.
Proof. destruct s; cbn; rewrite ?Ascii.eqb_refl, ?String.eqb_refl; reflexivity. Qed.

Lemma endsWith_cons (a : ascii) (s q : string) :
  endsWith s q = true -> endsWith (String a s) q = true.
Proof.
  intros H. cbn [endsWith]. destruct (String.eqb (String a s) q); [reflexivity|exact H].
Qed.

Lemma endsWith_tail (s : string) (c : ascii) (q : string) :
  endsWith s (String c q) = true -> endsWith s q = true.
Proof.
  induction s as [|a r IH]; cbn [endsWith].
  - cbn. discriminate.
  - destruct (String.eqb (String a r) (String c q)) eqn:He.
    + intros _. apply String.eqb_eq in He. injection He as -> ->.
      apply endsWith_cons, endsWith_refl.
    + intros H. apply endsWith_cons, IH, H.
Qed.

Lemma find_known_quote (s m : string) :
  List.find (fun q => endsWith s q) KNOWN_QUOTES = Some m ->
  In m KNOWN_QUOTES /\ ~ In m zQuotes.
Proof.
  intros H. split; [apply (List.find_some _ _ H)|].
  unfold KNOWN_QUOTES in H. cbn [List.find] in H.
  repeat match type of H with
         | (if endsWith s ?q then _ else _) = _ =>
             let E := fresh "E" in
             destruct (endsWith s q) eqn:E;
             [injection H as <-; cbn; intros Hin;
              repeat (destruct Hin as [Hin|Hin]; [discriminate Hin|]);
              try contradiction | ]
         end.
  all: try discriminate.
  all: match goal with
       | Hz : endsWith _ (String "Z" ?q) = true, Hq : endsWith _ ?q = false |- _ =>
           apply endsWith_tail in Hz; congruence
       end.
Qed.

(** *** The characters of a base and a quote *)

Lemma allChars_app (f : ascii -> bool) (a b : string) :
  allChars f (a +:+ b) = (allChars f a && allChars f b)%bool.
Proof.
  induction a as [|c a IH]; [rewrite append_nil_l; reflexivity|].
  rewrite append_cons. cbn [allChars]. rewrite IH. apply andb_assoc.
Qed.

Lemma allChars_substring (f : ascii -> bool) (s : string) (n m : nat) :
  allChars f s = true -> allChars f (substring n m s) = true.
Proof.
  revert n m. induction s as [|c s IH]; intros n m H.
  - destruct n, m; reflexivity.
  - cbn in H. apply andb_true_iff in H. destruct H as [Hc Hs].
    destruct n as [|n]; cbn [substring].
    + destruct m as [|m]; [reflexivity|]. cbn. rewrite Hc. cbn. apply IH, Hs.
    + apply IH, Hs.
Qed.

Lemma upper_ascii_idem (c : ascii) :
  Js.upper_ascii (Js.upper_ascii c) = Js.upper_ascii c.
Proof.
  destruct c as [[] [] [] [] [] [] [] []]; vm_compute; reflexivity.
Qed.

Lemma toUpperCase_upperFixed (s : string) :
  allChars upperFixed (Js.toUpperCase s) = true.
Proof.
  induction s as [|c s IH]; [reflexivity|]. cbn. rewrite IH, andb_true_r.
  unfold upperFixed. rewrite upper_ascii_idem. apply Ascii.eqb_refl.
Qed.

Lemma tidy_slash : tidy "/" = true.
Proof. reflexivity. Qed.

Lemma replaceRuns_separator_tidy (b : bool) (s : string) :
  allChars upperFixed s = true ->
  allChars tidy (replaceRuns isSeparator b s) = true.
Proof.
  revert b. induction s as [|c s IH]; intros b H; [reflexivity|].
  cbn in H. apply andb_true_iff in H. destruct H as [Hc Hs].
  cbn [replaceRuns]. destruct (isSeparator c) eqn:Hsep.
  - destruct b; [apply IH, Hs|]. cbn [allChars]. rewrite tidy_slash. apply IH, Hs.
  - cbn [allChars]. unfold tidy at 1. rewrite Hsep, Hc. apply IH, Hs.
Qed.

Lemma replaceRuns_slash_tidy (b : bool) (s : string) :
  allChars tidy s = true -> allChars tidy (replaceRuns isSlash b s) = true.
Proof.
  revert b. induction s as [|c s IH]; intros b H; [reflexivity|].
  cbn in H. apply andb_true_iff in H. destruct H as [Hc Hs].
  cbn [replaceRuns]. destruct (isSlash c).
  - destruct b; [apply IH, Hs|]. cbn [allChars]. rewrite tidy_slash. apply IH, Hs.
  - cbn [allChars]. rewrite Hc. apply IH, Hs.
Qed.

Lemma sanitise_tidy (input : string) : allChars tidy (sanitise input) = true.
Proof.
  unfold sanitise. apply replaceRuns_slash_tidy, replaceRuns_separator_tidy,
    toUpperCase_upperFixed.
Qed.

Lemma known_quotes_tidy (m : string) :
  In m KNOWN_QUOTES -> allChars tidy m = true.
Proof.
  intros H.
  assert (Hall : forallb (allChars tidy) KNOWN_QUOTES = true) by reflexivity.
  rewrite forallb_forall in Hall. apply Hall, H.
Qed.

Lemma splitQuote_tidy (s : string) :
  allChars tidy s = true -> allChars tidy (splitQuote s) = true.
Proof.
  intros H. unfold splitQuote. destruct (includesSlash s); [exact H|].
  destruct (List.find _ KNOWN_QUOTES) as [m|] eqn:Hf.
  - rewrite !allChars_app. unfold sliceEnd.
    rewrite (allChars_substring _ _ _ _ H).
    rewrite (known_quotes_tidy m (proj1 (find_known_quote s m Hf))). reflexivity.
  - destruct (6 <=? String.length s)%nat; [|exact H].
    rewrite !allChars_app. unfold sliceEnd, lastChars.
    rewrite !(allChars_substring _ _ _ _ H). reflexivity.
Qed.

Lemma splitSlash_clean (s : string) :
  allChars tidy s = true ->
  Forall (fun part => allChars clean part = true) (splitSlash s).
Proof.
  induction s as [|c s IH]; intros H; cbn [splitSlash].
  - constructor; [reflexivity|constructor].
  - cbn in H. apply andb_true_iff in H. destruct H as [Hc Hs].
    specialize (IH Hs). destruct (isSlash c) eqn:Hsl.
    + constructor; [reflexivity|exact IH].
    + destruct (splitSlash s) as [|x xs].
      * constructor; [|constructor]. cbn. unfold clean. rewrite Hc, Hsl. reflexivity.
      * apply Forall_cons in IH. destruct IH as [Hx Hxs].
        constructor; [|exact Hxs]. cbn. unfold clean at 1.
        rewrite Hc, Hsl. exact Hx.
Qed.

(** *** A canonical pair is a fixed point *)

Lemma clean_facts (c : ascii) :
  clean c = true ->
  LLMDecider.isWhite c = false /\ isSeparator c = false /\
  isSlash c = false /\ Js.upper_ascii c = c.
Proof.
  unfold clean, tidy, upperFixed, isSeparator. intros H.
  apply andb_true_iff in H. destruct H as [H Hs].
  apply andb_true_iff in H. destruct H as [Hsep Hu].
  apply negb_true_iff in Hs, Hsep. apply Ascii.eqb_eq in Hu.
  split; [|auto].
  apply orb_false_iff in Hsep. destruct Hsep as [Hsep _].
  apply orb_false_iff in Hsep. destruct Hsep as [_ Hw]. exact Hw.
Qed.

Lemma plain_facts (c : ascii) :
  plain c = true ->
  LLMDecider.isWhite c = false /\ isSeparator c = false /\ Js.upper_ascii c = c.
Proof.
  unfold plain. intros H. apply orb_true_iff in H. destruct H as [H|H].
  - destruct (clean_facts c H) as (? & ? & _ & ?). auto.
  - unfold isSlash in H. apply Ascii.eqb_eq in H. subst c. repeat split.
Qed.

Lemma trimStart_plain (s : string) :
  allChars plain s = true -> LLMDecider.trimStart s = s.
Proof.
  destruct s as [|c s]; [reflexivity|]. cbn [allChars]. intros H.
  apply andb_true_iff in H. destruct H as [Hc _].
  destruct (plain_facts c Hc) as (Hw & _). cbn [LLMDecider.trimStart].
  rewrite Hw. reflexivity.
Qed.

Lemma trimEnd_plain (s : string) :
  allChars plain s = true -> LLMDecider.trimEnd s = s.
Proof.
  induction s as [|c s IH]; [reflexivity|]. cbn [allChars]. intros H.
  apply andb_true_iff in H. destruct H as [Hc Hs].
  cbn [LLMDecider.trimEnd]. rewrite (IH Hs).
  destruct (plain_facts c Hc) as (Hw & _).
  destruct s; [rewrite Hw|]; reflexivity.
Qed.

Lemma toUpperCase_plain (s : string) :
  allChars plain s = true -> Js.toUpperCase s = s.
Proof.
  induction s as [|c s IH]; [reflexivity|]. cbn [allChars]. intros H.
  apply andb_true_iff in H. destruct H as [Hc Hs].
  cbn. rewrite (IH Hs). destruct (plain_facts c Hc) as (_ & _ & ->). reflexivity.
Qed.

Lemma replaceRuns_none (isRun : ascii -> bool) (b : bool) (s : string) :
  allChars (fun c => negb (isRun c)) s = true -> replaceRuns isRun b s = s.
Proof.
  revert b. induction s as [|c s IH]; intros b H; [reflexivity|].
  cbn in H. apply andb_true_iff in H. destruct H as [Hc Hs].
  apply negb_true_iff in Hc. cbn. rewrite Hc, (IH false Hs). reflexivity.
Qed.

Lemma allChars_impl (f g : ascii -> bool) (s : string) :
  (forall c, f c = true -> g c = true) ->
  allChars f s = true -> allChars g s = true.
Proof.
  intros Hfg. induction s as [|c s IH]; [reflexivity|]. cbn. intros H.
  apply andb_true_iff in H. destruct H as [Hc Hs].
  rewrite (Hfg c Hc), (IH Hs). reflexivity.
Qed.

Lemma replaceRuns_slash_join (b q : string) :
  allChars clean b = true -> allChars clean q = true ->
  replaceRuns isSlash false (b +:+ "/" +:+ q) = b +:+ "/" +:+ q.
Proof.
  intros Hb Hq. induction b as [|c b IH].
  - rewrite append_nil_l, append_cons, append_nil_l. cbn.
    rewrite (replaceRuns_none isSlash true q); [reflexivity|].
    apply (allChars_impl clean); [|exact Hq].
    intros c Hc. destruct (clean_facts c Hc) as (_ & _ & -> & _). reflexivity.
  - cbn in Hb. apply andb_true_iff in Hb. destruct Hb as [Hc Hb].
    rewrite append_cons. cbn [replaceRuns].
    destruct (clean_facts c Hc) as (_ & _ & -> & _). rewrite (IH Hb). reflexivity.
Qed.

Lemma includesSlash_join (b q : string) : includesSlash (b +:+ "/" +:+ q) = true.
Proof.
  induction b as [|c b IH].
  - rewrite append_nil_l, append_cons. reflexivity.
  - rewrite append_cons. cbn. rewrite IH. apply orb_true_r.
Qed.

Lemma splitSlash_clean_one (q : string) :
  allChars clean q = true -> splitSlash q = [q].
Proof.
  induction q as [|c q IH]; [reflexivity|]. cbn [allChars]. intros H.
  apply andb_true_iff in H. destruct H as [Hc Hq].
  cbn [splitSlash]. destruct (clean_facts c Hc) as (_ & _ & -> & _).
  rewrite (IH Hq). reflexivity.
Qed.

Lemma splitSlash_join (b q : string) :
  allChars clean b = true -> allChars clean q = true ->
  splitSlash (b +:+ "/" +:+ q) = [b; q].
Proof.
  intros Hb Hq. induction b as [|c b IH].
  - rewrite append_nil_l, append_cons, append_nil_l. cbn.
    rewrite (splitSlash_clean_one q Hq). reflexivity.
  - cbn in Hb. apply andb_true_iff in Hb. destruct Hb as [Hc Hb].
    rewrite append_cons. cbn [splitSlash].
    destruct (clean_facts c Hc) as (_ & _ & -> & _). rewrite (IH Hb). reflexivity.
Qed.

Lemma normalisePair_parts (input : string) (r : pair) :
  normalisePair input = Bot.Ok r ->
  wsPair r = base r +:+ "/" +:+ quote r /\
  restPair r = base r +:+ quote r /\
  base r <> EmptyString /\ quote r <> EmptyString /\
  allChars clean (base r) = true /\ allChars clean (quote r) = true /\
  exists rest, splitSlash (splitQuote (sanitise input)) = base r :: quote r :: rest.
Proof.
  unfold normalisePair.
  destruct (String.eqb (LLMDecider.trim input) EmptyString); [discriminate|].
  pose proof (splitSlash_clean _ (splitQuote_tidy _ (sanitise_tidy input))) as Hcl.
  destruct (splitSlash (splitQuote (sanitise input))) as [|b [|q rest]];
    try discriminate.
  destruct (String.eqb b EmptyString) eqn:Hb; [discriminate|].
  destruct (String.eqb q EmptyString) eqn:Hq; [discriminate|].
  cbn [orb]. intros H. injection H as <-. cbn.
  apply String.eqb_neq in Hb, Hq.
  apply Forall_cons in Hcl. destruct Hcl as [Hcb Hcl].
  apply Forall_cons in Hcl. destruct Hcl as [Hcq _].
  repeat split; try assumption. exists rest. reflexivity.
Qed.

(** X13. normalisePair is idempotent on its result: when it parses an
    input into a pair, parsing that pair's wsPair gives the same pair
    again (same wsPair, restPair, base and quote). *)
Theorem normalised_pair_is_canonical (input : string) (r : pair) :
  normalisePair input = Bot.Ok r ->
  normalisePair (wsPair r) = Bot.Ok r.
Proof.
  intros H.
  destruct (normalisePair_parts input r H)
    as (Hws & Hrest & Hb & Hq & Hcb & Hcq & _).
  assert (Hplain : allChars plain (wsPair r) = true).
  { rewrite Hws, !allChars_app.
    rewrite (allChars_impl clean plain (base r)),
            (allChars_impl clean plain (quote r)); try assumption;
      try (intros c Hc; unfold plain; rewrite Hc; reflexivity).
    reflexivity. }
  assert (Htrim : LLMDecider.trim (wsPair r) = wsPair r).
  { unfold LLMDecider.trim. rewrite (trimStart_plain _ Hplain).
    apply trimEnd_plain, Hplain. }
  assert (Hsan : sanitise (wsPair r) = wsPair r).
  { unfold sanitise. rewrite Htrim, (toUpperCase_plain _ Hplain).
    rewrite (replaceRuns_none isSeparator false).
    - rewrite Hws. apply replaceRuns_slash_join; assumption.
    - apply (allChars_impl plain); [|exact Hplain].
      intros c Hc. destruct (plain_facts c Hc) as (_ & -> & _). reflexivity. }
  unfold normalisePair. rewrite Htrim, Hsan.
  assert (Hne : String.eqb (wsPair r) EmptyString = false).
  { apply String.eqb_neq. rewrite Hws. destruct (base r); [contradiction|].
    rewrite append_cons. discriminate. }
  rewrite Hne. unfold splitQuote. rewrite Hws at 1.
  rewrite includesSlash_join. rewrite Hws at 1.
  rewrite (splitSlash_join _ _ Hcb Hcq).
  apply String.eqb_neq in Hb, Hq. rewrite Hb, Hq. cbn [orb].
  f_equal. destruct r as [ws rs b q]. cbn in *. subst ws rs. reflexivity.
Qed.

(** X14. For an input that holds no separator once it is trimmed (no
    colon, white space, dash or slash), the quote that normalisePair
    splits off is never one of the Z-prefixed entries of KNOWN_QUOTES
    (ZUSD, ZEUR, ZGBP, ZJPY, ZCAD): the unprefixed entry earlier in the
    list always matches first (XXBTZUSD becomes XXBTZ/USD), so those
    five entries never take effect. *)
Theorem z_quotes_are_never_split_off (input : string) (r : pair) :
  includesSlash (sanitise input) = false ->
  normalisePair input = Bot.Ok r ->
  ~ In (quote r) zQuotes.
Proof.
  intros Hns H.
  destruct (normalisePair_parts input r H)
    as (_ & _ & Hb & Hq & Hcb & Hcq & rest & Hsplit).
  unfold splitQuote in Hsplit. rewrite Hns in Hsplit.
  assert (Hclean_s : allChars clean (sanitise input) = true).
  { assert (Ht := sanitise_tidy input).
    revert Hns Ht. generalize (sanitise input). intros s.
    induction s as [|c s IH]; [reflexivity|]. cbn.
    intros Hs Ht. apply orb_false_iff in Hs. destruct Hs as [Hc Hs].
    apply andb_true_iff in Ht. destruct Ht as [Htc Ht].
    unfold clean at 1. rewrite Htc, Hc, (IH Hs Ht). reflexivity. }
  assert (Hclean_slice : forall n m,
            allChars clean (substring n m (sanitise input)) = true)
    by (intros n m; apply allChars_substring, Hclean_s).
  destruct (List.find _ KNOWN_QUOTES) as [m|] eqn:Hf.
  - destruct (find_known_quote _ m Hf) as [Hin Hnz].
    assert (Hcm : allChars clean m = true).
    { clear -Hin. unfold KNOWN_QUOTES in Hin. cbn in Hin.
      repeat (destruct Hin as [<-|Hin]; [reflexivity|]). contradiction. }
    unfold sliceEnd in Hsplit.
    rewrite (splitSlash_join _ m (Hclean_slice _ _) Hcm) in Hsplit.
    injection Hsplit as _ <- _. exact Hnz.
  - destruct (6 <=? String.length (sanitise input))%nat eqn:Hlen.
    + unfold sliceEnd, lastChars in Hsplit.
      rewrite (splitSlash_join _ _ (Hclean_slice _ _) (Hclean_slice _ _)) in Hsplit.
      injection Hsplit as _ Hquote _.
      intros Hin. rewrite <- Hquote in Hin.
      assert (Hl : String.length
                     (substring (String.length (sanitise input) - 3) 3
                        (sanitise input)) = 3%nat).
      { apply Nat.leb_le in Hlen. revert Hlen.
        generalize (sanitise input). intros s Hlen.
        assert (Hgen : forall n s0, (n + 3 <= String.length s0)%nat ->
                  String.length (substring n 3 s0) = 3%nat).
        { induction n as [|n IHn]; intros s0 Hs0.
          - destruct s0 as [|a [|b0 [|c0 [|d0 s0]]]]; cbn in Hs0; try lia;
              reflexivity.
          - destruct s0 as [|a s0]; cbn in Hs0; [lia|]. cbn. apply IHn. lia. }
        apply Hgen. lia. }
      unfold zQuotes in Hin. cbn in Hin.
      repeat (destruct Hin as [Hin|Hin];
              [rewrite <- Hin in Hl; cbn in Hl; discriminate Hl|]).
      contradiction.
    + rewrite (splitSlash_clean_one _ Hclean_s) in Hsplit. discriminate.
Qed.

End PairNames.

Lemma normalised_pair_is_canonical_witness :
  Pair.normalisePair
    (Pair.wsPair {| Pair.wsPair := "DOGE/USD"; Pair.restPair := "DOGEUSD";
                    Pair.base := "DOGE"; Pair.quote := "USD" |}) =
  Bot.Ok {| Pair.wsPair := "DOGE/USD"; Pair.restPair := "DOGEUSD";
            Pair.base := "DOGE"; Pair.quote := "USD" |}.
Proof.
  apply (normalised_pair_is_canonical " doge - usd ").
  reflexivity.
Defined.

Lemma z_quotes_are_never_split_off_witness :
  ~ List.In
      (Pair.quote {| Pair.wsPair := "XXBTZ/USD"; Pair.restPair := "XXBTZUSD";
                     Pair.base := "XXBTZ"; Pair.quote := "USD" |})
      Pair.zQuotes.
Proof.
  apply (z_quotes_are_never_split_off "xxbtzusd").
  - reflexivity.
  - reflexivity.
Defined.

(* ---------------------------------------------------------------------- *)
(** ** Formatted numbers and live orders (Bot.js) *)
(* ---------------------------------------------------------------------- *)

Section LiveOrders.
Import Bot.
Variable numberText : Q -> string.



Lemma submitOrder_live (ex : exchange) (type ordertype : string)
    (price volume : option Js.num) (params : gmap string field)
    (b : bot) (w : world) :
  dryRun (opts b) = false ->
  let r := submitOrder numberText ex type ordertype price volume params b w in
  (forall x, resultOf r = Ok x ->
     exists payload raw,
       x = Live raw /\
       buildPayload numberText (botOf r) type ordertype price volume params
       = Ok payload /\
       addOrder ex payload = Data.Resolved raw /\
       addOrders (worldOf r) = (addOrders w ++ [AddOrder payload])%list /\
       emitted (worldOf r) = (emitted w ++ [SubmittedLive payload raw])%list) /\
  (forall m, resultOf r = Throw m ->
     emitted (worldOf r) = emitted w /\
     (addOrders (worldOf r) = addOrders w \/
      exists payload,
        addOrder ex payload = Data.Rejected m /\
        addOrders (worldOf r) = (addOrders w ++ [AddOrder payload])%list)).
Proof.
  intros Hlive. cbv zeta. unfold submitOrder.
  destruct (String.eqb type EmptyString || String.eqb ordertype EmptyString)%bool.
  { unfold resultOf, botOf, worldOf. cbn [fst snd].
    split; [intros x; discriminate|]. intros m _. auto. }
  pose proof (ensurePairMetadata_keeps ex false b w) as (Hopts & Hadd & Hem).
  destruct (ensurePairMetadata ex false b w) as [[[info|m0] b1] w1];
    unfold resultOf, botOf, worldOf in *; cbn [fst snd] in *.
  - destruct (buildPayload numberText b1 type ordertype price volume params)
      as [payload|m1] eqn:Hp; cbn [fst snd].
    + rewrite Hopts, Hlive.
      destruct (addOrder ex payload) as [raw|m2] eqn:Hex; cbn [fst snd].
      * split.
        -- intros x Hx. injection Hx as <-. exists payload, raw.
           split; [reflexivity|]. split; [exact Hp|]. split; [exact Hex|].
           split.
           ++ rewrite addOrders_emit, addOrders_called_order, Hadd. reflexivity.
           ++ cbn. rewrite Hem. reflexivity.
        -- intros m; discriminate.
      * split; [intros x; discriminate|].
        intros m Hm. injection Hm as <-. split; [exact Hem|].
        right. exists payload. split; [exact Hex|].
        rewrite addOrders_called_order, Hadd. reflexivity.
    + split; [intros x; discriminate|]. intros m _. auto.
  - split; [intros x; discriminate|]. intros m _. auto.
Qed.

(** X16. With the dryRun option off, each of marketBuy, marketSell,
    limitBuy and limitSell that returns has made exactly one AddOrder
    call, with the payload built from its arguments, returns the
    exchange's response and announces one live submission of that
    payload and response; when it throws, no event is announced and
    either no AddOrder call was made, or one was made and the exception
    is the exchange's rejection. *)
Theorem live_order_makes_one_add_order_call
    (ex : exchange) (o : order) (b : bot) (w : world) :
  dryRun (opts b) = false ->
  let r := place numberText ex o b w in
  let constructed :=
    buildPayload numberText (botOf r) (orderType o) (orderKind o)
      (orderPrice o) (orderVolume o) (orderParams o) in
  (forall x, resultOf r = Ok x ->
     exists payload raw,
       x = Live raw /\ constructed = Ok payload /\
       addOrder ex payload = Data.Resolved raw /\
       addOrders (worldOf r) = (addOrders w ++ [AddOrder payload])%list /\
       emitted (worldOf r) = (emitted w ++ [SubmittedLive payload raw])%list) /\
  (forall m, resultOf r = Throw m ->
     emitted (worldOf r) = emitted w /\
     (addOrders (worldOf r) = addOrders w \/
      exists payload,
        addOrder ex payload = Data.Rejected m /\
        addOrders (worldOf r) = (addOrders w ++ [AddOrder payload])%list)).
Proof.
  intros Hlive. cbv zeta.
  destruct o as [v ps | v ps | p v ps | p v ps];
    cbn [place orderType orderKind orderPrice orderVolume orderParams];
    unfold marketBuy, marketSell, limitBuy, limitSell;
    match goal with
    | |- context [submitOrder numberText ex ?t ?k ?pr ?vo ?pa b w] =>
        exact (submitOrder_live ex t k pr vo pa b w Hlive)
    end.
Qed.

End LiveOrders.


Lemma live_order_makes_one_add_order_call_witness :
  let o := Bot.MarketBuy (Some (Js.Fin 750)) ∅ in
  let b := Bot.dogeBot Bot.liveOptions in
  let r := Bot.place Bot.wholeText Bot.acceptingExchange o b Bot.emptyWorld in
  let constructed :=
    Bot.buildPayload Bot.wholeText (Bot.botOf r) (Bot.orderType o)
      (Bot.orderKind o) (Bot.orderPrice o) (Bot.orderVolume o)
      (Bot.orderParams o) in
  (forall x, Bot.resultOf r = Bot.Ok x ->
     exists payload raw,
       x = Bot.Live raw /\ constructed = Bot.Ok payload /\
       Bot.addOrder Bot.acceptingExchange payload = Data.Resolved raw /\
       Bot.addOrders (Bot.worldOf r) =
         (Bot.addOrders Bot.emptyWorld ++ [Bot.AddOrder payload])%list /\
       Bot.emitted (Bot.worldOf r) =
         (Bot.emitted Bot.emptyWorld ++ [Bot.SubmittedLive payload raw])%list) /\
  (forall m, Bot.resultOf r = Bot.Throw m ->
     Bot.emitted (Bot.worldOf r) = Bot.emitted Bot.emptyWorld /\
     (Bot.addOrders (Bot.worldOf r) = Bot.addOrders Bot.emptyWorld \/
      exists payload,
        Bot.addOrder Bot.acceptingExchange payload = Data.Rejected m /\
        Bot.addOrders (Bot.worldOf r) =
          (Bot.addOrders Bot.emptyWorld ++ [Bot.AddOrder payload])%list)).
Proof.
  cbv zeta.
  apply (live_order_makes_one_add_order_call Bot.wholeText
           Bot.acceptingExchange (Bot.MarketBuy (Some (Js.Fin 750)) ∅)
           (Bot.dogeBot Bot.liveOptions) Bot.emptyWorld).
  reflexivity.
Defined.

(* ---------------------------------------------------------------------- *)
(** ** Bars and edge-triggered reasons (EventEngine.js) *)
(* ---------------------------------------------------------------------- *)

Section Edges.
Import EventEngine.

Lemma Qfloor_div_pos (t : Q) (n : positive) :
  Qfloor (t / inject_Z (Zpos n)) = Qfloor t / Zpos n.
Proof.
  destruct t as [a b]. unfold Qdiv, Qinv, inject_Z, Qmult, Qfloor. cbn.
  rewrite Z.mul_1_r, Pos2Z.inj_mul, Z.div_div; lia.
Qed.

Lemma barIndex_coarser (k : positive) (t0 t1 : Q) :
  barIndex 5 t0 = barIndex 5 t1 ->
  barIndex (5 * Zpos k) t0 = barIndex (5 * Zpos k) t1.
Proof.
  unfold barIndex. intros H.
  change (5 * 60000) with (Zpos 300000) in H.
  replace (5 * Zpos k * 60000) with (Zpos (300000 * k)) by lia.
  rewrite !Qfloor_div_pos in *.
  rewrite Pos2Z.inj_mul, <- !Z.div_div by lia. rewrite H. reflexivity.
Qed.

Lemma updateBucket_finite (last : option Z) (t : Q) (minutes : Z) :
  fst (updateBucket last (Js.Fin t) minutes) = Some (barIndex minutes t) /\
  snd (updateBucket last (Js.Fin t) minutes) =
  match last with
  | None => true
  | Some b => negb (b =? barIndex minutes t)
  end.
Proof.
  unfold updateBucket, barIndex. destruct last as [b|]; [|split; reflexivity].
  destruct (b =? _) eqn:Hb; cbn; [|split; reflexivity].
  apply Z.eqb_eq in Hb. subst b. split; reflexivity.
Qed.

(** X17. For two consecutive price updates with finite timestamps and no
    pending reasons, the second shouldEvaluate call (without a threshold
    trigger) returns true exactly when the second timestamp lies in
    another 5-minute bar than the first: the 15-minute and 60-minute
    buckets never add a trigger, since a change of those bars is a
    change of the 5-minute bar. *)
Theorem evaluation_fires_on_five_minute_bars
    (now0 now1 : Z) (pd0 pd1 : priceData) (th0 : bool) (e : engine)
    (t0 t1 : Q) :
  extractTimestamp now0 pd0 = Js.Fin t0 ->
  extractTimestamp now1 pd1 = Js.Fin t1 ->
  pendingReasonSet e = [] ->
  let e1 := snd (shouldEvaluate now0 pd0 th0 e) in
  fst (shouldEvaluate now1 pd1 false e1) =
  negb (barIndex 5 t0 =? barIndex 5 t1).
Proof.
  intros H0 H1 Hp. cbv zeta. unfold shouldEvaluate. rewrite H0, H1.
  destruct (updateBucket_finite (bucket5m e) t0 5) as [Ha _].
  destruct (updateBucket_finite (bucket15m e) t0 15) as [Hb _].
  destruct (updateBucket_finite (bucket60m e) t0 60) as [Hc _].
  destruct (updateBucket (bucket5m e) (Js.Fin t0) 5) as [b5 r5].
  destruct (updateBucket (bucket15m e) (Js.Fin t0) 15) as [b15 r15].
  destruct (updateBucket (bucket60m e) (Js.Fin t0) 60) as [b60 r60].
  cbn [fst snd] in Ha, Hb, Hc. subst b5 b15 b60.
  cbn [snd bucket5m bucket15m bucket60m pendingReasonSet lastEmitTs debounceMs].
  destruct (updateBucket_finite (Some (barIndex 5 t0)) t1 5) as [_ Ha].
  destruct (updateBucket_finite (Some (barIndex 15 t0)) t1 15) as [_ Hb].
  destruct (updateBucket_finite (Some (barIndex 60 t0)) t1 60) as [_ Hc].
  destruct (updateBucket (Some (barIndex 5 t0)) (Js.Fin t1) 5) as [b5 r5'].
  destruct (updateBucket (Some (barIndex 15 t0)) (Js.Fin t1) 15) as [b15 r15'].
  destruct (updateBucket (Some (barIndex 60 t0)) (Js.Fin t1) 60) as [b60 r60'].
  cbn [fst snd] in *. subst r5' r15' r60'. rewrite Hp. cbn [length Nat.eqb negb andb].
  rewrite !orb_false_r.
  destruct (barIndex 5 t0 =? barIndex 5 t1) eqn:H5; cbn [negb orb]; [|reflexivity].
  apply Z.eqb_eq in H5.
  pose proof (barIndex_coarser 3 t0 t1 H5) as H15.
  pose proof (barIndex_coarser 12 t0 t1 H5) as H60.
  change (5 * 3) with 15 in H15. change (5 * 12) with 60 in H60.
  rewrite H15, H60, !Z.eqb_refl. reflexivity.
Qed.

(** *** Edge-triggered reasons *)

Lemma truthyString_some (o : option string) (s : string) :
  truthyString o = Some s -> truthyString (Some s) = Some s.
Proof.
  unfold truthyString. destruct o as [x|]; [|discriminate].
  destruct (String.eqb x EmptyString) eqn:Hx; [discriminate|].
  intros H; injection H as <-. rewrite Hx. reflexivity.
Qed.

Lemma evaluateTrend_again (sn : snapshot) (last : option string)
    (rs rs' : list string) :
  evaluateTrend sn (fst (evaluateTrend sn last rs)) rs' =
  (fst (evaluateTrend sn last rs), rs').
Proof.
  unfold evaluateTrend.
  destruct (truthyString (regimeTrend sn)) as [ts|] eqn:Ht; cbn [fst].
  - rewrite (truthyString_some _ _ Ht), String.eqb_refl. reflexivity.
  - reflexivity.
Qed.

Lemma evaluateVolatility_again (sn : snapshot) (last : option string)
    (rs rs' : list string) :
  evaluateVolatility sn (fst (evaluateVolatility sn last rs)) rs' =
  (fst (evaluateVolatility sn last rs), rs').
Proof.
  unfold evaluateVolatility.
  destruct (truthyString (regimeVolatility sn)) as [vs|] eqn:Hv; cbn [fst].
  - rewrite (truthyString_some _ _ Hv), String.eqb_refl. reflexivity.
  - reflexivity.
Qed.

Lemma evaluateConfluence_again (t : thresholds) (sn : snapshot)
    (last : option Z) (rs rs' : list string) :
  (0 < confluenceDelta t)%Q ->
  evaluateConfluence t sn (fst (evaluateConfluence t sn last rs)) rs' =
  (fst (evaluateConfluence t sn last rs), rs').
Proof.
  intros Hcd. unfold evaluateConfluence.
  destruct (confluenceScore sn) as [score|]; cbn [fst]; [|reflexivity].
  rewrite Z.sub_diag.
  assert (H : Qle_bool (confluenceDelta t) (inject_Z (Z.abs 0)) = false).
  { apply not_true_is_false. intros H. apply Qle_bool_iff in H.
    change (inject_Z (Z.abs 0)) with 0%Q in H. lra. }
  rewrite H. reflexivity.
Qed.

Lemma evaluateLiquidity_again (sn : snapshot) (last : liquidityFlags)
    (rs rs' : list string) :
  evaluateLiquidity sn (fst (evaluateLiquidity sn last rs)) rs' =
  (fst (evaluateLiquidity sn last rs), rs').
Proof.
  unfold evaluateLiquidity. cbn [fst].
  rewrite !andb_negb_r. reflexivity.
Qed.

Lemma evaluateRisk_again (t : thresholds) (sn : snapshot)
    (lastAlert : option string) (rs : list string) :
  fst (evaluateRisk t sn (fst (evaluateRisk t sn lastAlert rs)) []) =
  fst (evaluateRisk t sn lastAlert rs) /\
  forall r, In r (snd (evaluateRisk t sn (fst (evaluateRisk t sn lastAlert rs)) [])) ->
            exists age, r = timeStop age.
Proof.
  unfold evaluateRisk.
  destruct (risk sn) as [rk|]; cbn [fst snd]; [|split; [reflexivity|intros r []]].
  assert (Htail : forall r,
            In r match positionAgeBars5m rk with
                 | Some positionAge =>
                     if (Qle_bool (positionAgeBars t) (inject_Z positionAge) &&
                         negb (Qle_bool (1 # 2)
                                 (Qabs match unrealizedR rk with
                                       | Js.Fin u => u
                                       | _ => 0%Q
                                       end)))%bool
                     then push ("TimeStop(" +:+ Js.showZ positionAge +:+ "bars)") []
                     else []
                 | None => []
                 end -> exists age, r = timeStop age).
  { intros r. destruct (positionAgeBars5m rk) as [age|]; [|intros []].
    destruct (_ && _)%bool; [|intros []].
    intros [<-|[]]. exists age. reflexivity. }
  destruct (dailyPnlPct rk) as [dd| | |];
    try (cbn [fst snd]; split; [reflexivity|exact Htail]).
  destruct (Qle_bool dd (- Qabs (drawdownGuard t))) eqn:Hdd;
    [|cbn [fst snd]; split; [reflexivity|exact Htail]].
  destruct lastAlert as [k|].
  - destruct (String.eqb k _) eqn:Hk; cbn [fst snd].
    + rewrite Hk. cbn [fst snd]. split; [reflexivity|exact Htail].
    + rewrite String.eqb_refl. cbn [fst snd]. split; [reflexivity|exact Htail].
  - cbn [fst snd]. rewrite String.eqb_refl. cbn [fst snd].
    split; [reflexivity|exact Htail].
Qed.

(** X18. With a positive confluenceDelta threshold, after detect has
    processed a snapshot, the same snapshot (read without a threshold
    trigger) raises no reason again except time stops: trend flips,
    volatility regimes, confluence jumps, liquidity events and the
    drawdown guardrail are edge-triggered, while the time stop is raised
    on every evaluation. *)
Theorem repeated_snapshot_raises_only_time_stops
    (now : Z) (sn : snapshot) (th : bool) (e : engine) :
  (0 < confluenceDelta (thr e))%Q ->
  let e1 := snd (detect now (Some sn) th e) in
  forall r, In r (reasonsOf sn false e1) -> exists age, r = timeStop age.
Proof.
  intros Hcd. cbv zeta. unfold detect, reasonsOf.
  assert (Hstate :
    forall tr vo co li al rs,
      evaluateAll sn th e = (tr, vo, co, li, al, rs) ->
      tr = fst (evaluateTrend sn (lastTrendState e) []) /\
      vo = fst (evaluateVolatility sn (lastVolState e)
                  (snd (evaluateTrend sn (lastTrendState e) []))) /\
      co = fst (evaluateConfluence (thr e) sn (lastConfluence e)
                  (snd (evaluateVolatility sn (lastVolState e)
                          (snd (evaluateTrend sn (lastTrendState e) []))))) /\
      li = fst (evaluateLiquidity sn (lastLiquidity e)
                  (snd (evaluateConfluence (thr e) sn (lastConfluence e)
                     (snd (evaluateVolatility sn (lastVolState e)
                          (snd (evaluateTrend sn (lastTrendState e) []))))))) /\
      al = fst (evaluateRisk (thr e) sn (lastDrawdownAlert e)
                  (snd (evaluateLiquidity sn (lastLiquidity e)
                    (snd (evaluateConfluence (thr e) sn (lastConfluence e)
                     (snd (evaluateVolatility sn (lastVolState e)
                          (snd (evaluateTrend sn (lastTrendState e) [])))))))))).
  { intros tr vo co li al rs. unfold evaluateAll.
    destruct (evaluateTrend sn (lastTrendState e) []) as [tr0 r1].
    cbn [fst snd].
    destruct (evaluateVolatility sn (lastVolState e) r1) as [vo0 r2].
    cbn [fst snd].
    destruct (evaluateConfluence (thr e) sn (lastConfluence e) r2) as [co0 r3].
    cbn [fst snd].
    destruct (evaluateLiquidity sn (lastLiquidity e) r3) as [li0 r4].
    cbn [fst snd].
    destruct (evaluateRisk (thr e) sn (lastDrawdownAlert e) r4) as [al0 r5].
    cbn [fst snd]. intros H. injection H as <- <- <- <- <- _. repeat split. }
  destruct (evaluateAll sn th e) as [[[[[tr vo] co] li] al] rs] eqn:Hall.
  destruct (Hstate tr vo co li al rs eq_refl) as (-> & -> & -> & -> & ->).
  destruct (maybeEmit _ _ e) as [[em pe] ts]. cbn [snd].
  unfold evaluateAll.
  cbn [lastTrendState lastVolState lastConfluence lastLiquidity
       lastDrawdownAlert thr].
  rewrite evaluateTrend_again, evaluateVolatility_again,
    (evaluateConfluence_again _ _ _ _ _ Hcd), evaluateLiquidity_again.
  match goal with
  | |- context [evaluateRisk (thr e) sn (fst (evaluateRisk (thr e) sn ?la ?rs0)) []] =>
      destruct (evaluateRisk_again (thr e) sn la rs0) as [_ Hr];
      destruct (evaluateRisk (thr e) sn (fst (evaluateRisk (thr e) sn la rs0)) [])
        as [al' r5']
  end.
  cbn [snd] in *. exact Hr.
Qed.

(** *** Pending reasons *)

Lemma set_add_In (x y : string) (l : list string) :
  In y l \/ y = x -> In y (Js.set_add x l).
Proof.
  unfold Js.set_add. intros [H | ->].
  - destruct (existsb _ l); [exact H | apply List.in_or_app; left; exact H].
  - destruct (existsb (String.eqb x) l) eqn:He.
    + apply existsb_exists in He. destruct He as (z & Hz & Heq).
      apply String.eqb_eq in Heq. subst z. exact Hz.
    + apply List.in_or_app. right. left. reflexivity.
Qed.

Lemma accumulate_In (reasons pending : list string) (r : string) :
  In r pending \/ In r reasons -> In r (accumulate reasons pending).
Proof.
  unfold accumulate. revert pending.
  induction reasons as [|x rs IH]; intros pending [H | H]; cbn.
  - exact H.
  - destruct H.
  - apply IH. left. apply set_add_In. left. exact H.
  - destruct H as [-> | H].
    + apply IH. left. apply set_add_In. right. reflexivity.
    + apply IH. right. exact H.
Qed.

(** X19. detect never drops a reason: a reason that was pending before
    the call, or that the snapshot raises, is either in the emitted
    array (and the pending set is then empty) or nothing is emitted and
    it is in the pending set after the call. *)
Theorem reasons_are_emitted_or_kept
    (now : Z) (sn : option snapshot) (th : bool) (e : engine) (r : string) :
  In r (pendingReasonSet e) \/
  (exists s, sn = Some s /\ In r (reasonsOf s th e)) ->
  let d := detect now sn th e in
  (In r (fst d) /\ pendingReasonSet (snd d) = []) \/
  (fst d = [] /\ In r (pendingReasonSet (snd d))).
Proof.
  intros Hr. cbv zeta. destruct sn as [s|].
  - assert (Hacc : In r (accumulated s th e)).
    { unfold accumulated. apply accumulate_In.
      destruct Hr as [H | (s' & Hs & H)]; [left; exact H|].
      injection Hs as <-. right. exact H. }
    destruct (detect_cases now s th e) as [[Hne Hg] | Hc].
    + destruct (detect_emit now s th e Hne Hg) as (-> & -> & _).
      left. split; [exact Hacc|reflexivity].
    + destruct (detect_hold now s th e Hc) as (-> & -> & _).
      right. split; [reflexivity|exact Hacc].
  - destruct Hr as [H | (s' & Hs & _)]; [|discriminate].
    right. split; [reflexivity|exact H].
Qed.

End Edges.

Lemma evaluation_fires_on_five_minute_bars_witness :
  let e := EventEngine.construct None EventEngine.defaultThresholds in
  let e1 := snd (EventEngine.shouldEvaluate 0 (EventEngine.barUpdate 290000)
                   false e) in
  fst (EventEngine.shouldEvaluate 0 (EventEngine.barUpdate 310000) false e1) =
  negb (EventEngine.barIndex 5 290000 =? EventEngine.barIndex 5 310000).
Proof.
  cbv zeta.
  apply (evaluation_fires_on_five_minute_bars 0 0
           (EventEngine.barUpdate 290000) (EventEngine.barUpdate 310000) false
           (EventEngine.construct None EventEngine.defaultThresholds)
           290000 310000).
  - reflexivity.
  - reflexivity.
  - reflexivity.
Defined.

Lemma repeated_snapshot_raises_only_time_stops_witness :
  EventEngine.reasonsOf EventEngine.busySnapshot false
    (EventEngine.construct None EventEngine.defaultThresholds) <> [] /\
  let e1 := snd (EventEngine.detect 100001 (Some EventEngine.busySnapshot) false
                   (EventEngine.construct None EventEngine.defaultThresholds)) in
  forall r, List.In r (EventEngine.reasonsOf EventEngine.busySnapshot false e1) ->
            exists age, r = EventEngine.timeStop age.
Proof.
  split; [vm_compute; discriminate|].
  apply (repeated_snapshot_raises_only_time_stops 100001
           EventEngine.busySnapshot false
           (EventEngine.construct None EventEngine.defaultThresholds)).
  reflexivity.
Defined.

Lemma reasons_are_emitted_or_kept_witness :
  let e := EventEngine.construct None EventEngine.defaultThresholds in
  let d := EventEngine.detect 100001 (Some EventEngine.busySnapshot) false e in
  (List.In "LiquiditySweep(Low)"%string (fst d) /\
   EventEngine.pendingReasonSet (snd d) = []) \/
  (fst d = [] /\
   List.In "LiquiditySweep(Low)"%string (EventEngine.pendingReasonSet (snd d))).
Proof.
  cbv zeta.
  apply (reasons_are_emitted_or_kept 100001 (Some EventEngine.busySnapshot)
           false (EventEngine.construct None EventEngine.defaultThresholds)
           "LiquiditySweep(Low)").
  right. exists EventEngine.busySnapshot. split; [reflexivity|].
  vm_compute. auto.
Defined.
